(** * Horametre: the French labour-law rules engine (FrenchRules)

    A shallow embedding of the calculation engine of Horametre
    (hours, night hours, overtime brackets, pay, warnings, period
    processing) together with the properties its specification states.

    Numbers.  The engine computes on JavaScript numbers.  They are embedded
    as exact rationals extended with [Infinity], [-Infinity] and [NaN]:
    arithmetic on finite values is exact (binary rounding of doubles and the
    sign of zero are not represented), while the propagation of [NaN] and the
    comparisons that are false on [NaN] follow the language.  Where the last
    digit of a rounded amount depends on the binary rounding (amounts of pay,
    sums of hours), the properties are stated to the cent or to the
    hundredth of an hour, not as exact values. *)

From Stdlib Require Import QArith Qround Qminmax Lqa ZArith Lia.
From Stdlib Require Import Bool Ascii String List DecimalString.
From Stdlib Require DecimalPos DecimalZ.
Local Open Scope string_scope.
Import ListNotations.

Local Open Scope Q_scope.

(** ** JavaScript numbers *)

Inductive number : Type :=
| Num (q : Q)
| PInf
| NInf
| NaN.

Declare Scope js_scope.
Delimit Scope js_scope with js.
Bind Scope js_scope with number.

Definition ofZ (z : Z) : number := Num (inject_Z z).

(** Equality of numbers as values: rationals are compared by [Qeq]. *)
Definition num_eq (a b : number) : Prop :=
  match a, b with
  | Num x, Num y => x == y
  | PInf, PInf => True
  | NInf, NInf => True
  | NaN, NaN => True
  | _, _ => False
  end.

Infix "=n=" := num_eq (at level 70, no associativity).

Definition num_eqb (a b : number) : bool :=
  match a, b with
  | Num x, Num y => Qeq_bool x y
  | PInf, PInf => true
  | NInf, NInf => true
  | NaN, NaN => true
  | _, _ => false
  end.

Definition isFinite (a : number) : bool :=
  match a with Num _ => true | _ => false end.

Definition neg (a : number) : number :=
  match a with
  | Num x => Num (- x)
  | PInf => NInf
  | NInf => PInf
  | NaN => NaN
  end.

Definition add (a b : number) : number :=
  match a, b with
  | NaN, _ | _, NaN => NaN
  | Num x, Num y => Num (x + y)
  | PInf, NInf | NInf, PInf => NaN
  | PInf, _ | _, PInf => PInf
  | NInf, _ | _, NInf => NInf
  end.

Definition sub (a b : number) : number := add a (neg b).

(** The infinity whose sign is that of [c] (a comparison with zero);
    [NaN] when [c] is [Eq]. *)
Definition signedInf (c : comparison) : number :=
  match c with Lt => NInf | Eq => NaN | Gt => PInf end.

Definition mul (a b : number) : number :=
  match a, b with
  | NaN, _ | _, NaN => NaN
  | Num x, Num y => Num (x * y)
  | PInf, Num y | Num y, PInf => signedInf (y ?= 0)
  | NInf, Num y | Num y, NInf => signedInf (CompOpp (y ?= 0))
  | PInf, PInf | NInf, NInf => PInf
  | PInf, NInf | NInf, PInf => NInf
  end.

Definition div (a b : number) : number :=
  match a, b with
  | NaN, _ | _, NaN => NaN
  | Num x, Num y =>
    if Qeq_dec y 0 then signedInf (x ?= 0) else Num (x / y)
  | Num _, (PInf | NInf) => Num 0
  | PInf, Num y => if Qlt_le_dec y 0 then NInf else PInf
  | NInf, Num y => if Qlt_le_dec y 0 then PInf else NInf
  | (PInf | NInf), (PInf | NInf) => NaN
  end.

(** [a < b]; false as soon as one side is [NaN]. *)
Definition lt (a b : number) : bool :=
  match a, b with
  | NaN, _ | _, NaN => false
  | Num x, Num y => if Qlt_le_dec x y then true else false
  | NInf, (Num _ | PInf) => true
  | Num _, PInf => true
  | _, _ => false
  end.

(** [a <= b]; false as soon as one side is [NaN]. *)
Definition le (a b : number) : bool :=
  match a, b with
  | NaN, _ | _, NaN => false
  | Num x, Num y => if Qlt_le_dec y x then false else true
  | NInf, _ => true
  | _, PInf => true
  | _, _ => false
  end.

Definition gt (a b : number) : bool := lt b a.

(** [a === b] on numbers. *)
Definition strictEq (a b : number) : bool :=
  match a, b with
  | Num x, Num y => if Qeq_dec x y then true else false
  | PInf, PInf => true
  | NInf, NInf => true
  | _, _ => false
  end.

(** Truthiness of a number: [0] and [NaN] are falsy. *)
Definition truthy (a : number) : bool :=
  match a with
  | Num x => if Qeq_dec x 0 then false else true
  | NaN => false
  | _ => true
  end.

(** [a || b] on numbers. *)
Definition or_else (a b : number) : number := if truthy a then a else b.

Module Math.

Definition min (a b : number) : number :=
  match a, b with
  | NaN, _ | _, NaN => NaN
  | _, _ => if lt b a then b else a
  end.

Definition max (a b : number) : number :=
  match a, b with
  | NaN, _ | _, NaN => NaN
  | _, _ => if lt a b then b else a
  end.

(** [Math.round]: the nearest integer, ties towards [+Infinity]. *)
Definition round (a : number) : number :=
  match a with
  | Num x => Num (inject_Z (Qfloor (x + (1 # 2))))
  | _ => a
  end.

End Math.

Notation "a + b" := (add a b) : js_scope.
Notation "a - b" := (sub a b) : js_scope.
Notation "a * b" := (mul a b) : js_scope.
Notation "a / b" := (div a b) : js_scope.
Notation "a <=? b" := (le a b) (at level 70) : js_scope.
Notation "a <? b" := (lt a b) (at level 70) : js_scope.
Notation "a >? b" := (gt a b) (at level 70) : js_scope.
Notation "a === b" := (strictEq a b) (at level 70) : js_scope.

(** The idiom [Math.round(x * 10^k) / 10^k] of the engine. *)
Definition round2 (x : number) : number :=
  (Math.round (x * Num 100) / Num 100)%js.

Definition round4 (x : number) : number :=
  (Math.round (x * Num 10000) / Num 10000)%js.

(** ** Configuration *)

(** A bracket of the overtime scale. *)
Record Bracket : Type := mkBracket {
  b_from : number;
  b_to : number;
  b_rate : number;
  b_label : string
}.

Module CONFIG.
Definition weeklyLegalHours : Z := 35.
Definition dailyMaxHours : Z := 10.
Definition weeklyMaxHours : Z := 48.
Definition weeklyAvgMaxHours : Z := 44.
Definition minDailyRestHours : Z := 11.
Definition minWeeklyRestHours : Z := 35.
Definition mandatoryBreakAfterMinutes : Z := 360.
Definition mandatoryBreakMinutes : Z := 20.
Definition nightStart : Z := 21.
Definition nightEnd : Z := 6.
Definition annualOvertimeQuota : Z := 220.
Definition overtimeBrackets : list Bracket :=
  [ mkBracket (Num 35) (Num 43) (Num 1.25) "Heures sup. 25%";
    mkBracket (Num 43) PInf (Num 1.50) "Heures sup. 50%" ].
Definition sundayPremiumRate : number := Num 0.50.
Definition holidayPremiumRate : number := Num 1.00.
(** [contractBases[contractBase]]: the monthly hours of a contract base,
    [None] for a base that is not a key of the table. *)
Definition contractBases (contractBase : number) : option number :=
  if (contractBase === Num 24)%js then Some (Num 104.00)
  else if (contractBase === Num 32)%js then Some (Num 138.67)
  else if (contractBase === Num 35)%js then Some (Num 151.67)
  else if (contractBase === Num 39)%js then Some (Num 169.00)
  else None.
Definition structuralOvertimeHours39 : Z := 4.
End CONFIG.

(** ** Weekly overtime breakdown *)

(** An entry of [result.brackets]. *)
Record OvertimeBracket : Type := mkOvertimeBracket {
  label : string;
  hours : number;
  rate : number;
  multipliedHours : number
}.

Record OvertimeBreakdown : Type := mkOvertimeBreakdown {
  regularHours : number;
  structuralHours : number;
  brackets : list OvertimeBracket;
  totalOvertime : number;
  contractBase : number
}.

(** The loop [for (const bracket of ...)] shared by the two regimes of
    [calculateOvertime]: it returns the brackets pushed from
    [remainingOvertime] on, and stops at the first bracket after which
    nothing remains. *)
Fixpoint fillBrackets (scale : list Bracket) (remainingOvertime : number)
  : list OvertimeBracket :=
  match scale with
  | [] => []
  | bracket :: rest =>
      let bracketWidth := (b_to bracket - b_from bracket)%js in
      let hoursInBracket := Math.min remainingOvertime bracketWidth in
      let '(pushed, remainingOvertime) :=
        if (hoursInBracket >? Num 0)%js then
          ([ {| label := b_label bracket;
                hours := round2 hoursInBracket;
                rate := b_rate bracket;
                multipliedHours :=
                  round2 (hoursInBracket * b_rate bracket)%js |} ],
           (remainingOvertime - hoursInBracket)%js)
        else ([], remainingOvertime) in
      if (remainingOvertime <=? Num 0)%js then pushed
      else pushed ++ fillBrackets rest remainingOvertime
  end.

Definition overtimeBrackets39 : list Bracket :=
  [ mkBracket (Num 39) (Num 43) (Num 1.25) "Heures sup. 25% (>39h)";
    mkBracket (Num 43) PInf (Num 1.50) "Heures sup. 50% (>43h)" ].

Definition calculateOvertime (weeklyHours contractBase : number)
  : OvertimeBreakdown :=
  let threshold :=
    if (contractBase === Num 39)%js then Num 39
    else ofZ CONFIG.weeklyLegalHours in
  if (contractBase === Num 39)%js then
    let hoursUpTo35 := Math.min weeklyHours (Num 35) in
    let structuralHours :=
      Math.min (Math.max (weeklyHours - Num 35)%js (Num 0)) (Num 4) in
    if (weeklyHours <=? threshold)%js then
      {| regularHours := hoursUpTo35;
         structuralHours := structuralHours;
         brackets := [];
         totalOvertime := Num 0;
         contractBase := contractBase |}
    else
      let remainingOvertime := (weeklyHours - threshold)%js in
      {| regularHours := hoursUpTo35;
         structuralHours := structuralHours;
         brackets := fillBrackets overtimeBrackets39 remainingOvertime;
         totalOvertime := remainingOvertime;
         contractBase := contractBase |}
  else
    if (weeklyHours <=? ofZ CONFIG.weeklyLegalHours)%js then
      {| regularHours := weeklyHours;
         structuralHours := Num 0;
         brackets := [];
         totalOvertime := Num 0;
         contractBase := contractBase |}
    else
      let remainingOvertime :=
        (weeklyHours - ofZ CONFIG.weeklyLegalHours)%js in
      {| regularHours := ofZ CONFIG.weeklyLegalHours;
         structuralHours := Num 0;
         brackets := fillBrackets CONFIG.overtimeBrackets remainingOvertime;
         totalOvertime := remainingOvertime;
         contractBase := contractBase |}.

(** ** Pay of a week *)

Record PayBreakdown : Type := mkPayBreakdown {
  regularPay : number;
  structuralPay : number;
  overtimePay : number;
  pay_sundayHours : number;
  sundayPremium : number;
  pay_holidayHours : number;
  holidayPremium : number;
  totalPay : number;
  breakdown : OvertimeBreakdown
}.

(** The accumulation [overtimePay += bracket.hours * hourlyRate * bracket.rate]. *)
Definition sumOvertimePay (hourlyRate : number) (bs : list OvertimeBracket)
  : number :=
  fold_left (fun overtimePay bracket =>
               (overtimePay + hours bracket * hourlyRate * rate bracket)%js)
            bs (Num 0).

Definition calculatePay
  (weeklyHours hourlyRate contractBase sundayHours holidayHours : number)
  : option PayBreakdown :=
  if negb (truthy hourlyRate) || (hourlyRate <=? Num 0)%js then None
  else
    let overtime := calculateOvertime weeklyHours contractBase in
    let basePay := (regularHours overtime * hourlyRate)%js in
    let '(structuralPay, basePay) :=
      if (contractBase === Num 39)%js && (structuralHours overtime >? Num 0)%js
      then
        let structuralPay :=
          (structuralHours overtime * hourlyRate * Num 1.25)%js in
        (structuralPay, (basePay + structuralPay)%js)
      else (Num 0, basePay) in
    let overtimePay := sumOvertimePay hourlyRate (brackets overtime) in
    let sundayPremium :=
      (sundayHours * hourlyRate * CONFIG.sundayPremiumRate)%js in
    let holidayPremium :=
      (holidayHours * hourlyRate * CONFIG.holidayPremiumRate)%js in
    let totalPay :=
      (basePay + overtimePay + sundayPremium + holidayPremium)%js in
    Some {| regularPay := round2 basePay;
            structuralPay := round2 structuralPay;
            overtimePay := round2 overtimePay;
            pay_sundayHours := round2 sundayHours;
            sundayPremium := round2 sundayPremium;
            pay_holidayHours := round2 holidayHours;
            holidayPremium := round2 holidayPremium;
            totalPay := round2 totalPay;
            breakdown := overtime |}.

(** ** Calculate hourly rate from gross monthly salary *)

(** A table lookup that may be [undefined]: [a || b], and the number an
    arithmetic operator reads from it. *)
Definition lookup_or (a b : option number) : option number :=
  match a with
  | Some h => if truthy h then a else b
  | None => b
  end.

Definition toNumber (a : option number) : number :=
  match a with Some h => h | None => NaN end.

Definition calculateHourlyRate (grossMonthlySalary contractBase : number)
  : number :=
  if negb (truthy grossMonthlySalary) || (grossMonthlySalary <=? Num 0)%js
  then Num 0
  else
    let monthlyHours :=
      lookup_or (CONFIG.contractBases contractBase)
                (CONFIG.contractBases (Num 35)) in
    round4 (grossMonthlySalary / toNumber monthlyHours)%js.

(** ** Warnings *)

Record Warning : Type := mkWarning {
  type : string;
  message : string
}.

(** Decimal rendering of an integer, as a template literal prints it. *)
Definition intToString (z : Z) : string :=
  NilZero.string_of_int (Z.to_int z).

Definition getWeeklyWarnings (weeklyHours : number) : list Warning :=
  if (weeklyHours >? ofZ CONFIG.weeklyMaxHours)%js then
    [ {| type := "error";
         message := "Dépassement durée maximale hebdomadaire ("
                    ++ intToString CONFIG.weeklyMaxHours ++ "h)" |} ]
  else if (weeklyHours >? ofZ CONFIG.weeklyAvgMaxHours)%js then
    [ {| type := "warning";
         message := "Attention : " ++ intToString CONFIG.weeklyAvgMaxHours
                    ++ "h max en moyenne sur 12 semaines" |} ]
  else [].

(** ** Comparing results

    Rationals are compared by [Qeq]; the records of the engine are compared
    field by field. *)

(** The nearest number of hundredths to [x], halves upwards. *)
Definition nearestHundredth (x : Q) : Q :=
  inject_Z (Qfloor (x * 100 + (1 # 2))) / 100.

(** A bracket with the label [lbl], [h] hours and the rate [r]. *)
Definition bracketIs (b : OvertimeBracket) (lbl : string) (h r : Q) : Prop :=
  label b = lbl /\ hours b =n= Num h /\ rate b =n= Num r.


(** The bracket recorded for [h] hours allotted at the rate [r]. *)
Definition recorded (lbl : string) (r h : Q) : OvertimeBracket :=
  {| label := lbl;
     hours := round2 (Num h);
     rate := Num r;
     multipliedHours := round2 (Num (h * r)) |}.


Definition sumNumbers (l : list number) : number :=
  fold_left add l (Num 0).




(** ** Strings and their conversion to numbers *)

(** [s.split(sep)] for a one-character separator. *)
Fixpoint split (sep : ascii) (s : string) : list string :=
  match s with
  | EmptyString => [EmptyString]
  | String c s' =>
      if Ascii.eqb c sep then EmptyString :: split sep s'
      else match split sep s' with
           | x :: xs => String c x :: xs
           | [] => [String c EmptyString]
           end
  end.

(** ASCII white space (tab, line feed, vertical tab, form feed, carriage
    return, space); the white space outside ASCII that the language also
    trims is not recognised here. *)
Definition isWhiteSpace (c : ascii) : bool :=
  existsb (Ascii.eqb c) ["009"; "010"; "011"; "012"; "013"; " "]%char.

Fixpoint dropWhiteSpace (cs : list ascii) : list ascii :=
  match cs with
  | c :: r => if isWhiteSpace c then dropWhiteSpace r else cs
  | [] => []
  end.

Definition trim (cs : list ascii) : list ascii :=
  rev (dropWhiteSpace (rev (dropWhiteSpace cs))).

(** The value of a digit in the radix [radix] (at most 16). *)
Definition digitValue (radix : Z) (c : ascii) : option Z :=
  let n := Z.of_N (N_of_ascii c) in
  let v :=
    if ((48 <=? n) && (n <=? 57))%Z then Some (n - 48)%Z
    else if ((97 <=? n) && (n <=? 102))%Z then Some (n - 87)%Z
    else if ((65 <=? n) && (n <=? 70))%Z then Some (n - 55)%Z
    else None in
  match v with
  | Some d => if (d <? radix)%Z then Some d else None
  | None => None
  end.

(** The longest prefix of digits, by value, and what follows it. *)
Fixpoint spanDigits (radix : Z) (cs : list ascii) : list Z * list ascii :=
  match cs with
  | c :: r =>
      match digitValue radix c with
      | Some d => let (ds, rest) := spanDigits radix r in (d :: ds, rest)
      | None => ([], cs)
      end
  | [] => ([], [])
  end.

Definition digitsValue (radix : Z) (ds : list Z) : Z :=
  fold_left (fun acc d => (acc * radix + d)%Z) ds 0%Z.

Definition isNil {A : Type} (l : list A) : bool :=
  match l with [] => true | _ => false end.

(** [0x..], [0o..] and [0b..] literals. *)
Definition radixLiteral (radix : Z) (cs : list ascii) : number :=
  let (ds, rest) := spanDigits radix cs in
  if negb (isNil ds) && isNil rest then ofZ (digitsValue radix ds) else NaN.

(** The exponent part of a decimal literal: [Some 0] when there is none,
    [None] when what follows the mantissa is not an exponent. *)
Definition exponentPart (cs : list ascii) : option Z :=
  match cs with
  | [] => Some 0%Z
  | ("e" | "E")%char :: r =>
      let '(sign, r') :=
        match r with
        | "+"%char :: r' => (1%Z, r')
        | "-"%char :: r' => ((-1)%Z, r')
        | _ => (1%Z, r)
        end in
      let (ds, rest) := spanDigits 10 r' in
      if negb (isNil ds) && isNil rest
      then Some (sign * digitsValue 10 ds)%Z else None
  | _ => None
  end.

(** An unsigned decimal literal, or [Infinity]. *)
Definition unsignedDecimal (cs : list ascii) : number :=
  if String.eqb (string_of_list_ascii cs) "Infinity" then PInf
  else
    let (ip, r1) := spanDigits 10 cs in
    let (fp, r2) :=
      match r1 with
      | "."%char :: r => spanDigits 10 r
      | _ => ([], r1)
      end in
    if isNil ip && isNil fp then NaN
    else
      match exponentPart r2 with
      | Some e =>
          Num ((inject_Z (digitsValue 10 ip)
                + inject_Z (digitsValue 10 fp)
                  / inject_Z (10 ^ Z.of_nat (List.length fp)))
               * 10 ^ e)
      | None => NaN
      end.

(** [Number(s)]: the number a string denotes, [NaN] when it denotes none.
    A decimal literal denotes its exact value, also beyond the range of
    doubles, where the language gives [Infinity]. *)
Definition Number (s : string) : number :=
  match trim (list_ascii_of_string s) with
  | [] => Num 0
  | "0"%char :: ("x" | "X")%char :: r => radixLiteral 16 r
  | "0"%char :: ("o" | "O")%char :: r => radixLiteral 8 r
  | "0"%char :: ("b" | "B")%char :: r => radixLiteral 2 r
  | "+"%char :: r => unsignedDecimal r
  | "-"%char :: r => neg (unsignedDecimal r)
  | cs => unsignedDecimal cs
  end.

(** [parseInt(x)] of a number: the integer part of its decimal rendering
    (numbers so large or so small that they are rendered with an exponent
    are outside the idealisation). *)
Definition parseInt (x : number) : number :=
  match x with
  | Num q => Num (inject_Z (Z.quot (Qnum q) (Zpos (Qden q))))
  | _ => NaN
  end.

(** ** Time parsing helpers *)

Definition timeToMinutes (timeStr : string) : number :=
  if String.eqb timeStr "" then Num 0
  else
    let parts := map Number (split ":" timeStr) in
    let h := toNumber (nth_error parts 0) in
    let m := toNumber (nth_error parts 1) in
    (h * Num 60 + m)%js.

Definition minutesToHours (minutes : number) : number :=
  (Math.round ((minutes / Num 60) * Num 100) / Num 100)%js.

(** ** Daily entries *)

Record DayEntry : Type := mkDayEntry {
  date : string;
  start : string;
  end_ : string;
  breakDuration : number
}.

Definition calculateDailyHours (entry : DayEntry) : number :=
  if String.eqb (start entry) "" || String.eqb (end_ entry) "" then Num 0
  else
    let startMin := timeToMinutes (start entry) in
    let endMin := timeToMinutes (end_ entry) in
    let endMin :=
      if (endMin <=? startMin)%js then (endMin + Num 1440)%js else endMin in
    let workedMinutes := (endMin - startMin)%js in
    let breakMin := or_else (parseInt (breakDuration entry)) (Num 0) in
    let workedMinutes := (workedMinutes - breakMin)%js in
    Math.max (Num 0) (minutesToHours workedMinutes).

Definition calculateNightHours (entry : DayEntry) : number :=
  if String.eqb (start entry) "" || String.eqb (end_ entry) "" then Num 0
  else
    let startMin := timeToMinutes (start entry) in
    let endMin := timeToMinutes (end_ entry) in
    let endMin :=
      if (endMin <=? startMin)%js then (endMin + Num 1440)%js else endMin in
    let nightStartMin := (ofZ CONFIG.nightStart * Num 60)%js in
    let nightEndMin := (ofZ CONFIG.nightEnd * Num 60)%js in
    let nightMinutes := Num 0 in
    let nightP1Start := nightStartMin in
    let nightP1End := Num 1440 in
    let nightP2Start := Num 0 in
    let nightP2End := nightEndMin in
    let overlap1Start := Math.max startMin nightP1Start in
    let overlap1End := Math.min endMin nightP1End in
    let nightMinutes :=
      if (overlap1End >? overlap1Start)%js
      then (nightMinutes + (overlap1End - overlap1Start))%js
      else nightMinutes in
    let overlap2Start := Math.max startMin nightP2Start in
    let overlap2End := Math.min endMin nightP2End in
    let nightMinutes :=
      if (overlap2End >? overlap2Start)%js
      then (nightMinutes + (overlap2End - overlap2Start))%js
      else nightMinutes in
    let nightMinutes :=
      if (endMin >? Num 1440)%js then
        let nextDayEnd :=
          Math.min (endMin - Num 1440)%js (nightEndMin * Num 60)%js in
        (nightMinutes + Math.max (Num 0) nextDayEnd)%js
      else nightMinutes in
    minutesToHours nightMinutes.

Definition ge (a b : number) : bool := le b a.

Definition getDailyWarnings (entry : DayEntry) (hoursWorked : number)
  : list Warning :=
  let warnings :=
    if (hoursWorked >? ofZ CONFIG.dailyMaxHours)%js then
      [ {| type := "error";
           message := "Dépassement durée maximale quotidienne ("
                      ++ intToString CONFIG.dailyMaxHours ++ "h)" |} ]
    else [] in
  if ge hoursWorked (minutesToHours (ofZ CONFIG.mandatoryBreakAfterMinutes))
  then
    let breakMin := or_else (parseInt (breakDuration entry)) (Num 0) in
    if (breakMin <? ofZ CONFIG.mandatoryBreakMinutes)%js then
      (warnings ++
       [ {| type := "warning";
            message := "Pause obligatoire de "
                       ++ intToString CONFIG.mandatoryBreakMinutes
                       ++ " min après 6h de travail" |} ])%list
    else warnings
  else warnings.

(** ** Dates

    A [Date] holds a time value in milliseconds, or is invalid.  The engine
    reads dates through the local getters; the embedding has no zone offset
    and no daylight saving, so that the local calendar day of a time value is
    its day since the epoch.  Numbers read from a date are integers or
    [NaN]: they are embedded as [option Z], [None] being [NaN]. *)

Inductive Date : Type :=
| TimeValue (ms : Z)
| InvalidDate.

Local Open Scope Z_scope.

Definition msPerDay : Z := 86400000.

(** Days since the epoch of the civil date [y]-[m]-[d], [m] in 1..12. *)
Definition daysFromCivil (y m d : Z) : Z :=
  let y' := if m <=? 2 then y - 1 else y in
  let era := y' / 400 in
  let yoe := y' - era * 400 in
  let doy := (153 * (if m >? 2 then m - 3 else m + 9) + 2) / 5 + d - 1 in
  let doe := yoe * 365 + yoe / 4 - yoe / 100 + doy in
  era * 146097 + doe - 719468.

(** The civil date (year, month in 1..12, day) of a day since the epoch. *)
Definition civilFromDays (z : Z) : Z * Z * Z :=
  let z := z + 719468 in
  let era := z / 146097 in
  let doe := z - era * 146097 in
  let yoe := (doe - doe / 1460 + doe / 36524 - doe / 146096) / 365 in
  let doy := doe - (365 * yoe + yoe / 4 - yoe / 100) in
  let mp := (5 * doy + 2) / 153 in
  let d := doy - (153 * mp + 2) / 5 + 1 in
  let m := if mp <? 10 then mp + 3 else mp - 9 in
  ((if m <=? 2 then yoe + era * 400 + 1 else yoe + era * 400), m, d).

(** [TimeClip]: time values beyond 8.64e15 ms are invalid. *)
Definition timeClip (t : option Z) : Date :=
  match t with
  | Some ms => if Z.abs ms <=? 8640000000000000 then TimeValue ms
               else InvalidDate
  | None => InvalidDate
  end.

(** [MakeDay] at midnight: months (from 0) and days out of range carry
    over. *)
Definition makeDate (year month day : option Z) : Date :=
  match year, month, day with
  | Some y, Some m, Some d =>
      let ym := y + m / 12 in
      let mn := m mod 12 in
      timeClip (Some ((daysFromCivil ym (mn + 1) 1 + d - 1) * msPerDay))
  | _, _, _ => InvalidDate
  end.

(** [new Date(year, month, day)] and [Date.UTC(year, month, day)]: a year
    from 0 to 99 stands for 1900 + year. *)
Definition newDate (year month day : option Z) : Date :=
  match year with
  | Some y => makeDate (Some (if (0 <=? y) && (y <=? 99) then 1900 + y else y))
                       month day
  | None => InvalidDate
  end.

Definition getTime (d : Date) : option Z :=
  match d with TimeValue ms => Some ms | InvalidDate => None end.

Definition getFullYear (d : Date) : option Z :=
  match d with
  | TimeValue ms => let '(y, _, _) := civilFromDays (ms / msPerDay) in Some y
  | InvalidDate => None
  end.

(** Months are counted from 0. *)
Definition getMonth (d : Date) : option Z :=
  match d with
  | TimeValue ms =>
      let '(_, m, _) := civilFromDays (ms / msPerDay) in Some (m - 1)
  | InvalidDate => None
  end.

Definition getDate (d : Date) : option Z :=
  match d with
  | TimeValue ms => let '(_, _, dd) := civilFromDays (ms / msPerDay) in Some dd
  | InvalidDate => None
  end.

(** The day of the week, Sunday being 0. *)
Definition getDay (d : Date) : option Z :=
  match d with
  | TimeValue ms => Some ((ms / msPerDay + 4) mod 7)
  | InvalidDate => None
  end.

(** [d.setUTCDate(day)]. *)
Definition setDate (d : Date) (day : option Z) : Date :=
  makeDate (getFullYear d) (getMonth d) day.

(** [a === b] on numbers read from dates: [NaN] equals nothing. *)
Definition intStrictEq (a b : option Z) : bool :=
  match a, b with
  | Some x, Some y => x =? y
  | _, _ => false
  end.

Definition intAdd (a b : option Z) : option Z :=
  match a, b with
  | Some x, Some y => Some (x + y)
  | _, _ => None
  end.

(** The rendering of such a number in a template literal. *)
Definition intOrNaNToString (a : option Z) : string :=
  match a with Some z => intToString z | None => "NaN" end.

(** The decimal value of a string of exactly [n] digits. *)
Definition fixedDigits (n : nat) (s : string) : option Z :=
  let (ds, rest) := spanDigits 10 (list_ascii_of_string s) in
  if (List.length ds =? n)%nat && isNil rest
  then Some (digitsValue 10 ds) else None.

Definition daysInMonth (y m : Z) : Z :=
  daysFromCivil (y + m / 12) (m mod 12 + 1) 1 - daysFromCivil y m 1.

(** [new Date(s)] for the date-only form [YYYY-MM-DD], the form in which
    the application stores the date of an entry; such a string denotes
    midnight of that day.  Any other string is embedded as an invalid date
    (the language accepts further forms, with a time of day or in a
    host-defined syntax), and so is a day that its month does not have,
    which some engines carry over to the next month. *)
Definition parseDate (s : string) : Date :=
  match split "-" s with
  | [ys; ms; ds] =>
      match fixedDigits 4 ys, fixedDigits 2 ms, fixedDigits 2 ds with
      | Some y, Some m, Some d =>
          if (1 <=? m) && (m <=? 12) && (1 <=? d) && (d <=? daysInMonth y m)
          then timeClip (Some (daysFromCivil y m d * msPerDay))
          else InvalidDate
      | _, _, _ => InvalidDate
      end
  | _ => InvalidDate
  end.

(** [date.toLocaleDateString('fr-FR', { weekday: 'long' })]. *)
Definition weekdayLong (d : Date) : string :=
  match getDay d with
  | Some 0 => "dimanche"
  | Some 1 => "lundi"
  | Some 2 => "mardi"
  | Some 3 => "mercredi"
  | Some 4 => "jeudi"
  | Some 5 => "vendredi"
  | Some _ => "samedi"
  | None => "Invalid Date"
  end.

(** ** Easter and the public holidays *)

(** Computus (anonymous Gregorian algorithm).  [%] is the remainder that
    takes the sign of the dividend, [Math.floor(a / b)] the floored
    quotient. *)
Definition getEasterDate (year : Z) : Date :=
  let a := Z.rem year 19 in
  let b := year / 100 in
  let c := Z.rem year 100 in
  let d := b / 4 in
  let e := Z.rem b 4 in
  let f := (b + 8) / 25 in
  let g := (b - f + 1) / 3 in
  let h := Z.rem (19 * a + b - d - g + 15) 30 in
  let i := c / 4 in
  let k := Z.rem c 4 in
  let l := Z.rem (32 + 2 * e + 2 * i - h - k) 7 in
  let m := (a + 11 * h + 22 * l) / 451 in
  let month := (h + l - 7 * m + 114) / 31 in
  let day := Z.rem (h + l - 7 * m + 114) 31 + 1 in
  newDate (Some year) (Some (month - 1)) (Some day).

Record Holiday : Type := mkHoliday {
  h_date : Date;
  name : string
}.

Definition getPublicHolidays (year : option Z) : list Holiday :=
  let easter :=
    match year with Some y => getEasterDate y | None => InvalidDate end in
  let easterMs := getTime easter in
  let day := msPerDay in
  [ mkHoliday (newDate year (Some 0) (Some 1)) "Jour de l'An";
    mkHoliday (timeClip (intAdd easterMs (Some (1 * day)))) "Lundi de Pâques";
    mkHoliday (newDate year (Some 4) (Some 1)) "Fête du Travail";
    mkHoliday (newDate year (Some 4) (Some 8)) "Victoire 1945";
    mkHoliday (timeClip (intAdd easterMs (Some (39 * day)))) "Ascension";
    mkHoliday (timeClip (intAdd easterMs (Some (50 * day)))) "Lundi de Pentecôte";
    mkHoliday (newDate year (Some 6) (Some 14)) "Fête Nationale";
    mkHoliday (newDate year (Some 7) (Some 15)) "Assomption";
    mkHoliday (newDate year (Some 10) (Some 1)) "Toussaint";
    mkHoliday (newDate year (Some 10) (Some 11)) "Armistice 1918";
    mkHoliday (newDate year (Some 11) (Some 25)) "Noël" ].

Definition isPublicHoliday (date : Date) : option Holiday :=
  let year := getFullYear date in
  let holidays := getPublicHolidays year in
  find (fun h =>
          intStrictEq (getFullYear (h_date h)) (getFullYear date)
          && intStrictEq (getMonth (h_date h)) (getMonth date)
          && intStrictEq (getDate (h_date h)) (getDate date))
       holidays.

Definition isSunday (date : Date) : bool :=
  intStrictEq (getDay date) (Some 0).

(** ** ISO week number *)

(** [s.padStart(n, "0")]. *)
Definition padStart0 (n : nat) (s : string) : string :=
  string_of_list_ascii (repeat "0"%char (n - String.length s)) ++ s.

(** [Math.ceil(a / b)] for a positive integer [b]. *)
Definition ceilDiv (a b : Z) : Z := - ((- a) / b).

Definition getISOWeek (date : Date) : string :=
  let d := newDate (getFullYear date) (getMonth date) (getDate date) in
  let dayNum :=
    match getDay d with
    | Some 0 | None => Some 7
    | Some n => Some n
    end in
  let d :=
    setDate d (match getDate d, dayNum with
               | Some dd, Some n => Some (dd + 4 - n)
               | _, _ => None
               end) in
  let yearStart := newDate (getFullYear d) (Some 0) (Some 1) in
  let weekNo :=
    match getTime d, getTime yearStart with
    | Some t, Some t0 => Some (ceilDiv (t - t0 + msPerDay) (7 * msPerDay))
    | _, _ => None
    end in
  intOrNaNToString (getFullYear d) ++ "-S"
  ++ padStart0 2 (intOrNaNToString weekNo).

Local Close Scope Z_scope.

(** ** Processing a period *)

Module DailyResult.
Record t : Type := mk {
  date : string;
  dayName : string;
  hoursWorked : number;
  nightHours : number;
  isHoliday : bool;
  holidayName : option string;
  isSunday : bool;
  warnings : list Warning;
  start : string;
  end_ : string;
  breakDuration : number
}.
End DailyResult.

Module WeeklyResult.
Record t : Type := mk {
  week : string;
  totalHours : number;
  overtime : OvertimeBreakdown;
  warnings : list Warning;
  pay : option PayBreakdown;
  sundayHours : number;
  holidayHours : number;
  cumulativeOvertime : number
}.
End WeeklyResult.

Module TotalPay.
Record t : Type := mk {
  regular : number;
  structural : number;
  overtime : number;
  sundayPremium : number;
  holidayPremium : number;
  total : number
}.
End TotalPay.

Module PeriodResult.
Record t : Type := mk {
  dailyResults : list DailyResult.t;
  weeklyResults : list WeeklyResult.t;
  totalHours : number;
  totalNightHours : number;
  totalSundayHours : number;
  totalHolidayHours : number;
  totalOvertime : number;
  totalPay : option TotalPay.t;
  contractBase : number
}.
End PeriodResult.

(** An object used as a map from week keys to numbers: its keys are kept in
    the order of their first insertion, the order in which [Object.entries]
    lists keys that are not array indices. *)
Definition WeekMap : Type := list (string * number).

Fixpoint mapGet (m : WeekMap) (k : string) : option number :=
  match m with
  | [] => None
  | (k', v) :: r => if String.eqb k' k then Some v else mapGet r k
  end.

Fixpoint mapSet (m : WeekMap) (k : string) (v : number) : WeekMap :=
  match m with
  | [] => [(k, v)]
  | (k', v') :: r =>
      if String.eqb k' k then (k', v) :: r else (k', v') :: mapSet r k v
  end.

(** [if (!m[k]) m[k] = 0]. *)
Definition mapInit (m : WeekMap) (k : string) : WeekMap :=
  match mapGet m k with
  | Some v => if truthy v then m else mapSet m k (Num 0)
  | None => mapSet m k (Num 0)
  end.

(** [m[k] += x]. *)
Definition mapAdd (m : WeekMap) (k : string) (x : number) : WeekMap :=
  mapSet m k (toNumber (mapGet m k) + x)%js.

(** The variables of the first loop of [processEntries]. *)
Record DayLoop : Type := mkDayLoop {
  l_dailyResults : list DailyResult.t;
  l_totalHours : number;
  l_totalNightHours : number;
  l_totalSundayHours : number;
  l_totalHolidayHours : number;
  weeklyHoursMap : WeekMap;
  weeklySundayMap : WeekMap;
  weeklyHolidayMap : WeekMap
}.

Definition isSome {A : Type} (o : option A) : bool :=
  match o with Some _ => true | None => false end.

(** The body of [for (const entry of entries)]. *)
Definition dayStep (st : DayLoop) (entry : DayEntry) : DayLoop :=
  let date_ := parseDate (date entry) in
  let hoursWorked := calculateDailyHours entry in
  let nightHours := calculateNightHours entry in
  let holiday := isPublicHoliday date_ in
  let sunday := isSunday date_ in
  let warnings := getDailyWarnings entry hoursWorked in
  let weekKey := getISOWeek date_ in
  let hoursMap := mapInit (weeklyHoursMap st) weekKey in
  let sundayMap := mapInit (weeklySundayMap st) weekKey in
  let holidayMap := mapInit (weeklyHolidayMap st) weekKey in
  let hoursMap := mapAdd hoursMap weekKey hoursWorked in
  let countsSunday := sunday && (hoursWorked >? Num 0)%js in
  let countsHoliday := isSome holiday && (hoursWorked >? Num 0)%js in
  {| l_dailyResults :=
       (l_dailyResults st ++
       [ {| DailyResult.date := date entry;
            DailyResult.dayName := weekdayLong date_;
            DailyResult.hoursWorked := hoursWorked;
            DailyResult.nightHours := nightHours;
            DailyResult.isHoliday := isSome holiday;
            DailyResult.holidayName := option_map name holiday;
            DailyResult.isSunday := sunday;
            DailyResult.warnings := warnings;
            DailyResult.start := start entry;
            DailyResult.end_ := end_ entry;
            DailyResult.breakDuration := breakDuration entry |} ])%list;
     l_totalHours := (l_totalHours st + hoursWorked)%js;
     l_totalNightHours := (l_totalNightHours st + nightHours)%js;
     l_totalSundayHours :=
       if countsSunday then (l_totalSundayHours st + hoursWorked)%js
       else l_totalSundayHours st;
     l_totalHolidayHours :=
       if countsHoliday then (l_totalHolidayHours st + hoursWorked)%js
       else l_totalHolidayHours st;
     weeklyHoursMap := hoursMap;
     weeklySundayMap :=
       if countsSunday then mapAdd sundayMap weekKey hoursWorked
       else sundayMap;
     weeklyHolidayMap :=
       if countsHoliday then mapAdd holidayMap weekKey hoursWorked
       else holidayMap |}.

(** The body of [for (const [weekKey, hours] of Object.entries(weeklyHoursMap))]:
    the weekly results so far and the cumulated overtime. *)
Definition weekStep (sundayMap holidayMap : WeekMap)
  (hourlyRate contractBase : number)
  (st : list WeeklyResult.t * number) (kv : string * number)
  : list WeeklyResult.t * number :=
  let '(weeklyResults, cumulativeOvertime) := st in
  let '(weekKey, hours) := kv in
  let sundayH := or_else (toNumber (mapGet sundayMap weekKey)) (Num 0) in
  let holidayH := or_else (toNumber (mapGet holidayMap weekKey)) (Num 0) in
  let overtime := calculateOvertime hours contractBase in
  let warnings := getWeeklyWarnings hours in
  let pay := calculatePay hours hourlyRate contractBase sundayH holidayH in
  let cumulativeOvertime := (cumulativeOvertime + totalOvertime overtime)%js in
  ((weeklyResults ++
   [ {| WeeklyResult.week := weekKey;
        WeeklyResult.totalHours := round2 hours;
        WeeklyResult.overtime := overtime;
        WeeklyResult.warnings := warnings;
        WeeklyResult.pay := pay;
        WeeklyResult.sundayHours := round2 sundayH;
        WeeklyResult.holidayHours := round2 holidayH;
        WeeklyResult.cumulativeOvertime := round2 cumulativeOvertime |} ])%list,
   cumulativeOvertime).

(** The body of [for (const w of weeklyResults)] that sums the weekly pays. *)
Definition payStep (acc : TotalPay.t) (w : WeeklyResult.t) : TotalPay.t :=
  match WeeklyResult.pay w with
  | Some p =>
      {| TotalPay.regular := (TotalPay.regular acc + regularPay p)%js;
         TotalPay.structural := (TotalPay.structural acc + structuralPay p)%js;
         TotalPay.overtime := (TotalPay.overtime acc + overtimePay p)%js;
         TotalPay.sundayPremium :=
           (TotalPay.sundayPremium acc + sundayPremium p)%js;
         TotalPay.holidayPremium :=
           (TotalPay.holidayPremium acc + holidayPremium p)%js;
         TotalPay.total := (TotalPay.total acc + totalPay p)%js |}
  | None => acc
  end.

Definition processEntries (entries : list DayEntry)
  (hourlyRate contractBase : number) : PeriodResult.t :=
  let st :=
    fold_left dayStep entries
      {| l_dailyResults := [];
         l_totalHours := Num 0;
         l_totalNightHours := Num 0;
         l_totalSundayHours := Num 0;
         l_totalHolidayHours := Num 0;
         weeklyHoursMap := [];
         weeklySundayMap := [];
         weeklyHolidayMap := [] |} in
  let '(weeklyResults, cumulativeOvertime) :=
    fold_left
      (weekStep (weeklySundayMap st) (weeklyHolidayMap st)
                hourlyRate contractBase)
      (weeklyHoursMap st) ([], Num 0) in
  let totalPay :=
    if (hourlyRate >? Num 0)%js then
      let sums :=
        fold_left payStep weeklyResults
          {| TotalPay.regular := Num 0;
             TotalPay.structural := Num 0;
             TotalPay.overtime := Num 0;
             TotalPay.sundayPremium := Num 0;
             TotalPay.holidayPremium := Num 0;
             TotalPay.total := Num 0 |} in
      Some {| TotalPay.regular := round2 (TotalPay.regular sums);
              TotalPay.structural := round2 (TotalPay.structural sums);
              TotalPay.overtime := round2 (TotalPay.overtime sums);
              TotalPay.sundayPremium :=
                round2 (TotalPay.sundayPremium sums);
              TotalPay.holidayPremium :=
                round2 (TotalPay.holidayPremium sums);
              TotalPay.total := round2 (TotalPay.total sums) |}
    else None in
  {| PeriodResult.dailyResults := l_dailyResults st;
     PeriodResult.weeklyResults := weeklyResults;
     PeriodResult.totalHours := round2 (l_totalHours st);
     PeriodResult.totalNightHours := round2 (l_totalNightHours st);
     PeriodResult.totalSundayHours := round2 (l_totalSundayHours st);
     PeriodResult.totalHolidayHours := round2 (l_totalHolidayHours st);
     PeriodResult.totalOvertime := round2 cumulativeOvertime;
     PeriodResult.totalPay := totalPay;
     PeriodResult.contractBase := contractBase |}.

(** ** The specification's reading of the daily hours

    The break of an entry in minutes, and the daily hours as the
    specification words them: the span from start to end, extended by 1440
    minutes when it is not positive, less the break, clamped at zero, then
    converted to hours. *)

Definition breakMinutes (entry : DayEntry) : number :=
  or_else (parseInt (breakDuration entry)) (Num 0).

Definition dailyHours_spec (entry : DayEntry) : number :=
  if String.eqb (start entry) "" || String.eqb (end_ entry) "" then Num 0
  else
    let diff := (timeToMinutes (end_ entry) - timeToMinutes (start entry))%js in
    let span := if (diff <=? Num 0)%js then (diff + Num 1440)%js else diff in
    let net := (span - breakMinutes entry)%js in
    minutesToHours (Math.max (Num 0) net).

(** The minutes from the time [s] to the time [e], both in minutes since
    midnight: a difference that is not positive is taken to the next day. *)
Definition spanMinutes (s e : Z) : Z :=
  (if e - s <=? 0 then e - s + 1440 else e - s)%Z.

(** ** Well-formed entries and well-defined results *)

(** The string [HH:MM] of an hour and a minute. *)
Definition timeString (h m : Z) : string :=
  padStart0 2 (intToString h) ++ ":" ++ padStart0 2 (intToString m).

(** A valid 24-hour [HH:MM] time. *)
Definition validTime (s : string) : Prop :=
  exists h m : Z,
    (0 <= h < 24)%Z /\ (0 <= m < 60)%Z /\ s = timeString h m.

(** An entry whose start and end are each empty or a valid time. *)
Definition wellFormedEntry (entry : DayEntry) : Prop :=
  (start entry = "" \/ validTime (start entry))
  /\ (end_ entry = "" \/ validTime (end_ entry)).

Definition finiteOvertime (o : OvertimeBreakdown) : bool :=
  isFinite (regularHours o) && isFinite (structuralHours o)
  && isFinite (totalOvertime o)
  && forallb (fun b => isFinite (hours b) && isFinite (rate b)
                       && isFinite (multipliedHours b)) (brackets o).

Definition finitePay (p : PayBreakdown) : bool :=
  isFinite (regularPay p) && isFinite (structuralPay p)
  && isFinite (overtimePay p) && isFinite (pay_sundayHours p)
  && isFinite (sundayPremium p) && isFinite (pay_holidayHours p)
  && isFinite (holidayPremium p) && isFinite (totalPay p).

Definition finiteDaily (d : DailyResult.t) : bool :=
  isFinite (DailyResult.hoursWorked d) && isFinite (DailyResult.nightHours d).

Definition finiteWeekly (w : WeeklyResult.t) : bool :=
  isFinite (WeeklyResult.totalHours w)
  && finiteOvertime (WeeklyResult.overtime w)
  && match WeeklyResult.pay w with Some p => finitePay p | None => true end
  && isFinite (WeeklyResult.sundayHours w)
  && isFinite (WeeklyResult.holidayHours w)
  && isFinite (WeeklyResult.cumulativeOvertime w).

Definition finiteTotalPay (t : TotalPay.t) : bool :=
  isFinite (TotalPay.regular t) && isFinite (TotalPay.structural t)
  && isFinite (TotalPay.overtime t) && isFinite (TotalPay.sundayPremium t)
  && isFinite (TotalPay.holidayPremium t) && isFinite (TotalPay.total t).

(** The hours, the amounts of pay and the totals of a period result are
    finite. *)
Definition finiteNumbers (r : PeriodResult.t) : bool :=
  forallb finiteDaily (PeriodResult.dailyResults r)
  && forallb finiteWeekly (PeriodResult.weeklyResults r)
  && isFinite (PeriodResult.totalHours r)
  && isFinite (PeriodResult.totalNightHours r)
  && isFinite (PeriodResult.totalSundayHours r)
  && isFinite (PeriodResult.totalHolidayHours r)
  && isFinite (PeriodResult.totalOvertime r)
  && match PeriodResult.totalPay r with
     | Some t => finiteTotalPay t
     | None => true
     end.

(** The contract base recorded in a weekly result, in its overtime breakdown
    and in the breakdown of its pay, is finite. *)
Definition finiteBases (w : WeeklyResult.t) : bool :=
  isFinite (contractBase (WeeklyResult.overtime w))
  && match WeeklyResult.pay w with
     | Some p => isFinite (contractBase (breakdown p))
     | None => true
     end.

(** A period result all of whose numbers are finite, none being [NaN] or
    infinite: the hours, the amounts of pay, the totals and the contract
    base wherever it is recorded. *)
Definition wellDefined (r : PeriodResult.t) : bool :=
  finiteNumbers r
  && isFinite (PeriodResult.contractBase r)
  && forallb finiteBases (PeriodResult.weeklyResults r).

(** All the hours and minutes of a day, for checking by enumeration. *)
Definition allTimes : list (Z * Z) :=
  list_prod (map Z.of_nat (seq 0 24)) (map Z.of_nat (seq 0 60)).

Definition parsesToMinutes (hm : Z * Z) : bool :=
  let (h, m) := hm in
  num_eqb (timeToMinutes (timeString h m)) (ofZ (h * 60 + m)).

Definition finiteMap (m : WeekMap) : bool :=
  forallb (fun kv => isFinite (snd kv)) m.

Definition finiteLoop (st : DayLoop) : bool :=
  forallb finiteDaily (l_dailyResults st)
  && isFinite (l_totalHours st) && isFinite (l_totalNightHours st)
  && isFinite (l_totalSundayHours st) && isFinite (l_totalHolidayHours st)
  && finiteMap (weeklyHoursMap st) && finiteMap (weeklySundayMap st)
  && finiteMap (weeklyHolidayMap st).

Definition finiteWeeks (st : list WeeklyResult.t * number) : bool :=
  forallb finiteWeekly (fst st) && isFinite (snd st).

(** ** Sample inputs *)

(** Two ordinary days, 09:00 to 17:00 with an hour of break. *)
Definition sampleEntries : list DayEntry :=
  [ mkDayEntry "2024-05-06" "09:00" "17:00" (Num 60);
    mkDayEntry "2024-05-07" "09:00" "17:00" (Num 60) ].

(** One day whose start is not a time. *)
Definition malformedEntries : list DayEntry :=
  [ mkDayEntry "2024-05-06" "abc" "17:00" (Num 0) ].

(** ** Formatting hours and durations *)

(** [Math.floor]. *)
Definition Math_floor (a : number) : number :=
  match a with
  | Num x => Num (inject_Z (Qfloor x))
  | _ => a
  end.

(** The rendering, in a template literal or by [toString], of a number that
    [Math.floor] or [Math.round] returned: an integer when it is finite
    (integers large enough to be rendered with an exponent are outside the
    idealisation). *)
Definition integerToString (a : number) : string :=
  match a with
  | Num q => intToString (Qfloor q)
  | PInf => "Infinity"
  | NInf => "-Infinity"
  | NaN => "NaN"
  end.

Definition formatHours (hours : number) : string :=
  let h := Math_floor hours in
  let m := Math.round ((hours - h) * Num 60)%js in
  integerToString h ++ "h" ++ padStart0 2 (integerToString m).

(** [formatDuration] of a whole number of minutes: [%] is the remainder that
    takes the sign of the dividend. *)
Definition formatDuration (minutes : Z) : string :=
  let h := (minutes / 60)%Z in
  let m := Z.rem minutes 60 in
  intToString h ++ "h" ++ padStart0 2 (intToString m).

(** ** Completing a typed time (the entry form)

    Strings are sequences of bytes; a character outside ASCII is the
    sequence of its UTF-8 bytes. *)

(** One white space or line terminator at the head of a string, in bytes:
    the ASCII ones, U+00A0, U+1680, U+2000 to U+200A, U+2028, U+2029,
    U+202F, U+205F, U+3000 and U+FEFF. *)
Definition isWhiteSpace2 (c1 c2 : ascii) : bool :=
  Ascii.eqb c1 "194" && Ascii.eqb c2 "160".

Definition isWhiteSpace3 (c1 c2 c3 : ascii) : bool :=
  let n3 := N_of_ascii c3 in
  (Ascii.eqb c1 "225" && Ascii.eqb c2 "154" && Ascii.eqb c3 "128")
  || (Ascii.eqb c1 "226" && Ascii.eqb c2 "128"
      && ((N.leb 128 n3 && N.leb n3 138) || N.eqb n3 168 || N.eqb n3 169
          || N.eqb n3 175))
  || (Ascii.eqb c1 "226" && Ascii.eqb c2 "129" && Ascii.eqb c3 "159")
  || (Ascii.eqb c1 "227" && Ascii.eqb c2 "128" && Ascii.eqb c3 "128")
  || (Ascii.eqb c1 "239" && Ascii.eqb c2 "187" && Ascii.eqb c3 "191").

Fixpoint trimStart (cs : list ascii) : list ascii :=
  match cs with
  | [] => []
  | c1 :: r1 =>
      if isWhiteSpace c1 then trimStart r1
      else
        match r1 with
        | [] => cs
        | c2 :: r2 =>
            if isWhiteSpace2 c1 c2 then trimStart r2
            else
              match r2 with
              | [] => cs
              | c3 :: r3 =>
                  if isWhiteSpace3 c1 c2 c3 then trimStart r3 else cs
              end
        end
  end.

(** The same from the end, on the reversed bytes. *)
Fixpoint trimStartRev (cs : list ascii) : list ascii :=
  match cs with
  | [] => []
  | c1 :: r1 =>
      if isWhiteSpace c1 then trimStartRev r1
      else
        match r1 with
        | [] => cs
        | c2 :: r2 =>
            if isWhiteSpace2 c2 c1 then trimStartRev r2
            else
              match r2 with
              | [] => cs
              | c3 :: r3 =>
                  if isWhiteSpace3 c3 c2 c1 then trimStartRev r3 else cs
              end
        end
  end.

(** [s.trim()]. *)
Definition trimString (s : string) : string :=
  string_of_list_ascii
    (rev (trimStartRev (rev (trimStart (list_ascii_of_string s))))).

Definition isDigit (c : ascii) : bool := isSome (digitValue 10 c).

(** [parseInt(s, 10)]: leading ASCII white space, a sign, then the longest
    run of decimal digits; [NaN] when there is no digit. *)
Definition parseInt10 (s : string) : number :=
  let cs := dropWhiteSpace (list_ascii_of_string s) in
  let '(sign, cs) :=
    match cs with
    | "-"%char :: r => ((-1)%Z, r)
    | "+"%char :: r => (1%Z, r)
    | _ => (1%Z, cs)
    end in
  let (ds, _) := spanDigits 10 cs in
  if isNil ds then NaN else ofZ (sign * digitsValue 10 ds).

(** The tests [/^\d{1,2}$/], [/^\d{3,4}$/], [/^\d{1,2}:\d$/] and
    [/^\d{1,2}:\d{2}$/]. *)
Definition testDigits (lo hi : nat) (s : string) : bool :=
  forallb isDigit (list_ascii_of_string s)
  && (lo <=? String.length s)%nat && (String.length s <=? hi)%nat.

Definition testHourMinute (minuteDigits : nat) (s : string) : bool :=
  match split ":" s with
  | [hStr; mStr] =>
      testDigits 1 2 hStr && testDigits minuteDigits minuteDigits mStr
  | _ => false
  end.

(** [s.slice(i)]. *)
Definition sliceFrom (i : nat) (s : string) : string :=
  String.substring i (String.length s - i) s.

(** The hour and the minute, checked and printed as [HH:MM]. *)
Definition formatTime (h m : number) : option string :=
  if ge h (Num 0) && (h <=? Num 23)%js && ge m (Num 0) && (m <=? Num 59)%js
  then Some (padStart0 2 (integerToString h) ++ ":"
             ++ padStart0 2 (integerToString m))
  else None.

(** [autoCompleteTime] as a function of the value of the input: the value
    it writes back, or [None] when it leaves the input as it is. *)
Definition autoCompleteTime (value : string) : option string :=
  let val := trimString value in
  if String.eqb val "" then None
  else if testDigits 1 2 val then
    let h := parseInt10 val in
    if ge h (Num 0) && (h <=? Num 23)%js
    then Some (padStart0 2 (integerToString h) ++ ":00")
    else None
  else if testDigits 3 4 val then
    let '(h, m) :=
      if (String.length val =? 3)%nat
      then (parseInt10 (String.substring 0 1 val),
            parseInt10 (sliceFrom 1 val))
      else (parseInt10 (String.substring 0 2 val),
            parseInt10 (sliceFrom 2 val)) in
    formatTime h m
  else if testHourMinute 1 val then
    match split ":" val with
    | hStr :: mStr :: _ =>
        formatTime (parseInt10 hStr) (parseInt10 (mStr ++ "0"))
    | _ => None
    end
  else if testHourMinute 2 val then
    match split ":" val with
    | hStr :: mStr :: _ => formatTime (parseInt10 hStr) (parseInt10 mStr)
    | _ => None
    end
  else None.

Definition optionStringEqb (a b : option string) : bool :=
  match a, b with
  | Some x, Some y => String.eqb x y
  | None, None => true
  | _, _ => false
  end.

(** The shorthands of a time that [autoCompleteTime] reads: the hour alone,
    hour and minute as three or four digits, [H:M] with the tens of the
    minutes only, and an unpadded hour before [:MM]. *)
Definition completesShorthands (hm : Z * Z) : bool :=
  let (h, m) := hm in
  let t := Some (timeString h m) in
  optionStringEqb (autoCompleteTime (timeString h m)) t
  && optionStringEqb
       (autoCompleteTime (intToString h ++ padStart0 2 (intToString m))) t
  && optionStringEqb
       (autoCompleteTime (padStart0 2 (intToString h)
                          ++ padStart0 2 (intToString m))) t
  && optionStringEqb
       (autoCompleteTime (intToString h ++ ":" ++ padStart0 2 (intToString m)))
       t
  && optionStringEqb
       (autoCompleteTime (intToString h ++ ":" ++ intToString (m / 10)))
       (Some (timeString h (10 * (m / 10))))
  && optionStringEqb (autoCompleteTime (intToString h))
                     (Some (timeString h 0))
  && optionStringEqb (autoCompleteTime (padStart0 2 (intToString h)))
                     (Some (timeString h 0)).

(** The monthly hours by which [calculateHourlyRate] divides: those of the
    contract base when it is 24, 32, 35 or 39, those of the 35h base
    otherwise. *)
Definition monthlyHoursOf (contractBase : number) : Q :=
  if (contractBase === Num 24)%js then 104.00
  else if (contractBase === Num 32)%js then 138.67
  else if (contractBase === Num 39)%js then 169.00
  else 151.67.

(** ** Reading a period result *)

(** The week key under which an entry is grouped. *)
Definition weekKeyOf (entry : DayEntry) : string :=
  getISOWeek (parseDate (date entry)).

(** Whether an entry counts towards the Sunday hours, the holiday hours. *)
Definition countsAsSunday (entry : DayEntry) : bool :=
  isSunday (parseDate (date entry))
  && (calculateDailyHours entry >? Num 0)%js.

Definition countsAsHoliday (entry : DayEntry) : bool :=
  isSome (isPublicHoliday (parseDate (date entry)))
  && (calculateDailyHours entry >? Num 0)%js.

(** The elements of a list without their repetitions, in the order of their
    first occurrence. *)
Definition addKey (acc : list string) (k : string) : list string :=
  if existsb (String.eqb k) acc then acc else (acc ++ [k])%list.

Definition firstOccurrences (l : list string) : list string :=
  fold_left addKey l [].

Definition keys (m : WeekMap) : list string := map fst m.

(** The rational a finite number holds, and the sum of the values of a week
    map. *)
Definition qval (a : number) : Q :=
  match a with Num q => q | _ => 0 end.

Definition mapTotal (m : WeekMap) : Q :=
  fold_right (fun kv acc => qval (snd kv) + acc) 0 m.



(** A number of hours with at most two decimals. *)
Definition hundredths (a : number) : Prop :=
  exists k : Z, a =n= Num (inject_Z k / 100).

Definition hundredthsMap (m : WeekMap) : Prop :=
  Forall (fun kv => hundredths (snd kv)) m.

(** The invariant of the first loop: the hours of the weeks add up to the
    hours of the period. *)
Definition hoursBalanced (st : DayLoop) : Prop :=
  hundredthsMap (weeklyHoursMap st)
  /\ l_totalHours st =n= Num (mapTotal (weeklyHoursMap st)).

(** The running sums of a list of numbers, from [acc]. *)
Fixpoint runningSums (l : list number) (acc : number) : list number :=
  match l with
  | [] => []
  | x :: r => (acc + x)%js :: runningSums r (acc + x)%js
  end.

(** The overtime of a weekly result. *)
Definition weekOvertime (w : WeeklyResult.t) : number :=
  totalOvertime (WeeklyResult.overtime w).

(** ** Reading the calendar *)

Local Open Scope Z_scope.

(** Midnight of a day since the epoch. *)
Definition dayDate (d : Z) : Date := TimeValue (d * msPerDay).

(** The name of the public holiday on a date, if it is one. *)
Definition holidayNameOn (d : Date) : option string :=
  option_map name (isPublicHoliday d).

(** The public holiday of a day, from its month (1 to 12), its day of the
    month and the number of days since Easter of its year: eight fixed
    dates, the Monday after Easter, the Thursday 39 days after it and the
    Monday 50 days after it.  The fixed dates of May come before the
    Thursday. *)
Definition calendarHoliday (m d sinceEaster : Z) : option string :=
  if (m =? 1) && (d =? 1) then Some "Jour de l'An"
  else if sinceEaster =? 1 then Some "Lundi de Pâques"
  else if (m =? 5) && (d =? 1) then Some "Fête du Travail"
  else if (m =? 5) && (d =? 8) then Some "Victoire 1945"
  else if sinceEaster =? 39 then Some "Ascension"
  else if sinceEaster =? 50 then Some "Lundi de Pentecôte"
  else if (m =? 7) && (d =? 14) then Some "Fête Nationale"
  else if (m =? 8) && (d =? 15) then Some "Assomption"
  else if (m =? 11) && (d =? 1) then Some "Toussaint"
  else if (m =? 11) && (d =? 11) then Some "Armistice 1918"
  else if (m =? 12) && (d =? 25) then Some "Noël"
  else None.

(** The length of a month (1 to 12) in a year that is not leap. *)
Definition monthLen (m : Z) : Z :=
  if m =? 2 then 28
  else if (m =? 4) || (m =? 6) || (m =? 9) || (m =? 11) then 30 else 31.

(** The leap days of the years 1 to [y]. *)
Definition leapDays (y : Z) : Z := y / 4 - y / 100 + y / 400.

(** The year in which a day since the epoch falls. *)
Definition yearOf (z : Z) : Z := let '(y, _, _) := civilFromDays z in y.

(** The index of the Monday-to-Sunday week of a day since the epoch: day 0
    is a Thursday, so that day [7 * weekIndex d] is the Thursday of the
    week of day [d]. *)
Definition weekIndex (d : Z) : Z := (d + 3) / 7.

(** The ISO 8601 number of the week whose Thursday is day [t]: one more than
    the whole weeks between January 1 of the year of [t] and [t]. *)
Definition isoWeekNumber (t : Z) : Z :=
  (t - daysFromCivil (yearOf t) 1 1) / 7 + 1.

Local Close Scope Z_scope.

(** A string of decimal digits. *)
Fixpoint allDigits (s : string) : bool :=
  match s with
  | EmptyString => true
  | String c r => isDigit c && allDigits r
  end.

(** * Properties *)

(** ** Reasoning about numbers *)

Lemma num_eq_refl (a : number) : a =n= a.
Proof. destruct a; simpl; auto; reflexivity. Qed.

Lemma num_eq_sym (a b : number) : a =n= b -> b =n= a.
Proof. destruct a, b; simpl; auto. intro H; symmetry; exact H. Qed.

Lemma num_eq_trans (a b c : number) : a =n= b -> b =n= c -> a =n= c.
Proof.
  destruct a, b, c; simpl; auto; try contradiction.
  intros H1 H2; rewrite H1; exact H2.
Qed.

(** Case analysis on the comparisons of finite numbers. *)
Ltac num_cases :=
  repeat match goal with
  | |- context [Qlt_le_dec ?x ?y] => destruct (Qlt_le_dec x y)
  | |- context [Qeq_dec ?x ?y] => destruct (Qeq_dec x y)
  | H : context [Qlt_le_dec ?x ?y] |- _ => destruct (Qlt_le_dec x y)
  | H : context [Qeq_dec ?x ?y] |- _ => destruct (Qeq_dec x y)
  end.

(** Case analysis on the [Qmin] and [Qmax] of a goal. *)
Ltac q_minmax :=
  repeat match goal with
  | |- context [Qmax ?a ?b] =>
      let E := fresh "E" in
      destruct (Q.max_spec a b) as [[? E] | [? E]]; rewrite E
  | |- context [Qmin ?a ?b] =>
      let E := fresh "E" in
      destruct (Q.min_spec a b) as [[? E] | [? E]]; rewrite E
  end.

Ltac js_unfold :=
  unfold round2, round4, Math.min, Math.max, Math.round, gt, lt, le,
    strictEq, truthy, sub, add, neg, mul, div, ofZ in *.

Lemma round2_Num (x : Q) :
  round2 (Num x) = Num (inject_Z (Qfloor (x * 100 + (1 # 2))) / 100).
Proof.
  unfold round2; simpl. destruct (Qeq_dec 100 0) as [H|H]; [discriminate H | reflexivity].
Qed.

Lemma round4_Num (x : Q) :
  round4 (Num x) = Num (inject_Z (Qfloor (x * 10000 + (1 # 2))) / 10000).
Proof.
  unfold round4; simpl.
  destruct (Qeq_dec 10000 0) as [H | H]; [discriminate H | reflexivity].
Qed.

Lemma round2_comp (x y : Q) : x == y -> round2 (Num x) = round2 (Num y).
Proof.
  intro H. rewrite !round2_Num. do 2 f_equal. apply f_equal.
  apply Qfloor_comp. rewrite H. reflexivity.
Qed.

(** ** Overtime classifier *)

(** The scale of the 35h regime, started with [x] hours of overtime. *)
Lemma fillBrackets_35 (x : Q) :
  fillBrackets CONFIG.overtimeBrackets (Num x) =
    if Qlt_le_dec 0 x then
      if Qlt_le_dec 8 x
      then [recorded "Heures sup. 25%" 1.25 8;
            recorded "Heures sup. 50%" 1.50 (x - 8)]
      else [recorded "Heures sup. 25%" 1.25 x]
    else [].
Proof.
  unfold CONFIG.overtimeBrackets, fillBrackets.
  cbn [b_to b_from b_rate b_label].
  js_unfold. cbn beta iota.
  num_cases; try lra; cbn [app]; unfold recorded;
    repeat (f_equal; try (apply round2_comp; lra)).
Qed.

(** The scale of the 39h regime, started with [x] hours of overtime. *)
Lemma fillBrackets_39 (x : Q) :
  fillBrackets overtimeBrackets39 (Num x) =
    if Qlt_le_dec 0 x then
      if Qlt_le_dec 4 x
      then [recorded "Heures sup. 25% (>39h)" 1.25 4;
            recorded "Heures sup. 50% (>43h)" 1.50 (x - 4)]
      else [recorded "Heures sup. 25% (>39h)" 1.25 x]
    else [].
Proof.
  unfold overtimeBrackets39, fillBrackets.
  cbn [b_to b_from b_rate b_label].
  js_unfold. cbn beta iota.
  num_cases; try lra; cbn [app]; unfold recorded;
    repeat (f_equal; try (apply round2_comp; lra)).
Qed.

Lemma strictEq_false_iff (a : number) (q : Q) :
  (a === Num q)%js = false <-> ~ a =n= Num q.
Proof.
  destruct a; simpl; try tauto.
  destruct (Qeq_dec q0 q); split; intro H; try tauto; discriminate.
Qed.

(** [calculateOvertime] on a finite number of hours, regime by regime. *)
Lemma calculateOvertime_35_eq (w : Q) (cb : number) :
  (cb === Num 39)%js = false ->
  calculateOvertime (Num w) cb =
    if Qlt_le_dec 35 w then
      {| regularHours := Num 35;
         structuralHours := Num 0;
         brackets := fillBrackets CONFIG.overtimeBrackets (Num (w - 35));
         totalOvertime := Num (w - 35);
         contractBase := cb |}
    else
      {| regularHours := Num w;
         structuralHours := Num 0;
         brackets := [];
         totalOvertime := Num 0;
         contractBase := cb |}.
Proof.
  intro Hcb. unfold calculateOvertime. rewrite Hcb.
  unfold le, sub, neg, add, ofZ, CONFIG.weeklyLegalHours.
  change (inject_Z 35) with 35.
  destruct (Qlt_le_dec 35 w); reflexivity.
Qed.

Lemma calculateOvertime_39_eq (w : Q) (cb : number) :
  (cb === Num 39)%js = true ->
  calculateOvertime (Num w) cb =
    if Qlt_le_dec 39 w then
      {| regularHours := Num 35;
         structuralHours := Num 4;
         brackets := fillBrackets overtimeBrackets39 (Num (w - 39));
         totalOvertime := Num (w - 39);
         contractBase := cb |}
    else
      {| regularHours := Math.min (Num w) (Num 35);
         structuralHours :=
           Math.min (Math.max (Num (w - 35)) (Num 0)) (Num 4);
         brackets := [];
         totalOvertime := Num 0;
         contractBase := cb |}.
Proof.
  intro Hcb. unfold calculateOvertime. rewrite Hcb.
  unfold le, sub, neg, add.
  destruct (Qlt_le_dec 39 w); [| reflexivity].
  f_equal.
  - unfold Math.min, lt. num_cases; [reflexivity | lra].
  - unfold Math.min, Math.max, lt. num_cases; try reflexivity; lra.
Qed.

(** The hours and the rate of a recorded bracket. *)
Lemma recorded_bracketIs (lbl : string) (r h : Q) :
  bracketIs (recorded lbl r h) lbl (nearestHundredth h) r.
Proof.
  unfold bracketIs, recorded. cbn [label hours rate].
  rewrite round2_Num. repeat split; cbn [num_eq]; reflexivity.
Qed.

Lemma bracketIs_comp (b : OvertimeBracket) (lbl : string) (h h' r : Q) :
  h == h' -> bracketIs b lbl h r -> bracketIs b lbl h' r.
Proof.
  intros E [H1 [H2 H3]]. repeat split; try assumption.
  destruct (hours b); cbn [num_eq] in *; try contradiction.
  rewrite H2. exact E.
Qed.

Lemma nearestHundredth_comp (x y : Q) :
  x == y -> nearestHundredth x == nearestHundredth y.
Proof.
  intro H. unfold nearestHundredth.
  rewrite (Qfloor_comp (x * 100 + (1 # 2)) (y * 100 + (1 # 2)))
    by (rewrite H; reflexivity).
  reflexivity.
Qed.

(** C5, as the code has it.  Under every contract base other than 39 and
    for every finite number of weekly hours, [calculateOvertime] counts the
    hours up to 35 as regular ([regularHours = min(weeklyHours, 35)],
    [structuralHours = 0]) and the hours above 35 as overtime, which fill
    the scale in ascending order: the bracket [35,43) at 1.25 receives
    [min(overtime, 8)] hours, the bracket [43,oo) at 1.50 the rest, and a
    bracket that receives nothing is not listed.  The [hours] a bracket
    records are its allotment rounded to the nearest hundredth.  In
    particular [calculateOvertime(45, 35)] has [regularHours = 35] and
    exactly the two brackets of 8 hours at 1.25 and 2 hours at 1.50.  When
    the weekly hours are [NaN], as for a week with a malformed day,
    [regularHours] is 35, there is no bracket and [totalOvertime] is
    [NaN].  Infinite hours follow the rule of the finite ones: 35 regular
    hours, 8 hours at 1.25 and the rest at 1.50 for [Infinity], everything
    regular for [-Infinity]. *)
Theorem calculateOvertime_base35 (w : Q) (cb : number) :
  ~ cb =n= Num 39 ->
  let r := calculateOvertime (Num w) cb in
  (regularHours r =n= Num (Qmin w 35) /\ structuralHours r =n= Num 0
   /\ totalOvertime r =n= Num (Qmax (w - 35) 0))
  /\ (w <= 35 -> brackets r = [])
  /\ (35 < w -> w <= 43 ->
      exists b,
        brackets r = [b]
        /\ bracketIs b "Heures sup. 25%" (nearestHundredth (w - 35)) 1.25)
  /\ (43 < w ->
      exists b1 b2,
        brackets r = [b1; b2]
        /\ bracketIs b1 "Heures sup. 25%" 8 1.25
        /\ bracketIs b2 "Heures sup. 50%" (nearestHundredth (w - 43)) 1.50)
  /\ (let r45 := calculateOvertime (Num 45) (Num 35) in
      regularHours r45 =n= Num 35
      /\ exists b1 b2,
           brackets r45 = [b1; b2]
           /\ bracketIs b1 "Heures sup. 25%" 8 1.25
           /\ bracketIs b2 "Heures sup. 50%" 2 1.50)
  /\ (let rn := calculateOvertime NaN cb in
      regularHours rn = Num 35 /\ structuralHours rn = Num 0
      /\ brackets rn = [] /\ totalOvertime rn = NaN)
  /\ (let ri := calculateOvertime PInf cb in
      regularHours ri = Num 35 /\ structuralHours ri = Num 0
      /\ totalOvertime ri = PInf
      /\ exists b1 b2,
           brackets ri = [b1; b2]
           /\ bracketIs b1 "Heures sup. 25%" 8 1.25
           /\ label b2 = "Heures sup. 50%" /\ hours b2 = PInf
           /\ rate b2 =n= Num 1.50)
  /\ (let ri := calculateOvertime NInf cb in
      regularHours ri = NInf /\ structuralHours ri = Num 0
      /\ brackets ri = [] /\ totalOvertime ri = Num 0).
Proof.
  intros Hcb r. apply strictEq_false_iff in Hcb.
  subst r. rewrite (calculateOvertime_35_eq w cb Hcb).
  split; [split; [| split]
         | split; [| split; [| split; [| split; [| split; [| split]]]]]].
  - destruct (Qlt_le_dec 35 w); cbn [regularHours num_eq].
    + rewrite Q.min_r by lra. reflexivity.
    + rewrite Q.min_l by lra. reflexivity.
  - destruct (Qlt_le_dec 35 w); cbn [structuralHours num_eq]; reflexivity.
  - destruct (Qlt_le_dec 35 w); cbn [totalOvertime num_eq].
    + rewrite Q.max_l by lra. reflexivity.
    + rewrite Q.max_r by lra. reflexivity.
  - intro Hw. destruct (Qlt_le_dec 35 w); [lra | reflexivity].
  - intros H1 H2. destruct (Qlt_le_dec 35 w); [| lra].
    cbn [brackets]. rewrite fillBrackets_35.
    destruct (Qlt_le_dec 0 (w - 35)); [| lra].
    destruct (Qlt_le_dec 8 (w - 35)); [lra |].
    eexists. split; [reflexivity | apply recorded_bracketIs].
  - intros H1. destruct (Qlt_le_dec 35 w); [| lra].
    cbn [brackets]. rewrite fillBrackets_35.
    destruct (Qlt_le_dec 0 (w - 35)); [| lra].
    destruct (Qlt_le_dec 8 (w - 35)); [| lra].
    eexists. eexists. split; [reflexivity |]. split.
    + apply (bracketIs_comp _ _ (nearestHundredth 8));
        [reflexivity | apply recorded_bracketIs].
    + apply (bracketIs_comp _ _ (nearestHundredth (w - 35 - 8)));
        [apply nearestHundredth_comp; lra | apply recorded_bracketIs].
  - split; [vm_compute; reflexivity |].
    eexists. eexists. split; [vm_compute; reflexivity |].
    split; (split; [reflexivity | split; vm_compute; reflexivity]).
  - unfold calculateOvertime. rewrite Hcb. vm_compute. repeat split.
  - unfold calculateOvertime. rewrite Hcb.
    split; [reflexivity |]. split; [reflexivity |]. split; [reflexivity |].
    eexists. eexists. split; [vm_compute; reflexivity |].
    split; [split; [reflexivity | split; vm_compute; reflexivity] |].
    split; [reflexivity |]. split; [reflexivity | vm_compute; reflexivity].
  - unfold calculateOvertime. rewrite Hcb. vm_compute. repeat split.
Qed.

Lemma calculateOvertime_base35_witness :
  ~ Num 35 =n= Num 39
  /\ 43 < 45
  /\ exists b1 b2,
       brackets (calculateOvertime (Num 45) (Num 35)) = [b1; b2]
       /\ bracketIs b1 "Heures sup. 25%" 8 1.25
       /\ bracketIs b2 "Heures sup. 50%" (nearestHundredth (45 - 43)) 1.50.
Proof.
  assert (H : ~ Num 35 =n= Num 39) by (simpl; intro E; discriminate E).
  assert (H1 : 43 < 45) by reflexivity.
  split; [exact H |]. split; [exact H1 |].
  destruct (calculateOvertime_base35 45 (Num 35) H) as [_ [_ [_ [H2 _]]]].
  exact (H2 H1).
Defined.

(** C5 as stated fails when the weekly hours are [NaN]: [Math.min(NaN, 35)]
    is [NaN], but the test [weeklyHours <= 35] is false on [NaN] and
    [regularHours] is set to 35. *)
Lemma calculateOvertime_base35_counterexample :
  regularHours (calculateOvertime NaN (Num 35)) = Num 35
  /\ Math.min NaN (Num 35) = NaN
  /\ ~ regularHours (calculateOvertime NaN (Num 35)) =n= Math.min NaN (Num 35).
Proof.
  split; [vm_compute; reflexivity |]. split; [reflexivity |].
  vm_compute. intro H. exact H.
Qed.

(** C6.  Under the contract base 39 and for every finite number of weekly
    hours, [calculateOvertime] yields [regularHours = min(weeklyHours, 35)]
    and [structuralHours = min(max(weeklyHours - 35, 0), 4)], and counts as
    overtime only the hours above 39: the bracket [39,43) at 1.25 receives
    [min(overtime, 4)] hours and the bracket [43,oo) at 1.50 the rest, the
    [hours] recorded being the allotment rounded to the nearest hundredth.
    In particular [calculateOvertime(41, 39)] has [structuralHours = 4],
    [regularHours = 35] and exactly one bracket, of 2 hours at 1.25.  When
    the weekly hours are [NaN], so are [regularHours], [structuralHours]
    and [totalOvertime], and there is no bracket; infinite hours follow the
    formulas of the finite ones. *)
Theorem calculateOvertime_base39 (w : Q) :
  let r := calculateOvertime (Num w) (Num 39) in
  (regularHours r =n= Num (Qmin w 35)
   /\ structuralHours r =n= Num (Qmin (Qmax (w - 35) 0) 4)
   /\ totalOvertime r =n= Num (Qmax (w - 39) 0))
  /\ (w <= 39 -> brackets r = [])
  /\ (39 < w -> w <= 43 ->
      exists b,
        brackets r = [b]
        /\ bracketIs b "Heures sup. 25% (>39h)" (nearestHundredth (w - 39)) 1.25)
  /\ (43 < w ->
      exists b1 b2,
        brackets r = [b1; b2]
        /\ bracketIs b1 "Heures sup. 25% (>39h)" 4 1.25
        /\ bracketIs b2 "Heures sup. 50% (>43h)"
             (nearestHundredth (w - 43)) 1.50)
  /\ (let r41 := calculateOvertime (Num 41) (Num 39) in
      structuralHours r41 =n= Num 4 /\ regularHours r41 =n= Num 35
      /\ exists b,
           brackets r41 = [b] /\ bracketIs b "Heures sup. 25% (>39h)" 2 1.25)
  /\ (let rn := calculateOvertime NaN (Num 39) in
      regularHours rn = NaN /\ structuralHours rn = NaN
      /\ brackets rn = [] /\ totalOvertime rn = NaN)
  /\ (let ri := calculateOvertime PInf (Num 39) in
      regularHours ri = Num 35 /\ structuralHours ri = Num 4
      /\ totalOvertime ri = PInf
      /\ exists b1 b2,
           brackets ri = [b1; b2]
           /\ bracketIs b1 "Heures sup. 25% (>39h)" 4 1.25
           /\ label b2 = "Heures sup. 50% (>43h)" /\ hours b2 = PInf
           /\ rate b2 =n= Num 1.50)
  /\ (let ri := calculateOvertime NInf (Num 39) in
      regularHours ri = NInf /\ structuralHours ri = Num 0
      /\ brackets ri = [] /\ totalOvertime ri = Num 0).
Proof.
  intros r. subst r.
  rewrite (calculateOvertime_39_eq w (Num 39) eq_refl).
  split; [split; [| split]
         | split; [| split; [| split; [| split; [| split; [| split]]]]]].
  - destruct (Qlt_le_dec 39 w); cbn [regularHours];
      unfold Math.min, lt; num_cases; cbn [num_eq]; q_minmax; lra.
  - destruct (Qlt_le_dec 39 w); cbn [structuralHours];
      unfold Math.min, Math.max, lt; num_cases; cbn [num_eq]; q_minmax; lra.
  - destruct (Qlt_le_dec 39 w); cbn [totalOvertime num_eq].
    + rewrite Q.max_l by lra. reflexivity.
    + rewrite Q.max_r by lra. reflexivity.
  - intro Hw. destruct (Qlt_le_dec 39 w); [lra | reflexivity].
  - intros H1 H2. destruct (Qlt_le_dec 39 w); [| lra].
    cbn [brackets]. rewrite fillBrackets_39.
    destruct (Qlt_le_dec 0 (w - 39)); [| lra].
    destruct (Qlt_le_dec 4 (w - 39)); [lra |].
    eexists. split; [reflexivity | apply recorded_bracketIs].
  - intros H1. destruct (Qlt_le_dec 39 w); [| lra].
    cbn [brackets]. rewrite fillBrackets_39.
    destruct (Qlt_le_dec 0 (w - 39)); [| lra].
    destruct (Qlt_le_dec 4 (w - 39)); [| lra].
    eexists. eexists. split; [reflexivity |]. split.
    + apply (bracketIs_comp _ _ (nearestHundredth 4));
        [reflexivity | apply recorded_bracketIs].
    + apply (bracketIs_comp _ _ (nearestHundredth (w - 39 - 4)));
        [apply nearestHundredth_comp; lra | apply recorded_bracketIs].
  - split; [vm_compute; reflexivity |]. split; [vm_compute; reflexivity |].
    eexists. split; [vm_compute; reflexivity |].
    split; [reflexivity | split; vm_compute; reflexivity].
  - vm_compute. repeat split.
  - split; [reflexivity |]. split; [reflexivity |]. split; [reflexivity |].
    eexists. eexists. split; [vm_compute; reflexivity |].
    split; [split; [reflexivity | split; vm_compute; reflexivity] |].
    split; [reflexivity |]. split; [reflexivity | vm_compute; reflexivity].
  - vm_compute. repeat split.
Qed.

Lemma calculateOvertime_base39_witness :
  39 < 41 /\ 41 <= 43
  /\ exists b,
       brackets (calculateOvertime (Num 41) (Num 39)) = [b]
       /\ bracketIs b "Heures sup. 25% (>39h)" (nearestHundredth (41 - 39)) 1.25.
Proof.
  assert (H1 : 39 < 41) by reflexivity.
  assert (H2 : 41 <= 43) by (unfold Qle; simpl; lia).
  split; [exact H1 |]. split; [exact H2 |].
  destruct (calculateOvertime_base39 41) as [_ [_ [H _]]].
  exact (H H1 H2).
Defined.

(** C8.  Conservation of hours: for non-negative weekly hours and every
    contract base, [regularHours + structuralHours + totalOvertime] is
    exactly [weeklyHours]. *)
Theorem calculateOvertime_conservation (w : Q) (cb : number) :
  0 <= w ->
  let r := calculateOvertime (Num w) cb in
  (regularHours r + structuralHours r + totalOvertime r)%js =n= Num w.
Proof.
  intros Hw r. subst r.
  destruct (cb === Num 39)%js eqn:Hcb.
  - rewrite (calculateOvertime_39_eq w cb Hcb).
    destruct (Qlt_le_dec 39 w);
      cbn [regularHours structuralHours totalOvertime].
    + simpl. lra.
    + unfold Math.min, Math.max, lt. num_cases; simpl; lra.
  - rewrite (calculateOvertime_35_eq w cb Hcb).
    destruct (Qlt_le_dec 35 w);
      cbn [regularHours structuralHours totalOvertime]; simpl; lra.
Qed.

Lemma calculateOvertime_conservation_witness :
  0 <= 41.5
  /\ (let r := calculateOvertime (Num 41.5) (Num 39) in
      (regularHours r + structuralHours r + totalOvertime r)%js =n= Num 41.5).
Proof.
  assert (H : 0 <= 41.5) by (unfold Qle; simpl; lia).
  split; [exact H |].
  exact (calculateOvertime_conservation 41.5 (Num 39) H).
Defined.

(** ** Weekly warnings *)

(** C9.  [getWeeklyWarnings] emits at most one warning: above 48 hours only
    the error-typed maximum-weekly-hours warning (the 44h advisory is
    suppressed), above 44 and up to 48 hours only the advisory, and none up
    to 44 hours. *)
Theorem getWeeklyWarnings_cases (w : Q) :
  (48 < w ->
   getWeeklyWarnings (Num w) =
     [ mkWarning "error" "Dépassement durée maximale hebdomadaire (48h)" ])
  /\ (44 < w -> w <= 48 ->
      getWeeklyWarnings (Num w) =
        [ mkWarning "warning"
            "Attention : 44h max en moyenne sur 12 semaines" ])
  /\ (w <= 44 -> getWeeklyWarnings (Num w) = [])
  /\ (List.length (getWeeklyWarnings (Num w)) <= 1)%nat.
Proof.
  unfold getWeeklyWarnings, gt, lt, ofZ, CONFIG.weeklyMaxHours,
    CONFIG.weeklyAvgMaxHours.
  change (inject_Z 48) with 48. change (inject_Z 44) with 44.
  repeat split; intros;
    destruct (Qlt_le_dec 48 w); destruct (Qlt_le_dec 44 w);
    try lra; try reflexivity; simpl; lia.
Qed.

Lemma getWeeklyWarnings_cases_witness :
  48 < 50
  /\ getWeeklyWarnings (Num 50) =
       [ mkWarning "error" "Dépassement durée maximale hebdomadaire (48h)" ].
Proof.
  assert (H : 48 < 50) by reflexivity.
  split; [exact H |].
  destruct (getWeeklyWarnings_cases 50) as [H1 _].
  exact (H1 H).
Defined.

(** ** Hourly rate *)

(** C10.  For a positive gross monthly salary and a contract base outside
    {24, 32, 35, 39}, [calculateHourlyRate] falls back to the monthly
    divisor of the 35h contract: it returns the whole number of
    ten-thousandths nearest to the salary divided by 151.67 (halves
    upwards), at most half a ten-thousandth away from the quotient.  For
    instance a salary of 2000 on a base of 40 gives 13.1865, and a salary of
    1775 gives 11.703. *)
Theorem calculateHourlyRate_fallback (g : Q) (cb : number) :
  0 < g ->
  ~ cb =n= Num 24 -> ~ cb =n= Num 32 -> ~ cb =n= Num 35 -> ~ cb =n= Num 39 ->
  let r := inject_Z (Qfloor (g / 151.67 * 10000 + (1 # 2))) / 10000 in
  calculateHourlyRate (Num g) cb = Num r
  /\ r - g / 151.67 <= 1 # 20000
  /\ g / 151.67 - r < 1 # 20000
  /\ calculateHourlyRate (Num 2000) (Num 40) =n= Num 13.1865
  /\ calculateHourlyRate (Num 1775) (Num 40) =n= Num 11.703.
Proof.
  intros Hg H24 H32 H35 H39 r.
  apply strictEq_false_iff in H24, H32, H35, H39.
  split; [| split; [| split; [| split]]].
  - unfold calculateHourlyRate, CONFIG.contractBases.
    rewrite H24, H32, H35, H39.
    unfold truthy, le. num_cases; try lra.
    cbn [negb orb lookup_or toNumber div].
    destruct (Qeq_dec 151.67 0) as [E | _]; [discriminate E |].
    apply round4_Num.
  - subst r. pose proof (Qfloor_le (g / 151.67 * 10000 + (1 # 2))) as Hlo.
    set (f := inject_Z (Qfloor (g / 151.67 * 10000 + (1 # 2)))) in *.
    assert (Hf : f / 10000 == f * (1 # 10000)) by field.
    rewrite Hf. lra.
  - subst r. pose proof (Qlt_floor (g / 151.67 * 10000 + (1 # 2))) as Hhi.
    rewrite inject_Z_plus in Hhi. change (inject_Z 1) with 1 in Hhi.
    set (f := inject_Z (Qfloor (g / 151.67 * 10000 + (1 # 2)))) in *.
    assert (Hf : f / 10000 == f * (1 # 10000)) by field.
    rewrite Hf. lra.
  - vm_compute. reflexivity.
  - vm_compute. reflexivity.
Qed.

Lemma calculateHourlyRate_fallback_witness :
  (0 < 2000 /\ ~ Num 40 =n= Num 24 /\ ~ Num 40 =n= Num 32
   /\ ~ Num 40 =n= Num 35 /\ ~ Num 40 =n= Num 39)
  /\ calculateHourlyRate (Num 2000) (Num 40)
     = Num (inject_Z (Qfloor (2000 / 151.67 * 10000 + (1 # 2))) / 10000)
  /\ inject_Z (Qfloor (2000 / 151.67 * 10000 + (1 # 2))) / 10000 == 13.1865.
Proof.
  assert (H0 : 0 < 2000) by reflexivity.
  assert (H24 : ~ Num 40 =n= Num 24) by (intro E; discriminate E).
  assert (H32 : ~ Num 40 =n= Num 32) by (intro E; discriminate E).
  assert (H35 : ~ Num 40 =n= Num 35) by (intro E; discriminate E).
  assert (H39 : ~ Num 40 =n= Num 39) by (intro E; discriminate E).
  split; [tauto |]. split; [| reflexivity].
  destruct (calculateHourlyRate_fallback 2000 (Num 40) H0 H24 H32 H35 H39)
    as [H _].
  exact H.
Defined.

(** ** Pay estimator *)






Lemma contractBase_calculateOvertime (w cb : number) :
  contractBase (calculateOvertime w cb) = cb.
Proof.
  unfold calculateOvertime.
  destruct (cb === Num 39)%js; [destruct (w <=? Num 39)%js
                               | destruct (w <=? ofZ CONFIG.weeklyLegalHours)%js];
    reflexivity.
Qed.



(** ** Holiday calendar *)

(** C2, as the code has it.  [getEasterDate(2024)] is March 31, 2024 (the
    month is counted from 0), and [isPublicHoliday] of May 8, 2024 is the
    holiday named "Victoire 1945". *)
Theorem easter_2024_and_may_8 :
  getEasterDate 2024 = newDate (Some 2024%Z) (Some 2%Z) (Some 31%Z)
  /\ (getFullYear (getEasterDate 2024), getMonth (getEasterDate 2024),
      getDate (getEasterDate 2024)) = (Some 2024%Z, Some 2%Z, Some 31%Z)
  /\ option_map name
       (isPublicHoliday (newDate (Some 2024%Z) (Some 4%Z) (Some 8%Z)))
     = Some "Victoire 1945".
Proof.
  split; [| split]; vm_compute; reflexivity.
Qed.

(** C2 as stated fails on both counts: Easter 2024 is not April 21, and the
    holiday of May 8 is not named "Victory 1945". *)
Lemma easter_2024_counterexample :
  getEasterDate 2024 <> newDate (Some 2024%Z) (Some 3%Z) (Some 21%Z)
  /\ option_map name
       (isPublicHoliday (newDate (Some 2024%Z) (Some 4%Z) (Some 8%Z)))
     <> Some "Victory 1945".
Proof.
  split; vm_compute; discriminate.
Qed.

(** ** Daily hours *)

Lemma minutesToHours_Num (x : Q) :
  minutesToHours (Num x)
  = Num (inject_Z (Qfloor (x / 60 * 100 + (1 # 2))) / 100).
Proof.
  unfold minutesToHours; simpl.
  destruct (Qeq_dec 60 0) as [H | _]; [discriminate H |].
  simpl. destruct (Qeq_dec 100 0) as [H | _]; [discriminate H | reflexivity].
Qed.

Lemma minutesToHours_comp (x y : Q) :
  x == y -> minutesToHours (Num x) = minutesToHours (Num y).
Proof.
  intro H. rewrite !minutesToHours_Num. do 2 f_equal. apply f_equal.
  apply Qfloor_comp. rewrite H. reflexivity.
Qed.

Lemma hundredths_nonneg (x : Q) :
  0 <= x -> 0 <= inject_Z (Qfloor (x / 60 * 100 + (1 # 2))) / 100.
Proof.
  intro H.
  assert (Hz : (0 <= Qfloor (x / 60 * 100 + (1 # 2)))%Z).
  { change 0%Z with (Qfloor 0). apply Qfloor_resp_le.
    assert (x / 60 * 100 == x * (5 # 3)) by field. lra. }
  assert (0 <= inject_Z (Qfloor (x / 60 * 100 + (1 # 2)))).
  { change 0 with (inject_Z 0). rewrite <- Zle_Qle. exact Hz. }
  apply Qle_shift_div_l; [reflexivity | lra].
Qed.

Lemma hundredths_nonpos (x : Q) :
  x < 0 -> inject_Z (Qfloor (x / 60 * 100 + (1 # 2))) / 100 <= 0.
Proof.
  intro H.
  assert (Hz : (Qfloor (x / 60 * 100 + (1 # 2)) <= 0)%Z).
  { change 0%Z with (Qfloor (1 # 2)). apply Qfloor_resp_le.
    assert (x / 60 * 100 == x * (5 # 3)) by field. lra. }
  assert (inject_Z (Qfloor (x / 60 * 100 + (1 # 2))) <= 0).
  { change 0 with (inject_Z 0). rewrite <- Zle_Qle. exact Hz. }
  apply Qle_shift_div_r; [reflexivity | lra].
Qed.

(** Clamping at zero commutes with the conversion to hours. *)
Lemma max0_minutesToHours (x : number) :
  Math.max (Num 0) (minutesToHours x) =n= minutesToHours (Math.max (Num 0) x).
Proof.
  destruct x as [x | | |]; try (vm_compute; reflexivity).
  rewrite minutesToHours_Num. unfold Math.max, lt.
  destruct (Qlt_le_dec 0 x) as [Hx | Hx].
  - rewrite minutesToHours_Num.
    pose proof (hundredths_nonneg x (Qlt_le_weak _ _ Hx)) as Hn.
    destruct (Qlt_le_dec 0 (inject_Z (Qfloor (x / 60 * 100 + (1 # 2))) / 100));
      cbn [num_eq]; lra.
  - rewrite minutesToHours_Num.
    destruct (Qlt_le_dec 0 (inject_Z (Qfloor (x / 60 * 100 + (1 # 2))) / 100))
      as [Hp | Hp].
    + destruct (Qeq_dec x 0) as [E | E].
      * exfalso. rewrite (Qfloor_comp _ ((1 # 2))) in Hp
          by (rewrite E; reflexivity).
        vm_compute in Hp. discriminate Hp.
      * pose proof (hundredths_nonpos x ltac:(lra)). lra.
    + vm_compute. reflexivity.
Qed.

Lemma max0_num_eq (x y : number) :
  x =n= y -> Math.max (Num 0) x =n= Math.max (Num 0) y.
Proof.
  intro H. destruct x, y; cbn [num_eq] in H; try contradiction;
    try apply num_eq_refl.
  unfold Math.max, lt. num_cases; cbn [num_eq]; lra.
Qed.

Lemma minutesToHours_num_eq (x y : number) :
  x =n= y -> minutesToHours x = minutesToHours y.
Proof.
  intro H. destruct x, y; cbn [num_eq] in H; try contradiction;
    try reflexivity.
  apply minutesToHours_comp. exact H.
Qed.

Lemma breakMinutes_finite (entry : DayEntry) :
  exists q, breakMinutes entry = Num q.
Proof.
  unfold breakMinutes, or_else, parseInt.
  destruct (breakDuration entry); simpl; try (eexists; reflexivity).
  destruct (Qeq_dec _ 0); eexists; reflexivity.
Qed.

(** Extending the end past midnight when it is not after the start is
    extending the difference when it is not positive. *)
Lemma worked_minutes_agree (a b : number) (c : Q) :
  ((if (b <=? a)%js then b + Num 1440 else b) - a - Num c)%js
  =n= ((if (b - a <=? Num 0)%js then b - a + Num 1440 else b - a) - Num c)%js.
Proof.
  destruct a, b; unfold le, sub; cbn [neg add]; try exact I;
    num_cases; cbn [neg add num_eq]; try exact I; lra.
Qed.

(** The clamp at zero after the conversion to hours, as the code has it,
    and the clamp before it, as the specification has it, agree on every
    entry. *)
Lemma calculateDailyHours_order (entry : DayEntry) :
  calculateDailyHours entry =n= dailyHours_spec entry.
Proof.
  unfold calculateDailyHours, dailyHours_spec.
  destruct (String.eqb (start entry) "" || String.eqb (end_ entry) "");
    [reflexivity |].
  cbv zeta. fold (breakMinutes entry).
  destruct (breakMinutes_finite entry) as [c Hc]. rewrite Hc.
  eapply num_eq_trans; [apply max0_minutesToHours |].
  rewrite (minutesToHours_num_eq _ _
             (max0_num_eq _ _
                (worked_minutes_agree (timeToMinutes (start entry))
                   (timeToMinutes (end_ entry)) c))).
  apply num_eq_refl.
Qed.

(** ** Night hours *)

(** What the code computes for a shift that crosses midnight, starting at
    the minute [a] and ending at the minute [b <= a] of the next day: the
    evening overlap, the morning overlap of the start day, and the whole of
    [b], whether or not the shift ends after 06:00. *)
Lemma calculateNightHours_crossing (entry : DayEntry) (a b : Q) :
  start entry <> "" -> end_ entry <> "" ->
  timeToMinutes (start entry) = Num a ->
  timeToMinutes (end_ entry) = Num b ->
  0 <= a -> a < 1440 -> 0 <= b -> b <= a ->
  calculateNightHours entry
  = minutesToHours (Num ((1440 - Qmax a 1260) + Qmax (360 - a) 0 + b)).
Proof.
  intros Hs He Ha Hb Ha0 Ha1 Hb0 Hba.
  unfold calculateNightHours.
  apply String.eqb_neq in Hs, He. rewrite Hs, He, Ha, Hb.
  cbn [orb]. cbv zeta.
  unfold CONFIG.nightStart, CONFIG.nightEnd, ofZ.
  change (inject_Z 21) with 21. change (inject_Z 6) with 6.
  unfold Math.min, Math.max, gt, lt, le, sub. cbn [neg add mul].
  num_cases; cbn [neg add mul]; num_cases;
    try (apply minutesToHours_comp; q_minmax; lra); try lra.
Qed.

(** C1 at a failing input.  A shift from 22:00 to 08:00 crosses midnight;
    the night window ends at 06:00, which leaves 2 + 6 = 8 night hours, but
    [calculateNightHours] returns 10: the two hours worked after 06:00 of
    the next day are counted, because the next-day portion is capped at
    [nightEndMin * 60] minutes instead of [nightEndMin]. *)
Theorem calculateNightHours_after_six_counted :
  let entry := mkDayEntry "2024-05-06" "22:00" "08:00" (Num 0) in
  calculateNightHours entry =n= Num 10
  /\ ~ calculateNightHours entry =n= Num 8.
Proof.
  split; vm_compute; [reflexivity | discriminate].
Qed.

(** ** Period processor *)

Lemma in_allTimes (h m : Z) :
  (0 <= h < 24)%Z -> (0 <= m < 60)%Z -> In (h, m) allTimes.
Proof.
  intros Hh Hm. unfold allTimes. apply in_prod.
  - rewrite <- (Z2Nat.id h) by lia. apply in_map. apply in_seq. lia.
  - rewrite <- (Z2Nat.id m) by lia. apply in_map. apply in_seq. lia.
Qed.

Lemma allTimes_parse : forallb parsesToMinutes allTimes = true.
Proof. vm_compute. reflexivity. Qed.

Lemma num_eqb_eq (a b : number) : num_eqb a b = true -> a =n= b.
Proof.
  destruct a, b; simpl; try discriminate; auto.
  apply Qeq_bool_eq.
Qed.

(** A valid time parses to its offset in minutes. *)
Lemma timeToMinutes_timeString (h m : Z) :
  (0 <= h < 24)%Z -> (0 <= m < 60)%Z ->
  timeToMinutes (timeString h m) =n= ofZ (h * 60 + m).
Proof.
  intros Hh Hm. apply num_eqb_eq.
  pose proof allTimes_parse as H. rewrite forallb_forall in H.
  exact (H (h, m) (in_allTimes h m Hh Hm)).
Qed.

Lemma num_eq_finite (a b : number) :
  a =n= b -> isFinite b = true -> isFinite a = true.
Proof. destruct a, b; simpl; auto; contradiction. Qed.

Lemma timeToMinutes_wellFormed (s : string) :
  s = "" \/ validTime s -> isFinite (timeToMinutes s) = true.
Proof.
  intros [H | [h [m [Hh [Hm H]]]]]; subst s.
  - reflexivity.
  - apply (num_eq_finite _ _ (timeToMinutes_timeString h m Hh Hm)).
    reflexivity.
Qed.

Lemma isFinite_Num (a : number) : isFinite a = true -> exists q, a = Num q.
Proof. destruct a; try discriminate. intros _. eexists; reflexivity. Qed.

(** Finite numbers are closed under the operations of the engine. *)
Ltac finite_step :=
  first
    [ rewrite minutesToHours_Num
    | rewrite round2_Num
    | progress cbn [add sub neg mul isFinite]
    | progress unfold Math.min, Math.max, gt, ofZ
    | match goal with
      | |- context [if ?c then _ else _] => destruct c
      end ].

Ltac finite_tac := repeat finite_step; try reflexivity.

Lemma calculateDailyHours_finite (entry : DayEntry) :
  isFinite (timeToMinutes (start entry)) = true ->
  isFinite (timeToMinutes (end_ entry)) = true ->
  isFinite (calculateDailyHours entry) = true.
Proof.
  intros Hs He. unfold calculateDailyHours.
  destruct (isFinite_Num _ Hs) as [a Ha].
  destruct (isFinite_Num _ He) as [b Hb].
  fold (breakMinutes entry).
  destruct (breakMinutes_finite entry) as [c Hc].
  rewrite Ha, Hb, Hc. finite_tac.
Qed.

Lemma calculateNightHours_finite (entry : DayEntry) :
  isFinite (timeToMinutes (start entry)) = true ->
  isFinite (timeToMinutes (end_ entry)) = true ->
  isFinite (calculateNightHours entry) = true.
Proof.
  intros Hs He. unfold calculateNightHours.
  destruct (isFinite_Num _ Hs) as [a Ha].
  destruct (isFinite_Num _ He) as [b Hb].
  rewrite Ha, Hb. cbv zeta. finite_tac.
Qed.

(** *** The week maps hold finite numbers *)

Lemma finiteMap_mapSet (m : WeekMap) (k : string) (v : number) :
  finiteMap m = true -> isFinite v = true -> finiteMap (mapSet m k v) = true.
Proof.
  intros Hm Hv. induction m as [| [k' v'] m IH]; simpl.
  - rewrite Hv. reflexivity.
  - simpl in Hm. apply andb_true_iff in Hm as [Hv' Hm].
    destruct (String.eqb k' k); simpl.
    + rewrite Hv, Hm. reflexivity.
    + rewrite Hv', (IH Hm). reflexivity.
Qed.

Lemma finiteMap_mapGet (m : WeekMap) (k : string) (v : number) :
  finiteMap m = true -> mapGet m k = Some v -> isFinite v = true.
Proof.
  intros Hm Hg. induction m as [| [k' v'] m IH]; simpl in *.
  - discriminate Hg.
  - apply andb_true_iff in Hm as [Hv' Hm].
    destruct (String.eqb k' k).
    + injection Hg as <-. exact Hv'.
    + exact (IH Hm Hg).
Qed.

Lemma mapGet_mapSet (m : WeekMap) (k : string) (v : number) :
  mapGet (mapSet m k v) k = Some v.
Proof.
  induction m as [| [k' v'] m IH]; simpl.
  - rewrite String.eqb_refl. reflexivity.
  - destruct (String.eqb k' k) eqn:E; simpl; rewrite E.
    + reflexivity.
    + exact IH.
Qed.

Lemma finiteMap_mapInit (m : WeekMap) (k : string) :
  finiteMap m = true -> finiteMap (mapInit m k) = true.
Proof.
  intro Hm. unfold mapInit.
  destruct (mapGet m k) as [v |]; [destruct (truthy v) |];
    try exact Hm; apply finiteMap_mapSet; auto.
Qed.

Lemma mapGet_mapInit (m : WeekMap) (k : string) :
  finiteMap m = true ->
  exists q, mapGet (mapInit m k) k = Some (Num q).
Proof.
  intro Hm. unfold mapInit.
  destruct (mapGet m k) as [v |] eqn:Hg; [destruct (truthy v) |].
  - destruct (isFinite_Num _ (finiteMap_mapGet m k v Hm Hg)) as [q ->].
    exists q. exact Hg.
  - exists 0. apply mapGet_mapSet.
  - exists 0. apply mapGet_mapSet.
Qed.

Lemma finiteMap_mapAdd (m : WeekMap) (k : string) (x : number) :
  finiteMap m = true -> isFinite x = true ->
  finiteMap (mapAdd (mapInit m k) k x) = true.
Proof.
  intros Hm Hx. unfold mapAdd.
  apply finiteMap_mapSet; [apply finiteMap_mapInit; exact Hm |].
  destruct (mapGet_mapInit m k Hm) as [q ->].
  destruct (isFinite_Num _ Hx) as [y ->]. reflexivity.
Qed.

Lemma isFinite_add (a b : number) :
  isFinite a = true -> isFinite b = true -> isFinite (a + b)%js = true.
Proof. destruct a, b; simpl; auto. Qed.

Lemma forallb_snoc {A : Type} (f : A -> bool) (l : list A) (x : A) :
  forallb f (l ++ [x])%list = forallb f l && f x.
Proof.
  rewrite forallb_app. simpl. rewrite andb_true_r. reflexivity.
Qed.

(** *** The first loop *)

Lemma dayStep_finite (st : DayLoop) (entry : DayEntry) :
  finiteLoop st = true ->
  isFinite (timeToMinutes (start entry)) = true ->
  isFinite (timeToMinutes (end_ entry)) = true ->
  finiteLoop (dayStep st entry) = true.
Proof.
  intros Hst Hs He.
  pose proof (calculateDailyHours_finite entry Hs He) as Hd.
  pose proof (calculateNightHours_finite entry Hs He) as Hn.
  unfold finiteLoop in Hst. repeat rewrite andb_true_iff in Hst.
  destruct Hst as [[[[[[[H1 H2] H3] H4] H5] H6] H7] H8].
  unfold finiteLoop, dayStep.
  cbn [l_dailyResults l_totalHours l_totalNightHours l_totalSundayHours
       l_totalHolidayHours weeklyHoursMap weeklySundayMap weeklyHolidayMap].
  rewrite forallb_snoc. unfold finiteDaily at 2.
  cbn [DailyResult.hoursWorked DailyResult.nightHours].
  rewrite H1, Hd, Hn, (isFinite_add _ _ H2 Hd), (isFinite_add _ _ H3 Hn).
  rewrite (finiteMap_mapAdd _ _ _ H6 Hd).
  cbn [andb].
  destruct (isSunday (parseDate (date entry))
            && (calculateDailyHours entry >? Num 0)%js);
    destruct (isSome (isPublicHoliday (parseDate (date entry)))
              && (calculateDailyHours entry >? Num 0)%js);
    rewrite ?(isFinite_add _ _ H4 Hd), ?(isFinite_add _ _ H5 Hd), ?H4, ?H5,
      ?(finiteMap_mapAdd _ _ _ H7 Hd), ?(finiteMap_mapAdd _ _ _ H8 Hd),
      ?(finiteMap_mapInit _ _ H7), ?(finiteMap_mapInit _ _ H8);
    reflexivity.
Qed.

Lemma entry_times_finite (entry : DayEntry) :
  wellFormedEntry entry ->
  isFinite (timeToMinutes (start entry)) = true
  /\ isFinite (timeToMinutes (end_ entry)) = true.
Proof.
  intros [Hs He]. split; apply timeToMinutes_wellFormed; assumption.
Qed.

Lemma dayLoop_finite (entries : list DayEntry) (st : DayLoop) :
  Forall wellFormedEntry entries ->
  finiteLoop st = true ->
  finiteLoop (fold_left dayStep entries st) = true.
Proof.
  intro H. revert st. induction H as [| e es He Hes IH]; intros st Hst.
  - exact Hst.
  - simpl. apply IH. destruct (entry_times_finite e He) as [H1 H2].
    apply dayStep_finite; assumption.
Qed.

Lemma dayLoop_length (entries : list DayEntry) (st : DayLoop) :
  List.length (l_dailyResults (fold_left dayStep entries st))
  = (List.length (l_dailyResults st) + List.length entries)%nat.
Proof.
  revert st. induction entries as [| e es IH]; intro st; simpl.
  - lia.
  - rewrite IH. unfold dayStep. cbn [l_dailyResults].
    rewrite length_app. simpl. lia.
Qed.

(** *** The second loop *)

Lemma finiteOvertime_calculateOvertime (w : Q) (cb : number) :
  finiteOvertime (calculateOvertime (Num w) cb) = true.
Proof.
  destruct (cb === Num 39)%js eqn:Hcb.
  - rewrite (calculateOvertime_39_eq w cb Hcb).
    destruct (Qlt_le_dec 39 w); unfold finiteOvertime;
      cbn [regularHours structuralHours totalOvertime brackets].
    + rewrite fillBrackets_39.
      destruct (Qlt_le_dec 0 (w - 39)); [destruct (Qlt_le_dec 4 (w - 39)) |];
        unfold recorded; cbn [forallb hours rate multipliedHours];
        rewrite ?round2_Num; reflexivity.
    + finite_tac.
  - rewrite (calculateOvertime_35_eq w cb Hcb).
    destruct (Qlt_le_dec 35 w); unfold finiteOvertime;
      cbn [regularHours structuralHours totalOvertime brackets].
    + rewrite fillBrackets_35.
      destruct (Qlt_le_dec 0 (w - 35)); [destruct (Qlt_le_dec 8 (w - 35)) |];
        unfold recorded; cbn [forallb hours rate multipliedHours];
        rewrite ?round2_Num; reflexivity.
    + reflexivity.
Qed.

Lemma sumOvertimePay_finite (r : Q) (bs : list OvertimeBracket) (acc : number) :
  forallb (fun b => isFinite (hours b) && isFinite (rate b)
                    && isFinite (multipliedHours b)) bs = true ->
  isFinite acc = true ->
  isFinite (fold_left (fun overtimePay bracket =>
                         (overtimePay + hours bracket * Num r * rate bracket)%js)
                      bs acc) = true.
Proof.
  revert acc. induction bs as [| b bs IH]; intros acc Hbs Hacc; simpl.
  - exact Hacc.
  - simpl in Hbs. repeat rewrite andb_true_iff in Hbs.
    destruct Hbs as [[[Hh Hr] _] Hbs].
    apply IH; [exact Hbs |].
    destruct (isFinite_Num _ Hh) as [x ->].
    destruct (isFinite_Num _ Hr) as [y ->].
    destruct (isFinite_Num _ Hacc) as [z ->]. reflexivity.
Qed.

Lemma calculatePay_finite (w s h : Q) (hourlyRate cb : number) :
  hourlyRate <> PInf ->
  match calculatePay (Num w) hourlyRate cb (Num s) (Num h) with
  | Some p => finitePay p
  | None => true
  end = true.
Proof.
  intro Hrate. unfold calculatePay.
  destruct hourlyRate as [r | | |]; try reflexivity; [| contradiction].
  destruct (negb (truthy (Num r)) || (Num r <=? Num 0)%js); [reflexivity |].
  pose proof (finiteOvertime_calculateOvertime w cb) as Ho.
  set (o := calculateOvertime (Num w) cb) in *.
  unfold finiteOvertime in Ho. repeat rewrite andb_true_iff in Ho.
  destruct Ho as [[[Hreg Hstr] _] Hbr].
  pose proof (sumOvertimePay_finite r (brackets o) (Num 0) Hbr eq_refl) as Hsum.
  fold (sumOvertimePay (Num r) (brackets o)) in Hsum.
  destruct (isFinite_Num _ Hreg) as [g Hg].
  destruct (isFinite_Num _ Hstr) as [t Ht].
  destruct (isFinite_Num _ Hsum) as [u Hu].
  cbv zeta. rewrite Hg, Ht, Hu.
  unfold CONFIG.sundayPremiumRate, CONFIG.holidayPremiumRate.
  destruct ((cb === Num 39)%js && (Num t >? Num 0)%js);
    unfold finitePay;
    cbn [regularPay structuralPay overtimePay pay_sundayHours sundayPremium
         pay_holidayHours holidayPremium totalPay add mul];
    rewrite !round2_Num; reflexivity.
Qed.

Lemma or_else_mapGet_finite (m : WeekMap) (k : string) :
  finiteMap m = true ->
  isFinite (or_else (toNumber (mapGet m k)) (Num 0)) = true.
Proof.
  intro Hm. destruct (mapGet m k) as [v |] eqn:Hg; [| reflexivity].
  destruct (isFinite_Num _ (finiteMap_mapGet m k v Hm Hg)) as [q ->].
  unfold or_else, toNumber, truthy. destruct (Qeq_dec q 0); reflexivity.
Qed.

Lemma round2_finite (x : number) :
  isFinite x = true -> isFinite (round2 x) = true.
Proof.
  intro H. destruct (isFinite_Num _ H) as [q ->]. rewrite round2_Num.
  reflexivity.
Qed.

Lemma weekStep_finite (sundayMap holidayMap : WeekMap)
  (hourlyRate cb : number) (st : list WeeklyResult.t * number)
  (kv : string * number) :
  finiteMap sundayMap = true -> finiteMap holidayMap = true ->
  hourlyRate <> PInf ->
  isFinite (snd kv) = true ->
  finiteWeeks st = true ->
  finiteWeeks (weekStep sundayMap holidayMap hourlyRate cb st kv) = true.
Proof.
  intros Hsm Hhm Hrate Hkv Hst.
  destruct st as [results cum]. destruct kv as [k v].
  unfold finiteWeeks in *. cbn [fst snd] in *.
  apply andb_true_iff in Hst as [Hres Hcum].
  destruct (isFinite_Num _ Hkv) as [w ->].
  pose proof (or_else_mapGet_finite sundayMap k Hsm) as Hs.
  pose proof (or_else_mapGet_finite holidayMap k Hhm) as Hh.
  destruct (isFinite_Num _ Hs) as [s Es].
  destruct (isFinite_Num _ Hh) as [h Eh].
  pose proof (finiteOvertime_calculateOvertime w cb) as Ho.
  pose proof (calculatePay_finite w s h hourlyRate cb Hrate) as Hp.
  unfold weekStep. cbv zeta. rewrite Es, Eh. cbn [fst snd].
  assert (Hto : isFinite (totalOvertime (calculateOvertime (Num w) cb)) = true).
  { unfold finiteOvertime in Ho. repeat rewrite andb_true_iff in Ho. tauto. }
  rewrite forallb_snoc, Hres, (isFinite_add _ _ Hcum Hto).
  unfold finiteWeekly.
  cbn [WeeklyResult.totalHours WeeklyResult.overtime WeeklyResult.pay
       WeeklyResult.sundayHours WeeklyResult.holidayHours
       WeeklyResult.cumulativeOvertime].
  rewrite Ho, Hp, !round2_Num, (round2_finite _ (isFinite_add _ _ Hcum Hto)).
  reflexivity.
Qed.

Lemma weekLoop_finite (sundayMap holidayMap : WeekMap)
  (hourlyRate cb : number) (m : WeekMap) (st : list WeeklyResult.t * number) :
  finiteMap sundayMap = true -> finiteMap holidayMap = true ->
  hourlyRate <> PInf ->
  finiteMap m = true ->
  finiteWeeks st = true ->
  finiteWeeks (fold_left (weekStep sundayMap holidayMap hourlyRate cb) m st)
  = true.
Proof.
  intros Hsm Hhm Hrate. revert st.
  induction m as [| kv m IH]; intros st Hm Hst; simpl.
  - exact Hst.
  - simpl in Hm. apply andb_true_iff in Hm as [Hkv Hm].
    apply IH; [exact Hm |]. apply weekStep_finite; assumption.
Qed.

(** *** The total pay *)

Lemma payStep_finite (acc : TotalPay.t) (w : WeeklyResult.t) :
  finiteTotalPay acc = true -> finiteWeekly w = true ->
  finiteTotalPay (payStep acc w) = true.
Proof.
  intros Hacc Hw. unfold payStep.
  unfold finiteWeekly in Hw. repeat rewrite andb_true_iff in Hw.
  destruct Hw as [[[[_ Hp] _] _] _].
  destruct (WeeklyResult.pay w) as [p |]; [| exact Hacc].
  unfold finitePay in Hp. repeat rewrite andb_true_iff in Hp.
  unfold finiteTotalPay in *. repeat rewrite andb_true_iff in Hacc.
  cbn [TotalPay.regular TotalPay.structural TotalPay.overtime
       TotalPay.sundayPremium TotalPay.holidayPremium TotalPay.total].
  repeat rewrite andb_true_iff.
  repeat split; apply isFinite_add; tauto.
Qed.

Lemma payLoop_finite (ws : list WeeklyResult.t) (acc : TotalPay.t) :
  forallb finiteWeekly ws = true -> finiteTotalPay acc = true ->
  finiteTotalPay (fold_left payStep ws acc) = true.
Proof.
  revert acc. induction ws as [| w ws IH]; intros acc Hws Hacc; simpl.
  - exact Hacc.
  - simpl in Hws. apply andb_true_iff in Hws as [Hw Hws].
    apply IH; [exact Hws |]. apply payStep_finite; assumption.
Qed.

(** *** The period result *)

(** The hours, the amounts and the totals of a period of well-formed
    entries are finite; the empty list yields empty lists and totals all
    zero. *)
Lemma processEntries_finiteNumbers
  (entries : list DayEntry) (hourlyRate cb : number) :
  Forall wellFormedEntry entries ->
  isFinite hourlyRate = true \/ hourlyRate = NaN ->
  let r := processEntries entries hourlyRate cb in
  let r0 := processEntries [] hourlyRate cb in
  finiteNumbers r = true
  /\ List.length (PeriodResult.dailyResults r) = List.length entries
  /\ PeriodResult.dailyResults r0 = []
  /\ PeriodResult.weeklyResults r0 = []
  /\ PeriodResult.totalHours r0 =n= Num 0
  /\ PeriodResult.totalNightHours r0 =n= Num 0
  /\ PeriodResult.totalSundayHours r0 =n= Num 0
  /\ PeriodResult.totalHolidayHours r0 =n= Num 0
  /\ PeriodResult.totalOvertime r0 =n= Num 0
  /\ match PeriodResult.totalPay r0 with
     | Some t =>
         TotalPay.regular t =n= Num 0 /\ TotalPay.structural t =n= Num 0
         /\ TotalPay.overtime t =n= Num 0
         /\ TotalPay.sundayPremium t =n= Num 0
         /\ TotalPay.holidayPremium t =n= Num 0 /\ TotalPay.total t =n= Num 0
     | None => True
     end.
Proof.
  intros Hwf Hrate r r0.
  assert (Hr : hourlyRate <> PInf).
  { destruct Hrate as [H | H]; intro E; rewrite E in H; discriminate H. }
  split; [| split].
  - subst r. unfold processEntries.
    match goal with
    | |- context [fold_left dayStep entries ?i] =>
        pose proof (dayLoop_finite entries i Hwf eq_refl) as Hst;
        set (st := fold_left dayStep entries i) in *
    end.
    unfold finiteLoop in Hst. repeat rewrite andb_true_iff in Hst.
    destruct Hst as [[[[[[[H1 H2] H3] H4] H5] H6] H7] H8].
    pose proof (weekLoop_finite (weeklySundayMap st) (weeklyHolidayMap st)
                  hourlyRate cb (weeklyHoursMap st) ([], Num 0)
                  H7 H8 Hr H6 eq_refl) as Hw.
    destruct (fold_left
                (weekStep (weeklySundayMap st) (weeklyHolidayMap st)
                          hourlyRate cb)
                (weeklyHoursMap st) ([], Num 0)) as [results cum].
    unfold finiteWeeks in Hw. cbn [fst snd] in Hw.
    apply andb_true_iff in Hw as [Hres Hcum].
    unfold finiteNumbers.
    cbn [PeriodResult.dailyResults PeriodResult.weeklyResults
         PeriodResult.totalHours PeriodResult.totalNightHours
         PeriodResult.totalSundayHours PeriodResult.totalHolidayHours
         PeriodResult.totalOvertime PeriodResult.totalPay].
    rewrite H1, Hres, (round2_finite _ H2), (round2_finite _ H3),
      (round2_finite _ H4), (round2_finite _ H5), (round2_finite _ Hcum).
    cbn [andb].
    destruct (hourlyRate >? Num 0)%js; [| reflexivity].
    match goal with
    | |- context [fold_left payStep results ?i] =>
        pose proof (payLoop_finite results i Hres eq_refl) as Hp;
        set (sums := fold_left payStep results i) in *
    end.
    unfold finiteTotalPay in Hp. repeat rewrite andb_true_iff in Hp.
    destruct Hp as [[[[[P1 P2] P3] P4] P5] P6].
    unfold finiteTotalPay.
    cbn [TotalPay.regular TotalPay.structural TotalPay.overtime
         TotalPay.sundayPremium TotalPay.holidayPremium TotalPay.total].
    rewrite (round2_finite _ P1), (round2_finite _ P2), (round2_finite _ P3),
      (round2_finite _ P4), (round2_finite _ P5), (round2_finite _ P6).
    reflexivity.
  - subst r. unfold processEntries.
    match goal with
    | |- context [fold_left dayStep entries ?i] =>
        pose proof (dayLoop_length entries i) as Hlen;
        set (st := fold_left dayStep entries i) in *
    end.
    destruct (fold_left _ (weeklyHoursMap st) ([], Num 0)) as [results cum].
    cbn [PeriodResult.dailyResults]. exact Hlen.
  - subst r0. unfold processEntries. cbn [fold_left weeklyHoursMap
      weeklySundayMap weeklyHolidayMap l_dailyResults l_totalHours
      l_totalNightHours l_totalSundayHours l_totalHolidayHours].
    cbn [PeriodResult.dailyResults PeriodResult.weeklyResults
         PeriodResult.totalHours PeriodResult.totalNightHours
         PeriodResult.totalSundayHours PeriodResult.totalHolidayHours
         PeriodResult.totalOvertime PeriodResult.totalPay].
    repeat (split; [reflexivity |]).
    destruct (hourlyRate >? Num 0)%js; [| exact I].
    cbn [TotalPay.regular TotalPay.structural TotalPay.overtime
         TotalPay.sundayPremium TotalPay.holidayPremium TotalPay.total].
    repeat (split; [reflexivity |]). reflexivity.
Qed.

(** The contract base recorded in the weekly results is the one given. *)
Lemma calculatePay_breakdown (w rate cb sH hH : number) (p : PayBreakdown) :
  calculatePay w rate cb sH hH = Some p ->
  breakdown p = calculateOvertime w cb.
Proof.
  unfold calculatePay.
  destruct (negb (truthy rate) || (rate <=? Num 0)%js); [discriminate |].
  cbv zeta.
  destruct ((cb === Num 39)%js
            && (structuralHours (calculateOvertime w cb) >? Num 0)%js);
    intro H; injection H as <-; reflexivity.
Qed.

Lemma weekStep_bases (sundayMap holidayMap : WeekMap)
  (hourlyRate cb : number) (st : list WeeklyResult.t * number)
  (kv : string * number) :
  isFinite cb = true ->
  forallb finiteBases (fst st) = true ->
  forallb finiteBases
    (fst (weekStep sundayMap holidayMap hourlyRate cb st kv)) = true.
Proof.
  intros Hcb Hst. destruct st as [results cum]. destruct kv as [k v].
  unfold weekStep. cbn [fst] in *.
  rewrite forallb_app, Hst. cbn [forallb andb].
  unfold finiteBases.
  cbn [WeeklyResult.overtime WeeklyResult.pay].
  rewrite contractBase_calculateOvertime, Hcb. cbn [andb].
  destruct (calculatePay v hourlyRate cb _ _) as [p |] eqn:E; [| reflexivity].
  rewrite (calculatePay_breakdown _ _ _ _ _ _ E),
    contractBase_calculateOvertime, Hcb.
  reflexivity.
Qed.

Lemma weekLoop_bases (sundayMap holidayMap : WeekMap)
  (hourlyRate cb : number) (m : WeekMap) (st : list WeeklyResult.t * number) :
  isFinite cb = true ->
  forallb finiteBases (fst st) = true ->
  forallb finiteBases
    (fst (fold_left (weekStep sundayMap holidayMap hourlyRate cb) m st))
  = true.
Proof.
  intro Hcb. revert st. induction m as [| kv m IH]; intros st Hst.
  - exact Hst.
  - cbn [fold_left]. apply IH. apply weekStep_bases; assumption.
Qed.

(** C3, as the code has it.  For every list of entries whose start and end
    are each empty or a valid [HH:MM] time (whatever the break), an hourly
    rate that is absent or finite and at most 1000000, and a finite contract
    base, [processEntries] returns a complete result all of whose numbers
    are finite, the contract base it records included, with one daily result
    per entry; the empty list yields empty daily and weekly lists and totals
    all zero. *)
Theorem processEntries_wellDefined
  (entries : list DayEntry) (hourlyRate cb : number) :
  Forall wellFormedEntry entries ->
  hourlyRate = NaN \/ (exists q, hourlyRate = Num q /\ q <= 1000000) ->
  isFinite cb = true ->
  let r := processEntries entries hourlyRate cb in
  let r0 := processEntries [] hourlyRate cb in
  wellDefined r = true
  /\ List.length (PeriodResult.dailyResults r) = List.length entries
  /\ PeriodResult.dailyResults r0 = []
  /\ PeriodResult.weeklyResults r0 = []
  /\ PeriodResult.totalHours r0 =n= Num 0
  /\ PeriodResult.totalNightHours r0 =n= Num 0
  /\ PeriodResult.totalSundayHours r0 =n= Num 0
  /\ PeriodResult.totalHolidayHours r0 =n= Num 0
  /\ PeriodResult.totalOvertime r0 =n= Num 0
  /\ match PeriodResult.totalPay r0 with
     | Some t =>
         TotalPay.regular t =n= Num 0 /\ TotalPay.structural t =n= Num 0
         /\ TotalPay.overtime t =n= Num 0
         /\ TotalPay.sundayPremium t =n= Num 0
         /\ TotalPay.holidayPremium t =n= Num 0 /\ TotalPay.total t =n= Num 0
     | None => True
     end.
Proof.
  intros Hwf Hrate Hcb r r0.
  assert (Hrate' : isFinite hourlyRate = true \/ hourlyRate = NaN).
  { destruct Hrate as [-> | [q [-> _]]]; [right | left]; reflexivity. }
  destruct (processEntries_finiteNumbers entries hourlyRate cb Hwf Hrate')
    as [H1 H2].
  split; [| exact H2].
  subst r. unfold wellDefined. rewrite H1. cbn [andb].
  unfold processEntries.
  match goal with
  | |- context [fold_left dayStep entries ?i] =>
      set (st := fold_left dayStep entries i)
  end.
  pose proof (weekLoop_bases (weeklySundayMap st) (weeklyHolidayMap st)
                hourlyRate cb (weeklyHoursMap st) ([], Num 0) Hcb eq_refl)
    as Hw.
  destruct (fold_left _ (weeklyHoursMap st) ([], Num 0)) as [results cum].
  cbn [fst] in Hw.
  cbn [PeriodResult.contractBase PeriodResult.weeklyResults].
  rewrite Hcb, Hw. reflexivity.
Qed.

Lemma processEntries_wellDefined_witness :
  Forall wellFormedEntry sampleEntries
  /\ (Num 15 = NaN \/ (exists q, Num 15 = Num q /\ q <= 1000000))
  /\ isFinite (Num 35) = true
  /\ wellDefined (processEntries sampleEntries (Num 15) (Num 35)) = true.
Proof.
  assert (H9 : validTime "09:00").
  { exists 9%Z, 0%Z. repeat split; try lia. }
  assert (H17 : validTime "17:00").
  { exists 17%Z, 0%Z. repeat split; try lia. }
  assert (Hwf : Forall wellFormedEntry sampleEntries).
  { unfold sampleEntries.
    apply Forall_cons; [| apply Forall_cons; [| apply Forall_nil]];
      (split; cbn [start end_]; right; assumption). }
  assert (H : Num 15 = NaN \/ (exists q, Num 15 = Num q /\ q <= 1000000)).
  { right. exists 15. split; [reflexivity | unfold Qle; simpl; lia]. }
  assert (Hcb : isFinite (Num 35) = true) by reflexivity.
  split; [exact Hwf |]. split; [exact H |]. split; [exact Hcb |].
  destruct (processEntries_wellDefined sampleEntries (Num 15) (Num 35)
              Hwf H Hcb) as [Hwd _].
  exact Hwd.
Defined.

(** C3 as stated fails: a start that is not a time is neither read as 0 nor
    skipped.  It parses to [NaN], and so do the hours of the day, the total
    hours and the total overtime of the period. *)
Lemma processEntries_malformed_counterexample :
  timeToMinutes "abc" = NaN
  /\ map DailyResult.hoursWorked
       (PeriodResult.dailyResults
          (processEntries malformedEntries (Num 15) (Num 35))) = [NaN]
  /\ PeriodResult.totalHours
       (processEntries malformedEntries (Num 15) (Num 35)) = NaN
  /\ PeriodResult.totalOvertime
       (processEntries malformedEntries (Num 15) (Num 35)) = NaN
  /\ wellDefined (processEntries malformedEntries (Num 15) (Num 35)) = false.
Proof.
  repeat split; vm_compute; reflexivity.
Qed.

(** ** Pay of a week, to the cent *)

(** Rounding to two decimals moves a number by half a hundredth at most. *)
Lemma nearestHundredth_near (x : Q) :
  nearestHundredth x - x <= 1 # 200 /\ x - nearestHundredth x <= 1 # 200.
Proof.
  unfold nearestHundredth.
  pose proof (Qfloor_le (x * 100 + (1 # 2))) as Hlo.
  pose proof (Qlt_floor (x * 100 + (1 # 2))) as Hhi.
  rewrite inject_Z_plus in Hhi. change (inject_Z 1) with 1 in Hhi.
  set (f := inject_Z (Qfloor (x * 100 + (1 # 2)))) in *.
  assert (Hf : f / 100 == f * (1 # 100)) by field.
  rewrite Hf. split; lra.
Qed.





(** ** Daily hours in closed form *)

Lemma append_nonempty (x y : string) (c : ascii) : x ++ String c y <> "".
Proof. destruct x; discriminate. Qed.

Lemma validTime_nonempty (s : string) : validTime s -> s <> "".
Proof.
  intros [h [m [_ [_ ->]]]]. unfold timeString. apply append_nonempty.
Qed.


(** A valid time read in minutes, and an integer break read from the
    entry. *)
Lemma timeToMinutes_Num (h m : Z) :
  (0 <= h < 24)%Z -> (0 <= m < 60)%Z ->
  exists a, timeToMinutes (timeString h m) = Num a
            /\ a == inject_Z (h * 60 + m).
Proof.
  intros Hh Hm. pose proof (timeToMinutes_timeString h m Hh Hm) as H.
  destruct (timeToMinutes (timeString h m)) as [a | | |];
    cbn [num_eq ofZ] in H; try contradiction.
  exists a. split; [reflexivity | exact H].
Qed.

Lemma breakMinutes_integer (entry : DayEntry) (b : Z) :
  breakDuration entry = Num (inject_Z b)
  \/ (b = 0%Z /\ breakDuration entry = NaN) ->
  breakMinutes entry =n= Num (inject_Z b).
Proof.
  intros [H | [-> H]]; unfold breakMinutes; rewrite H; [| reflexivity].
  cbn [parseInt]. change (Qnum (inject_Z b)) with b.
  change (Qden (inject_Z b)) with 1%positive. rewrite Z.quot_1_r.
  unfold or_else, truthy.
  destruct (Qeq_dec (inject_Z b) 0) as [E | E]; cbn [num_eq].
  - symmetry. exact E.
  - reflexivity.
Qed.

Lemma minutes_nearestHundredth (x : Q) (n : Z) :
  x == inject_Z n ->
  minutesToHours (Num x) =n= Num (nearestHundredth (inject_Z n / 60)).
Proof.
  intro H. rewrite minutesToHours_Num. cbn [num_eq]. unfold nearestHundredth.
  rewrite (Qfloor_comp (x / 60 * 100 + (1 # 2))
             (inject_Z n / 60 * 100 + (1 # 2))) by (rewrite H; reflexivity).
  reflexivity.
Qed.

(** C7.  [calculateDailyHours] returns 0 when the start or the end is
    missing.  For valid start and end times and a break that is absent or
    an integer number of minutes (of less than a million), it returns the
    nearest hundredth of an hour to [max(0, span - break) / 60], where the
    span is end minus start in minutes, plus 1440 when that difference is
    not positive: the break is subtracted, the result is never negative and
    it is rounded to two decimals.  On every entry the clamp after the conversion, which the
    code has, gives what the clamp before it gives.  In particular 22:00 to
    06:00 without break is 8 hours, 09:00 to 17:00 with 60 minutes of break
    is 7 hours, 09:00 to 17:10 is 8.17 hours, and a break longer than the
    span gives 0. *)
Theorem calculateDailyHours_closed (entry : DayEntry) :
  (start entry = "" \/ end_ entry = "" -> calculateDailyHours entry = Num 0)
  /\ (forall h1 m1 h2 m2 b : Z,
        (0 <= h1 < 24)%Z -> (0 <= m1 < 60)%Z ->
        (0 <= h2 < 24)%Z -> (0 <= m2 < 60)%Z ->
        (- 1000000 < b < 1000000)%Z ->
        start entry = timeString h1 m1 -> end_ entry = timeString h2 m2 ->
        breakDuration entry = Num (inject_Z b)
        \/ (b = 0%Z /\ breakDuration entry = NaN) ->
        let span := spanMinutes (60 * h1 + m1) (60 * h2 + m2) in
        calculateDailyHours entry
        =n= Num (nearestHundredth (inject_Z (Z.max 0 (span - b)) / 60)))
  /\ calculateDailyHours entry =n= dailyHours_spec entry
  /\ (let day s e b := mkDayEntry "2024-05-06" s e (Num b) in
      calculateDailyHours (day "22:00" "06:00" 0) =n= Num 8
      /\ calculateDailyHours (day "09:00" "17:00" 60) =n= Num 7
      /\ calculateDailyHours (day "09:00" "17:10" 0) =n= Num 8.17
      /\ calculateDailyHours (day "09:00" "17:10" 45) =n= Num 7.42
      /\ calculateDailyHours (day "09:00" "09:30" 45) =n= Num 0
      /\ calculateDailyHours (day "09:00" "09:00" 0) =n= Num 24).
Proof.
  split; [| split; [| split]].
  - intros [H | H]; unfold calculateDailyHours; rewrite H.
    + reflexivity.
    + rewrite orb_true_r. reflexivity.
  - intros h1 m1 h2 m2 b Hh1 Hm1 Hh2 Hm2 Hb Hs He Hbr span.
    assert (Ns : start entry <> "")
      by (apply validTime_nonempty; exists h1, m1; auto).
    assert (Ne : end_ entry <> "")
      by (apply validTime_nonempty; exists h2, m2; auto).
    destruct (timeToMinutes_Num h1 m1 Hh1 Hm1) as [a [Ha Ea]].
    destruct (timeToMinutes_Num h2 m2 Hh2 Hm2) as [c [Hc Ec]].
    pose proof (breakMinutes_integer entry b Hbr) as Hbm.
    unfold calculateDailyHours.
    apply String.eqb_neq in Ns, Ne. rewrite Ns, Ne. cbn [orb]. cbv zeta.
    fold (breakMinutes entry).
    destruct (breakMinutes entry) as [q | | |]; cbn [num_eq] in Hbm;
      try contradiction.
    rewrite Hs, He, Ha, Hc.
    rewrite inject_Z_plus, inject_Z_mult in Ea, Ec.
    assert (Ea' : a == inject_Z (60 * h1 + m1))
      by (rewrite Ea, inject_Z_plus, inject_Z_mult; ring).
    assert (Ec' : c == inject_Z (60 * h2 + m2))
      by (rewrite Ec, inject_Z_plus, inject_Z_mult; ring).
    clear Ea Ec.
    set (s := (60 * h1 + m1)%Z) in *. set (e := (60 * h2 + m2)%Z) in *.
    assert (Hspan : (if (Num c <=? Num a)%js then (Num c + Num 1440)%js
                     else Num c)
                    =n= Num (inject_Z (span + s))).
    { subst span. unfold spanMinutes, le.
      destruct (Qlt_le_dec a c) as [L | L].
      - assert (Hlt : (s < e)%Z) by (rewrite Zlt_Qlt, <- Ea', <- Ec'; exact L).
        destruct (e - s <=? 0)%Z eqn:E; [apply Z.leb_le in E; lia |].
        cbn [num_eq]. rewrite Ec'. f_equal. apply inject_Z_injective. lia.
      - assert (Hle : (e <= s)%Z) by (rewrite Zle_Qle, <- Ea', <- Ec'; exact L).
        destruct (e - s <=? 0)%Z eqn:E; [| apply Z.leb_gt in E; lia].
        cbn [add num_eq]. rewrite Ec'.
        replace (e - s + 1440 + s)%Z with (e + 1440)%Z by lia.
        rewrite inject_Z_plus. reflexivity. }
    destruct (if (Num c <=? Num a)%js then (Num c + Num 1440)%js else Num c)
      as [t | | |]; cbn [num_eq] in Hspan; try contradiction.
    cbn [sub add neg].
    assert (Hw : t + - a + - q == inject_Z (span - b)).
    { rewrite Hspan, Ea', Hbm.
      replace (span - b)%Z with (span + s + - s + - b)%Z by lia.
      rewrite !inject_Z_plus, !inject_Z_opp. reflexivity. }
    eapply num_eq_trans; [apply max0_minutesToHours |].
    unfold Math.max, lt.
    destruct (Qlt_le_dec 0 (t + - a + - q)) as [P | P].
    + assert (Hpos : (0 < span - b)%Z)
        by (rewrite Zlt_Qlt, <- Hw; exact P).
      rewrite Z.max_r by lia. apply minutes_nearestHundredth. exact Hw.
    + assert (Hneg : (span - b <= 0)%Z)
        by (rewrite Zle_Qle, <- Hw; exact P).
      rewrite Z.max_l by lia. vm_compute. reflexivity.
  - apply calculateDailyHours_order.
  - repeat split; vm_compute; reflexivity.
Qed.

Lemma calculateDailyHours_closed_witness :
  let entry := mkDayEntry "2024-05-06" "09:00" "17:10" (Num 45) in
  calculateDailyHours entry
  =n= Num (nearestHundredth
             (inject_Z (Z.max 0 (spanMinutes (60 * 9 + 0) (60 * 17 + 10) - 45))
              / 60))
  /\ nearestHundredth
       (inject_Z (Z.max 0 (spanMinutes (60 * 9 + 0) (60 * 17 + 10) - 45)) / 60)
     == 7.42.
Proof.
  intro entry.
  destruct (calculateDailyHours_closed entry) as [_ [H _]].
  split; [| reflexivity].
  refine (H 9 0 17 10 45 _ _ _ _ _ _ _ _)%Z;
    try lia; try (split; reflexivity); try reflexivity.
  left. reflexivity.
Defined.

(** * Further properties of the engine *)

(** ** Formatting *)

Lemma Qfloor_frac (q : Q) (a : Z) (b : positive) :
  q == inject_Z a / inject_Z (Zpos b) -> Qfloor q = (a / Zpos b)%Z.
Proof.
  intro H. rewrite (Qfloor_comp _ (a # b)).
  - reflexivity.
  - rewrite H. rewrite (Qmake_Qdiv a b). reflexivity.
Qed.

(** The hundredths of an hour to which a whole number of minutes rounds. *)
Lemma minutesToHours_ofZ (n : Z) :
  minutesToHours (ofZ n) = Num (inject_Z ((10 * n + 3) / 6) / 100).
Proof.
  unfold ofZ. rewrite minutesToHours_Num. do 3 f_equal.
  apply Qfloor_frac. rewrite inject_Z_plus, inject_Z_mult.
  change (inject_Z 10) with 10. change (inject_Z 3) with 3.
  change (inject_Z 6) with 6. field.
Qed.

(** [formatHours] of a number of hundredths of an hour. *)
Lemma formatHours_hundredths (z : Z) :
  formatHours (Num (inject_Z z / 100))
  = intToString (z / 100)
    ++ "h" ++ padStart0 2 (intToString ((6 * (z mod 100) + 5) / 10)).
Proof.
  unfold formatHours, Math_floor.
  assert (Hh : Qfloor (inject_Z z / 100) = (z / 100)%Z).
  { apply Qfloor_frac. reflexivity. }
  rewrite Hh. cbn [sub neg add mul Math.round integerToString].
  rewrite !Qfloor_Z.
  assert (Hm : Qfloor ((inject_Z z / 100 + - inject_Z (z / 100)) * 60 + (1 # 2))
               = ((6 * (z mod 100) + 5) / 10)%Z).
  { apply Qfloor_frac.
    pose proof (Z.div_mod z 100 ltac:(lia)) as Hz.
    assert (Hq : inject_Z z
                 == 100 * inject_Z (z / 100) + inject_Z (z mod 100)).
    { rewrite Hz at 1. rewrite inject_Z_plus, inject_Z_mult. reflexivity. }
    rewrite inject_Z_plus, inject_Z_mult.
    change (inject_Z 6) with 6. change (inject_Z 5) with 5.
    change (inject_Z 10) with 10. rewrite Hq. field. }
  rewrite Hm. reflexivity.
Qed.

(** X1.  Round trip of a duration through the engine's hours: for a whole,
    non-negative number of minutes, [formatHours] of [minutesToHours] prints
    what [formatDuration] prints, the hours and the minutes of the
    duration; the rounding to hundredths of an hour loses no minute. *)
Theorem formatHours_minutesToHours (n : Z) :
  (0 <= n)%Z ->
  formatHours (minutesToHours (ofZ n)) = formatDuration n.
Proof.
  intro Hn. rewrite minutesToHours_ofZ, formatHours_hundredths.
  unfold formatDuration. rewrite (Z.rem_mod_nonneg n 60) by lia.
  assert (H1 : ((10 * n + 3) / 6 / 100 = n / 60)%Z).
  { Z.div_mod_to_equations. lia. }
  assert (H2 : ((6 * (((10 * n + 3) / 6) mod 100) + 5) / 10 = n mod 60)%Z).
  { Z.div_mod_to_equations. lia. }
  rewrite H1, H2. reflexivity.
Qed.

Lemma formatHours_minutesToHours_witness :
  (0 <= 455)%Z
  /\ formatHours (minutesToHours (ofZ 455)) = formatDuration 455.
Proof.
  assert (H : (0 <= 455)%Z) by lia.
  split; [exact H | exact (formatHours_minutesToHours 455 H)].
Defined.

(** X2.  For a non-negative number of hours with at most two decimals, as
    the engine returns them, [formatHours] prints the whole hours, then [h],
    then the minutes on two digits, between 00 and 59. *)
Theorem formatHours_two_decimals (z : Z) :
  (0 <= z)%Z ->
  exists m : Z,
    (0 <= m <= 59)%Z
    /\ formatHours (Num (inject_Z z / 100))
       = intToString (z / 100) ++ "h" ++ padStart0 2 (intToString m)
    /\ String.length (padStart0 2 (intToString m)) = 2%nat.
Proof.
  intro Hz. exists ((6 * (z mod 100) + 5) / 10)%Z.
  assert (Hm : (0 <= (6 * (z mod 100) + 5) / 10 <= 59)%Z).
  { Z.div_mod_to_equations. lia. }
  split; [exact Hm |]. split; [apply formatHours_hundredths |].
  set (m := ((6 * (z mod 100) + 5) / 10)%Z) in *.
  assert (Hin : In m (map Z.of_nat (seq 0 60))).
  { rewrite <- (Z2Nat.id m) by lia. apply in_map. apply in_seq. lia. }
  assert (Hall : forallb (fun x => (String.length (padStart0 2 (intToString x))
                                    =? 2)%nat)
                         (map Z.of_nat (seq 0 60)) = true)
    by (vm_compute; reflexivity).
  rewrite forallb_forall in Hall. apply Nat.eqb_eq. exact (Hall m Hin).
Qed.

Lemma formatHours_two_decimals_witness :
  (0 <= 799)%Z
  /\ exists m : Z,
       (0 <= m <= 59)%Z
       /\ formatHours (Num (inject_Z 799 / 100))
          = intToString (799 / 100) ++ "h" ++ padStart0 2 (intToString m)
       /\ String.length (padStart0 2 (intToString m)) = 2%nat.
Proof.
  assert (H : (0 <= 799)%Z) by lia.
  split; [exact H | exact (formatHours_two_decimals 799 H)].
Defined.

(** ** Time strings *)

Lemma split_no_separator (sep : ascii) (s : string) :
  ~ In sep (list_ascii_of_string s) -> split sep s = [s].
Proof.
  induction s as [| c s IH]; intro H; simpl.
  - reflexivity.
  - simpl in H. destruct (Ascii.eqb c sep) eqn:E.
    + apply Ascii.eqb_eq in E. exfalso. apply H. left. exact E.
    + rewrite IH; [reflexivity |]. intro Hin. apply H. right. exact Hin.
Qed.

Lemma add_NaN_r (a : number) : (a + NaN)%js = NaN.
Proof. destruct a; reflexivity. Qed.

(** X3.  A time typed without a colon is not read as hours: whatever its
    characters, a non-empty string without [:] converts to [NaN], because
    the minutes are missing. *)
Theorem timeToMinutes_no_colon (s : string) :
  s <> "" -> ~ In ":"%char (list_ascii_of_string s) ->
  timeToMinutes s = NaN.
Proof.
  intros Hs Hc. unfold timeToMinutes.
  apply String.eqb_neq in Hs. rewrite Hs.
  rewrite (split_no_separator _ _ Hc). cbn [map nth_error toNumber].
  apply add_NaN_r.
Qed.

Lemma timeToMinutes_no_colon_witness :
  ("9" <> "" /\ ~ In ":"%char (list_ascii_of_string "9"))
  /\ timeToMinutes "9" = NaN.
Proof.
  assert (H1 : "9" <> "") by discriminate.
  assert (H2 : ~ In ":"%char (list_ascii_of_string "9")).
  { simpl. intros [H | H]; [discriminate H | exact H]. }
  split; [split; assumption |].
  exact (timeToMinutes_no_colon "9" H1 H2).
Defined.

(** X4.  A valid [HH:MM] time converts to its offset in minutes, below
    1440, and the offset determines the time: distinct valid times have
    distinct offsets. *)
Theorem timeToMinutes_valid (s : string) :
  validTime s ->
  exists n : Z,
    (0 <= n < 1440)%Z /\ timeToMinutes s =n= ofZ n
    /\ s = timeString (n / 60) (n mod 60).
Proof.
  intros [h [m [Hh [Hm ->]]]]. exists (h * 60 + m)%Z.
  split; [lia |]. split; [apply timeToMinutes_timeString; assumption |].
  replace ((h * 60 + m) / 60)%Z with h by (Z.div_mod_to_equations; lia).
  replace ((h * 60 + m) mod 60)%Z with m by (Z.div_mod_to_equations; lia).
  reflexivity.
Qed.

Lemma timeToMinutes_valid_witness :
  validTime "22:30"
  /\ exists n : Z,
       (0 <= n < 1440)%Z /\ timeToMinutes "22:30" =n= ofZ n
       /\ "22:30" = timeString (n / 60) (n mod 60).
Proof.
  assert (H : validTime "22:30").
  { exists 22%Z, 30%Z. repeat split; try lia. }
  split; [exact H | exact (timeToMinutes_valid "22:30" H)].
Defined.

(** ** Completing a typed time *)

Lemma parseInt10_cases (s : string) :
  parseInt10 s = NaN \/ exists z : Z, parseInt10 s = ofZ z.
Proof.
  unfold parseInt10.
  destruct (match dropWhiteSpace (list_ascii_of_string s) with
            | "-"%char :: r => ((-1)%Z, r)
            | "+"%char :: r => (1%Z, r)
            | _ => (1%Z, dropWhiteSpace (list_ascii_of_string s))
            end) as [sign cs].
  destruct (spanDigits 10 cs) as [ds rest].
  destruct (isNil ds); [left; reflexivity | right; eexists; reflexivity].
Qed.

Lemma ge_ofZ_0 (z : Z) : ge (ofZ z) (Num 0) = true -> (0 <= z)%Z.
Proof.
  unfold ge, le, ofZ. destruct (Qlt_le_dec (inject_Z z) 0); [discriminate |].
  intros _. rewrite Zle_Qle. exact q.
Qed.

Lemma le_ofZ (z k : Z) :
  (ofZ z <=? Num (inject_Z k))%js = true -> (z <= k)%Z.
Proof.
  unfold le, ofZ. destruct (Qlt_le_dec (inject_Z k) (inject_Z z));
    [discriminate |].
  intros _. rewrite Zle_Qle. exact q.
Qed.

Lemma integerToString_ofZ (z : Z) : integerToString (ofZ z) = intToString z.
Proof. unfold integerToString, ofZ. rewrite Qfloor_Z. reflexivity. Qed.

Lemma formatTime_valid (h m : number) (t : string) :
  (h = NaN \/ exists z : Z, h = ofZ z) ->
  (m = NaN \/ exists z : Z, m = ofZ z) ->
  formatTime h m = Some t -> validTime t.
Proof.
  intros [-> | [zh ->]] [-> | [zm ->]] H; unfold formatTime in H;
    try (cbn in H; discriminate H);
    try (destruct (ge (ofZ zh) (Num 0) && (ofZ zh <=? Num 23)%js);
         cbn in H; discriminate H).
  destruct (ge (ofZ zh) (Num 0)) eqn:H1; [| discriminate H].
  destruct (ofZ zh <=? Num 23)%js eqn:H2; [| discriminate H].
  destruct (ge (ofZ zm) (Num 0)) eqn:H3; [| discriminate H].
  destruct (ofZ zm <=? Num 59)%js eqn:H4; [| discriminate H].
  cbn [andb] in H. injection H as <-.
  apply ge_ofZ_0 in H1, H3.
  apply (le_ofZ zh 23) in H2. apply (le_ofZ zm 59) in H4.
  exists zh, zm. rewrite ?integerToString_ofZ, ?Z.div_1_r.
  split; [lia |]. split; [lia | reflexivity].
Qed.

Lemma autoCompleteTime_validTime (value t : string) :
  autoCompleteTime value = Some t -> validTime t.
Proof.
  intro H. unfold autoCompleteTime in H.
  destruct (String.eqb (trimString value) ""); [discriminate H |].
  destruct (testDigits 1 2 (trimString value)).
  { destruct (parseInt10_cases (trimString value)) as [E | [z E]];
      rewrite E in H; [cbn in H; discriminate H |].
    destruct (ge (ofZ z) (Num 0)) eqn:H1; [| discriminate H].
    destruct (ofZ z <=? Num 23)%js eqn:H2; [| discriminate H].
    cbn [andb] in H. injection H as <-.
    apply ge_ofZ_0 in H1. apply (le_ofZ z 23) in H2.
    exists z, 0%Z. rewrite ?integerToString_ofZ, ?Z.div_1_r.
    split; [lia |]. split; [lia | reflexivity]. }
  destruct (testDigits 3 4 (trimString value)).
  { destruct (String.length (trimString value) =? 3)%nat;
      eapply formatTime_valid; try exact H; apply parseInt10_cases. }
  destruct (testHourMinute 1 (trimString value)).
  { destruct (split ":" (trimString value)) as [| hStr [| mStr rest]];
      try discriminate H.
    eapply formatTime_valid; try exact H; apply parseInt10_cases. }
  destruct (testHourMinute 2 (trimString value)); [| discriminate H].
  destruct (split ":" (trimString value)) as [| hStr [| mStr rest]];
    try discriminate H.
  eapply formatTime_valid; try exact H; apply parseInt10_cases.
Qed.

(** X5.  [autoCompleteTime] never writes anything but a valid time: every
    value it writes back is [HH:MM] with the hour from 00 to 23 and the
    minute from 00 to 59, which [timeToMinutes] then reads as a finite
    number of minutes. *)
Theorem autoCompleteTime_valid (value t : string) :
  autoCompleteTime value = Some t ->
  validTime t /\ isFinite (timeToMinutes t) = true.
Proof.
  intro H. pose proof (autoCompleteTime_validTime value t H) as Hv.
  split; [exact Hv |]. apply timeToMinutes_wellFormed. right. exact Hv.
Qed.

Lemma autoCompleteTime_valid_witness :
  autoCompleteTime "7:5" = Some "07:50"
  /\ validTime "07:50" /\ isFinite (timeToMinutes "07:50") = true.
Proof.
  assert (H : autoCompleteTime "7:5" = Some "07:50") by reflexivity.
  split; [exact H | exact (autoCompleteTime_valid "7:5" "07:50" H)].
Defined.

Lemma optionStringEqb_eq (a b : option string) :
  optionStringEqb a b = true -> a = b.
Proof.
  destruct a, b; simpl; try discriminate; try reflexivity.
  intro H. apply String.eqb_eq in H. rewrite H. reflexivity.
Qed.

Lemma allTimes_completed : forallb completesShorthands allTimes = true.
Proof. vm_compute. reflexivity. Qed.

Lemma completesShorthands_at (h m : Z) :
  (0 <= h < 24)%Z -> (0 <= m < 60)%Z -> completesShorthands (h, m) = true.
Proof.
  intros Hh Hm. pose proof allTimes_completed as H.
  rewrite forallb_forall in H. exact (H (h, m) (in_allTimes h m Hh Hm)).
Qed.

(** X6.  [autoCompleteTime] leaves a valid time as it is, and completing
    twice is completing once: what it writes back it would write back
    again. *)
Theorem autoCompleteTime_idempotent (value t : string) :
  (validTime t -> autoCompleteTime t = Some t)
  /\ (autoCompleteTime value = Some t -> autoCompleteTime t = Some t).
Proof.
  assert (Hfix : validTime t -> autoCompleteTime t = Some t).
  { intros [h [m [Hh [Hm ->]]]].
    pose proof (completesShorthands_at h m Hh Hm) as H.
    unfold completesShorthands in H. repeat rewrite andb_true_iff in H.
    apply optionStringEqb_eq. tauto. }
  split; [exact Hfix |].
  intro H. apply Hfix. exact (autoCompleteTime_validTime value t H).
Qed.

Lemma autoCompleteTime_idempotent_witness :
  autoCompleteTime "930" = Some "09:30"
  /\ autoCompleteTime "09:30" = Some "09:30".
Proof.
  assert (H : autoCompleteTime "930" = Some "09:30") by reflexivity.
  split; [exact H |].
  destruct (autoCompleteTime_idempotent "930" "09:30") as [_ H0].
  exact (H0 H).
Defined.

(** X7.  The shorthands [autoCompleteTime] completes, for every hour [h]
    from 0 to 23 and minute [m] from 0 to 59: the hour alone, padded or not,
    becomes [HH:00]; hour and minute as three or four digits, or with an
    unpadded hour before the colon, become [HH:MM]; and [H:M] with one
    digit after the colon takes that digit as the tens of the minutes. *)
Theorem autoCompleteTime_shorthands (h m : Z) :
  (0 <= h < 24)%Z -> (0 <= m < 60)%Z ->
  autoCompleteTime (intToString h) = Some (timeString h 0)
  /\ autoCompleteTime (padStart0 2 (intToString h)) = Some (timeString h 0)
  /\ autoCompleteTime (intToString h ++ padStart0 2 (intToString m))
     = Some (timeString h m)
  /\ autoCompleteTime (padStart0 2 (intToString h)
                       ++ padStart0 2 (intToString m))
     = Some (timeString h m)
  /\ autoCompleteTime (intToString h ++ ":" ++ padStart0 2 (intToString m))
     = Some (timeString h m)
  /\ autoCompleteTime (intToString h ++ ":" ++ intToString (m / 10))
     = Some (timeString h (10 * (m / 10))).
Proof.
  intros Hh Hm. pose proof (completesShorthands_at h m Hh Hm) as H.
  unfold completesShorthands in H. repeat rewrite andb_true_iff in H.
  destruct H as [[[[[[H1 H2] H3] H4] H5] H6] H7].
  repeat split; apply optionStringEqb_eq; assumption.
Qed.

Lemma autoCompleteTime_shorthands_witness :
  ((0 <= 9 < 24)%Z /\ (0 <= 30 < 60)%Z)
  /\ autoCompleteTime (intToString 9 ++ padStart0 2 (intToString 30))
     = Some (timeString 9 30).
Proof.
  assert (H1 : (0 <= 9 < 24)%Z) by lia.
  assert (H2 : (0 <= 30 < 60)%Z) by lia.
  split; [split; assumption |].
  destruct (autoCompleteTime_shorthands 9 30 H1 H2) as [_ [_ [H _]]].
  exact H.
Defined.

(** ** Daily warnings *)

(** X8.  The warnings of a day, by its hours worked: none under 6 hours;
    from 6 to 10 hours the mandatory-break warning when the break read from
    the entry is under 20 minutes; above 10 hours the maximum-duration
    error, followed by the break warning under the same condition.  Hours
    that are [NaN] raise no warning. *)
Theorem getDailyWarnings_cases (entry : DayEntry) (w : Q) :
  let err :=
    mkWarning "error" "Dépassement durée maximale quotidienne (10h)" in
  let brk :=
    mkWarning "warning" "Pause obligatoire de 20 min après 6h de travail" in
  let short := (breakMinutes entry <? Num 20)%js in
  (w < 6 -> getDailyWarnings entry (Num w) = [])
  /\ (6 <= w -> w <= 10 ->
      getDailyWarnings entry (Num w) = if short then [brk] else [])
  /\ (10 < w ->
      getDailyWarnings entry (Num w) = if short then [err; brk] else [err])
  /\ getDailyWarnings entry NaN = [].
Proof.
  intros err brk short. subst err brk.
  unfold getDailyWarnings. fold (breakMinutes entry).
  unfold CONFIG.dailyMaxHours, CONFIG.mandatoryBreakAfterMinutes,
    CONFIG.mandatoryBreakMinutes.
  change (ofZ 20) with (Num 20). fold short.
  rewrite minutesToHours_ofZ.
  change (inject_Z ((10 * 360 + 3) / 6) / 100) with (600 # 100).
  clearbody short.
  unfold ge, gt, le, lt, ofZ.
  change (inject_Z 10) with 10.
  split; [| split; [| split]].
  - intro H. destruct (Qlt_le_dec 10 w); [lra |].
    destruct (Qlt_le_dec w (600 # 100)); [reflexivity | lra].
  - intros H1 H2. destruct (Qlt_le_dec 10 w); [lra |].
    destruct (Qlt_le_dec w (600 # 100)); [lra |].
    destruct short; reflexivity.
  - intro H. destruct (Qlt_le_dec 10 w); [| lra].
    destruct (Qlt_le_dec w (600 # 100)); [lra |].
    destruct short; reflexivity.
  - reflexivity.
Qed.

Lemma getDailyWarnings_cases_witness :
  10 < 11
  /\ getDailyWarnings (mkDayEntry "2024-05-06" "08:00" "19:10" (Num 10))
       (Num 11)
     = [ mkWarning "error" "Dépassement durée maximale quotidienne (10h)";
         mkWarning "warning"
           "Pause obligatoire de 20 min après 6h de travail" ].
Proof.
  assert (H : 10 < 11) by reflexivity.
  split; [exact H |].
  destruct (getDailyWarnings_cases
              (mkDayEntry "2024-05-06" "08:00" "19:10" (Num 10)) 11)
    as [_ [_ [H0 _]]].
  exact (H0 H).
Defined.

(** ** Salary, rate and pay *)

Lemma weekLoop_no_pay (sundayMap holidayMap m : WeekMap) (cb : number)
  (st : list WeeklyResult.t * number) :
  Forall (fun w => WeeklyResult.pay w = None) (fst st) ->
  Forall (fun w => WeeklyResult.pay w = None)
    (fst (fold_left (weekStep sundayMap holidayMap (Num 0) cb) m st)).
Proof.
  revert st. induction m as [| [k v] m IH]; intros [results cum] H; simpl.
  - exact H.
  - apply IH. cbn [fst] in *. apply Forall_app. split; [exact H |].
    constructor; [| constructor]. reflexivity.
Qed.

(** X9.  Without a salary there is no pay anywhere: for a salary that is
    absent ([NaN]), zero or negative, [calculateHourlyRate] is 0, and
    [processEntries] run with that rate reports no pay for any week and no
    total pay, whatever the entries. *)
Theorem no_salary_no_pay
  (entries : list DayEntry) (salary cb : number) :
  salary = NaN \/ (exists q, salary = Num q /\ q <= 0) ->
  calculateHourlyRate salary cb = Num 0
  /\ (let r := processEntries entries (calculateHourlyRate salary cb) cb in
      PeriodResult.totalPay r = None
      /\ Forall (fun w => WeeklyResult.pay w = None)
           (PeriodResult.weeklyResults r)).
Proof.
  intro H.
  assert (E : calculateHourlyRate salary cb = Num 0).
  { destruct H as [-> | [q [-> Hq]]]; [reflexivity |].
    unfold calculateHourlyRate, truthy, le.
    destruct (Qeq_dec q 0); [reflexivity |].
    destruct (Qlt_le_dec 0 q); [lra | reflexivity]. }
  split; [exact E |]. rewrite E. unfold processEntries.
  match goal with
  | |- context [fold_left dayStep entries ?i] =>
      set (st := fold_left dayStep entries i)
  end.
  pose proof (weekLoop_no_pay (weeklySundayMap st) (weeklyHolidayMap st)
                (weeklyHoursMap st) cb ([], Num 0) (Forall_nil _)) as Hw.
  destruct (fold_left _ (weeklyHoursMap st) ([], Num 0)) as [results cum].
  cbn [fst] in Hw. cbv zeta.
  cbn [PeriodResult.totalPay PeriodResult.weeklyResults].
  split; [reflexivity | exact Hw].
Qed.

Lemma no_salary_no_pay_witness :
  (Num 0 = NaN \/ (exists q, Num 0 = Num q /\ q <= 0))
  /\ PeriodResult.totalPay
       (processEntries sampleEntries (calculateHourlyRate (Num 0) (Num 35))
          (Num 35)) = None.
Proof.
  assert (H : Num 0 = NaN \/ (exists q, Num 0 = Num q /\ q <= 0)).
  { right. exists 0. split; [reflexivity | apply Qle_refl]. }
  split; [exact H |].
  destruct (no_salary_no_pay sampleEntries (Num 0) (Num 35) H) as [_ [H0 _]].
  exact H0.
Defined.

Lemma strictEq_true_iff_num (a : number) (q : Q) :
  (a === Num q)%js = true -> a =n= Num q.
Proof.
  destruct a; simpl; try discriminate.
  destruct (Qeq_dec q0 q); [auto | discriminate].
Qed.

Lemma monthlyHoursOf_pos (cb : number) : 0 < monthlyHoursOf cb.
Proof.
  unfold monthlyHoursOf.
  destruct (cb === Num 24)%js; [reflexivity |].
  destruct (cb === Num 32)%js; [reflexivity |].
  destruct (cb === Num 39)%js; reflexivity.
Qed.

(** X10.  For a positive salary the hourly rate is the salary divided by
    the monthly hours of the contract base (104 for 24h, 138.67 for 32h,
    151.67 for 35h and for any other base, 169 for 39h), rounded to four
    decimals: it is non-negative and within half a ten-thousandth of the
    exact quotient. *)
Theorem calculateHourlyRate_accuracy (g : Q) (cb : number) :
  0 < g ->
  exists r : Q,
    calculateHourlyRate (Num g) cb = Num r
    /\ 0 <= r
    /\ r - g / monthlyHoursOf cb <= 1 # 20000
    /\ g / monthlyHoursOf cb - r <= 1 # 20000.
Proof.
  intro Hg.
  assert (E : calculateHourlyRate (Num g) cb
              = round4 (Num (g / monthlyHoursOf cb))).
  { unfold calculateHourlyRate, CONFIG.contractBases, monthlyHoursOf.
    assert (Hgate : negb (truthy (Num g)) || (Num g <=? Num 0)%js = false).
    { unfold truthy, le. num_cases; try lra; reflexivity. }
    rewrite Hgate.
    destruct (cb === Num 24)%js; [reflexivity |].
    destruct (cb === Num 32)%js; [reflexivity |].
    destruct (cb === Num 35)%js eqn:E35.
    - apply strictEq_true_iff_num in E35.
      destruct (cb === Num 39)%js eqn:E39; [| reflexivity].
      apply strictEq_true_iff_num in E39.
      destruct cb; simpl in E35, E39; try contradiction.
      rewrite E35 in E39. discriminate E39.
    - destruct (cb === Num 39)%js; reflexivity. }
  rewrite E, round4_Num.
  set (x := g / monthlyHoursOf cb).
  assert (Hx : 0 <= x).
  { unfold x. apply Qle_shift_div_l; [apply monthlyHoursOf_pos | lra]. }
  pose proof (Qfloor_le (x * 10000 + (1 # 2))) as Hlo.
  pose proof (Qlt_floor (x * 10000 + (1 # 2))) as Hhi.
  rewrite inject_Z_plus in Hhi. change (inject_Z 1) with 1 in Hhi.
  assert (Hz : (0 <= Qfloor (x * 10000 + (1 # 2)))%Z).
  { change 0%Z with (Qfloor 0). apply Qfloor_resp_le. lra. }
  rewrite Zle_Qle in Hz. change (inject_Z 0) with 0 in Hz.
  set (f := inject_Z (Qfloor (x * 10000 + (1 # 2)))) in *.
  exists (f / 10000). split; [reflexivity |].
  assert (Hf : f / 10000 == f * (1 # 10000)) by (field).
  rewrite Hf. repeat split; lra.
Qed.

Lemma calculateHourlyRate_accuracy_witness :
  0 < 2000
  /\ exists r : Q,
       calculateHourlyRate (Num 2000) (Num 39) = Num r
       /\ 0 <= r
       /\ r - 2000 / monthlyHoursOf (Num 39) <= 1 # 20000
       /\ 2000 / monthlyHoursOf (Num 39) - r <= 1 # 20000.
Proof.
  assert (H : 0 < 2000) by reflexivity.
  split; [exact H | exact (calculateHourlyRate_accuracy 2000 (Num 39) H)].
Defined.

(** ** Overtime brackets *)

(** Rounding to two decimals leaves a number of hundredths as it is. *)
Lemma round2_hundredths (q : Q) (k : Z) :
  q == inject_Z k / 100 -> round2 (Num q) =n= Num q.
Proof.
  intro H. rewrite round2_Num. cbn [num_eq].
  assert (Hf : Qfloor (q * 100 + (1 # 2)) = k).
  { rewrite (Qfloor_frac _ (2 * k + 1) 2).
    - Z.div_mod_to_equations. lia.
    - rewrite H, inject_Z_plus, inject_Z_mult.
      change (inject_Z 2) with 2. change (inject_Z 1) with 1.
      change (inject_Z (Zpos 2)) with 2. field. }
  rewrite Hf, H. reflexivity.
Qed.

Lemma round2_nearestHundredth (x : Q) :
  round2 (Num x) = Num (nearestHundredth x).
Proof. apply round2_Num. Qed.

(** X11.  For weekly hours between 0 and 10000 and under either regime, the
    hours recorded in the brackets add up to the total overtime to within a
    hundredth of an hour: the brackets record rounded hours, the total
    overtime is not rounded. *)
Theorem bracket_hours_sum (w : Q) (cb : number) :
  0 <= w /\ w <= 10000 ->
  let o := calculateOvertime (Num w) cb in
  exists s t : Q,
    sumNumbers (map hours (brackets o)) = Num s
    /\ totalOvertime o = Num t
    /\ s - t <= 1 # 100 /\ t - s <= 1 # 100.
Proof.
  intros _ o. subst o.
  assert (H8 : nearestHundredth 8 == 8) by reflexivity.
  assert (H4 : nearestHundredth 4 == 4) by reflexivity.
  destruct (cb === Num 39)%js eqn:Hcb.
  - rewrite (calculateOvertime_39_eq w cb Hcb).
    destruct (Qlt_le_dec 39 w); cbn [brackets totalOvertime];
      [| exists 0, 0; repeat split; lra].
    rewrite fillBrackets_39.
    destruct (Qlt_le_dec 0 (w - 39)); [| lra].
    destruct (Qlt_le_dec 4 (w - 39)); unfold recorded, sumNumbers;
      cbn [map hours fold_left]; rewrite !round2_nearestHundredth;
      cbn [add]; eexists; eexists; (split; [reflexivity |]);
      (split; [reflexivity |]).
    + pose proof (nearestHundredth_near (w - 39 - 4)). lra.
    + pose proof (nearestHundredth_near (w - 39)). lra.
  - rewrite (calculateOvertime_35_eq w cb Hcb).
    destruct (Qlt_le_dec 35 w); cbn [brackets totalOvertime];
      [| exists 0, 0; repeat split; lra].
    rewrite fillBrackets_35.
    destruct (Qlt_le_dec 0 (w - 35)); [| lra].
    destruct (Qlt_le_dec 8 (w - 35)); unfold recorded, sumNumbers;
      cbn [map hours fold_left]; rewrite !round2_nearestHundredth;
      cbn [add]; eexists; eexists; (split; [reflexivity |]);
      (split; [reflexivity |]).
    + pose proof (nearestHundredth_near (w - 35 - 8)). lra.
    + pose proof (nearestHundredth_near (w - 35)). lra.
Qed.

Lemma bracket_hours_sum_witness :
  (0 <= 44.3 /\ 44.3 <= 10000)
  /\ exists s t : Q,
       sumNumbers (map hours (brackets (calculateOvertime (Num 44.3) (Num 35))))
       = Num s
       /\ totalOvertime (calculateOvertime (Num 44.3) (Num 35)) = Num t
       /\ s - t <= 1 # 100 /\ t - s <= 1 # 100.
Proof.
  assert (H : 0 <= 44.3 /\ 44.3 <= 10000) by (split; unfold Qle; simpl; lia).
  split; [exact H |]. exact (bracket_hours_sum 44.3 (Num 35) H).
Defined.

(** ** The results of a period, day by day *)

Lemma dayStep_dailyResults (st : DayLoop) (e : DayEntry) :
  exists d : DailyResult.t,
    l_dailyResults (dayStep st e) = (l_dailyResults st ++ [d])%list
    /\ DailyResult.date d = date e /\ DailyResult.start d = start e
    /\ DailyResult.end_ d = end_ e
    /\ DailyResult.hoursWorked d = calculateDailyHours e
    /\ DailyResult.nightHours d = calculateNightHours e
    /\ DailyResult.warnings d = getDailyWarnings e (calculateDailyHours e).
Proof.
  unfold dayStep. cbn [l_dailyResults]. eexists.
  split; [reflexivity |]. repeat split.
Qed.

Lemma dayLoop_dailyResults (entries : list DayEntry) (st : DayLoop) :
  map DailyResult.date (l_dailyResults (fold_left dayStep entries st))
  = (map DailyResult.date (l_dailyResults st) ++ map date entries)%list
  /\ map DailyResult.start (l_dailyResults (fold_left dayStep entries st))
     = (map DailyResult.start (l_dailyResults st) ++ map start entries)%list
  /\ map DailyResult.end_ (l_dailyResults (fold_left dayStep entries st))
     = (map DailyResult.end_ (l_dailyResults st) ++ map end_ entries)%list
  /\ map DailyResult.hoursWorked
       (l_dailyResults (fold_left dayStep entries st))
     = (map DailyResult.hoursWorked (l_dailyResults st)
        ++ map calculateDailyHours entries)%list
  /\ map DailyResult.nightHours
       (l_dailyResults (fold_left dayStep entries st))
     = (map DailyResult.nightHours (l_dailyResults st)
        ++ map calculateNightHours entries)%list
  /\ map DailyResult.warnings
       (l_dailyResults (fold_left dayStep entries st))
     = (map DailyResult.warnings (l_dailyResults st)
        ++ map (fun e => getDailyWarnings e (calculateDailyHours e))
             entries)%list.
Proof.
  revert st. induction entries as [| e es IH]; intro st.
  - cbn [fold_left map]. rewrite !app_nil_r. repeat split.
  - cbn [fold_left].
    destruct (IH (dayStep st e)) as [H1 [H2 [H3 [H4 [H5 H6]]]]].
    destruct (dayStep_dailyResults st e)
      as [d [Hd [E1 [E2 [E3 [E4 [E5 E6]]]]]]].
    rewrite H1, H2, H3, H4, H5, H6, Hd, !map_app. cbn [map].
    rewrite E1, E2, E3, E4, E5, E6, <- !app_assoc. repeat split.
Qed.

(** X12.  [processEntries] returns one daily result per entry, in the order
    of the entries: the i-th daily result carries the date, start and end of
    the i-th entry, its [calculateDailyHours], its [calculateNightHours] and
    the warnings of [getDailyWarnings] for those hours; no entry influences
    the daily result of another. *)
Theorem processEntries_dailyResults
  (entries : list DayEntry) (hourlyRate cb : number) :
  let ds := PeriodResult.dailyResults (processEntries entries hourlyRate cb) in
  map DailyResult.date ds = map date entries
  /\ map DailyResult.start ds = map start entries
  /\ map DailyResult.end_ ds = map end_ entries
  /\ map DailyResult.hoursWorked ds = map calculateDailyHours entries
  /\ map DailyResult.nightHours ds = map calculateNightHours entries
  /\ map DailyResult.warnings ds
     = map (fun e => getDailyWarnings e (calculateDailyHours e)) entries.
Proof.
  intro ds. subst ds. unfold processEntries.
  match goal with
  | |- context [fold_left dayStep entries ?i] =>
      pose proof (dayLoop_dailyResults entries i) as H;
      set (st := fold_left dayStep entries i) in *
  end.
  destruct (fold_left _ (weeklyHoursMap st) ([], Num 0)) as [results cum].
  cbn [PeriodResult.dailyResults]. exact H.
Qed.

Lemma dayLoop_totals (entries : list DayEntry) (st : DayLoop) :
  l_totalHours (fold_left dayStep entries st)
  = fold_left add (map calculateDailyHours entries) (l_totalHours st)
  /\ l_totalNightHours (fold_left dayStep entries st)
     = fold_left add (map calculateNightHours entries) (l_totalNightHours st)
  /\ l_totalSundayHours (fold_left dayStep entries st)
     = fold_left add
         (map calculateDailyHours (filter countsAsSunday entries))
         (l_totalSundayHours st)
  /\ l_totalHolidayHours (fold_left dayStep entries st)
     = fold_left add
         (map calculateDailyHours (filter countsAsHoliday entries))
         (l_totalHolidayHours st).
Proof.
  revert st. induction entries as [| e es IH]; intro st.
  - repeat split.
  - cbn [fold_left map filter].
    destruct (IH (dayStep st e)) as [H1 [H2 [H3 H4]]].
    rewrite H1, H2, H3, H4. unfold dayStep at 1 2 3 4.
    cbn [l_totalHours l_totalNightHours l_totalSundayHours
         l_totalHolidayHours].
    fold (countsAsSunday e). fold (countsAsHoliday e).
    destruct (countsAsSunday e); destruct (countsAsHoliday e);
      repeat split.
Qed.

(** X13.  The totals of a period are the sums of the daily values in the
    order of the entries, rounded once to two decimals: all the daily hours
    for [totalHours], all the night hours for [totalNightHours], and the
    hours of the days that fall on a Sunday (on a public holiday) and have
    hours above zero for [totalSundayHours] ([totalHolidayHours]). *)
Theorem processEntries_totals
  (entries : list DayEntry) (hourlyRate cb : number) :
  let r := processEntries entries hourlyRate cb in
  PeriodResult.totalHours r
  = round2 (sumNumbers (map calculateDailyHours entries))
  /\ PeriodResult.totalNightHours r
     = round2 (sumNumbers (map calculateNightHours entries))
  /\ PeriodResult.totalSundayHours r
     = round2 (sumNumbers
                 (map calculateDailyHours (filter countsAsSunday entries)))
  /\ PeriodResult.totalHolidayHours r
     = round2 (sumNumbers
                 (map calculateDailyHours (filter countsAsHoliday entries))).
Proof.
  intro r. subst r. unfold processEntries.
  match goal with
  | |- context [fold_left dayStep entries ?i] =>
      pose proof (dayLoop_totals entries i) as H;
      set (st := fold_left dayStep entries i) in *
  end.
  destruct (fold_left _ (weeklyHoursMap st) ([], Num 0)) as [results cum].
  cbn [PeriodResult.totalHours PeriodResult.totalNightHours
       PeriodResult.totalSundayHours PeriodResult.totalHolidayHours].
  destruct H as [H1 [H2 [H3 H4]]]. rewrite H1, H2, H3, H4.
  repeat split.
Qed.

(** ** The weeks of a period *)

Lemma keys_mapSet (m : WeekMap) (k : string) (v : number) :
  keys (mapSet m k v) = addKey (keys m) k.
Proof.
  unfold addKey, keys. induction m as [| [k' v'] m IH]; simpl.
  - reflexivity.
  - rewrite (String.eqb_sym k k'). destruct (String.eqb k' k); simpl.
    + reflexivity.
    + rewrite IH. destruct (existsb (String.eqb k) (map fst m)); reflexivity.
Qed.

Lemma mapGet_keys (m : WeekMap) (k : string) :
  existsb (String.eqb k) (keys m) = isSome (mapGet m k).
Proof.
  unfold keys. induction m as [| [k' v'] m IH]; simpl.
  - reflexivity.
  - rewrite (String.eqb_sym k k'). destruct (String.eqb k' k); simpl.
    + reflexivity.
    + exact IH.
Qed.

Lemma keys_mapInit (m : WeekMap) (k : string) :
  keys (mapInit m k) = addKey (keys m) k.
Proof.
  unfold mapInit.
  destruct (mapGet m k) as [v |] eqn:Hg; [destruct (truthy v) |];
    try apply keys_mapSet.
  unfold addKey. rewrite mapGet_keys, Hg. reflexivity.
Qed.

Lemma addKey_present (acc : list string) (k : string) :
  existsb (String.eqb k) (addKey acc k) = true.
Proof.
  unfold addKey. destruct (existsb (String.eqb k) acc) eqn:E.
  - exact E.
  - rewrite existsb_app. simpl. rewrite String.eqb_refl.
    rewrite orb_true_r. reflexivity.
Qed.

Lemma addKey_idem (acc : list string) (k : string) :
  addKey (addKey acc k) k = addKey acc k.
Proof.
  unfold addKey at 1. rewrite addKey_present. reflexivity.
Qed.

Lemma keys_mapAdd_mapInit (m : WeekMap) (k : string) (x : number) :
  keys (mapAdd (mapInit m k) k x) = addKey (keys m) k.
Proof.
  unfold mapAdd. rewrite keys_mapSet, keys_mapInit. apply addKey_idem.
Qed.

Lemma dayLoop_keys (entries : list DayEntry) (st : DayLoop) :
  keys (weeklyHoursMap (fold_left dayStep entries st))
  = fold_left addKey (map weekKeyOf entries) (keys (weeklyHoursMap st)).
Proof.
  revert st. induction entries as [| e es IH]; intro st.
  - reflexivity.
  - cbn [fold_left map]. rewrite IH. f_equal.
    unfold dayStep. cbn [weeklyHoursMap]. apply keys_mapAdd_mapInit.
Qed.

Lemma weekLoop_weeks (sundayMap holidayMap m : WeekMap)
  (hourlyRate cb : number) (st : list WeeklyResult.t * number) :
  map WeeklyResult.week
    (fst (fold_left (weekStep sundayMap holidayMap hourlyRate cb) m st))
  = (map WeeklyResult.week (fst st) ++ keys m)%list.
Proof.
  revert st. induction m as [| [k v] m IH]; intros [results cum].
  - cbn. rewrite app_nil_r. reflexivity.
  - cbn [fold_left]. rewrite IH. unfold weekStep. cbn [fst].
    rewrite map_app. cbn [map WeeklyResult.week keys fst].
    rewrite <- app_assoc. reflexivity.
Qed.

Lemma addKey_NoDup (acc : list string) (k : string) :
  NoDup acc -> NoDup (addKey acc k).
Proof.
  intro H. unfold addKey. destruct (existsb (String.eqb k) acc) eqn:E.
  - exact H.
  - apply NoDup_app; [exact H | constructor; [intros [] | constructor] |].
    intros x Hx [Hk | []]. subst x.
    assert (existsb (String.eqb k) acc = true); [| congruence].
    apply existsb_exists. exists k. split; [exact Hx | apply String.eqb_refl].
Qed.

Lemma fold_addKey_NoDup (l acc : list string) :
  NoDup acc -> NoDup (fold_left addKey l acc).
Proof.
  revert acc. induction l as [| k l IH]; intros acc H; simpl.
  - exact H.
  - apply IH. apply addKey_NoDup. exact H.
Qed.

(** X14.  [processEntries] returns one weekly result per distinct week key
    among the entries, in the order in which the keys first occur: no week
    appears twice, and the order of the weeks follows the order of the
    entries, not the calendar. *)
Theorem processEntries_weeks
  (entries : list DayEntry) (hourlyRate cb : number) :
  let weeks :=
    map WeeklyResult.week
      (PeriodResult.weeklyResults (processEntries entries hourlyRate cb)) in
  weeks = firstOccurrences (map weekKeyOf entries)
  /\ NoDup weeks
  /\ (forall k, In k weeks <-> In k (map weekKeyOf entries)).
Proof.
  intro weeks.
  assert (E : weeks = firstOccurrences (map weekKeyOf entries)).
  { subst weeks. unfold processEntries.
    match goal with
    | |- context [fold_left dayStep entries ?i] =>
        pose proof (dayLoop_keys entries i) as Hk;
        set (st := fold_left dayStep entries i) in *
    end.
    pose proof (weekLoop_weeks (weeklySundayMap st) (weeklyHolidayMap st)
                  (weeklyHoursMap st) hourlyRate cb ([], Num 0)) as Hw.
    destruct (fold_left _ (weeklyHoursMap st) ([], Num 0)) as [results cum].
    cbn [PeriodResult.weeklyResults]. cbn [fst map app] in Hw.
    rewrite Hw, Hk. reflexivity. }
  split; [exact E |]. rewrite E. split.
  - apply fold_addKey_NoDup. constructor.
  - intro k. unfold firstOccurrences.
    assert (G : forall l acc,
               In k (fold_left addKey l acc) <-> In k acc \/ In k l).
    { induction l as [| x l IH]; intro acc; simpl.
      - tauto.
      - rewrite IH. unfold addKey.
        destruct (existsb (String.eqb x) acc) eqn:Ex.
        + apply existsb_exists in Ex as [y [Hy Exy]].
          apply String.eqb_eq in Exy. subst y.
          split; [tauto |]. intros [H | [H | H]]; auto. subst. auto.
        + rewrite in_app_iff. simpl. tauto. }
    rewrite G. simpl. tauto.
Qed.

(** ** Weekly hours add up to the period *)

Lemma hundredths_Num (a : number) :
  hundredths a -> exists q, a = Num q /\ exists k : Z, q == inject_Z k / 100.
Proof.
  intros [k H]. destruct a; try contradiction.
  exists q. split; [reflexivity | exists k; exact H].
Qed.

Lemma hundredths_add (a b : number) :
  hundredths a -> hundredths b -> hundredths (a + b)%js.
Proof.
  intros Ha Hb.
  destruct (hundredths_Num a Ha) as [x [-> [i Hi]]].
  destruct (hundredths_Num b Hb) as [y [-> [j Hj]]].
  exists (i + j)%Z. cbn. rewrite Hi, Hj, inject_Z_plus. field.
Qed.

Lemma hundredths_0 : hundredths (Num 0).
Proof. exists 0%Z. reflexivity. Qed.

Lemma round2_of_hundredths (a : number) :
  hundredths a -> round2 a =n= a.
Proof.
  intro H. destruct (hundredths_Num a H) as [q [-> [k Hk]]].
  exact (round2_hundredths q k Hk).
Qed.

Lemma calculateDailyHours_hundredths (entry : DayEntry) :
  isFinite (timeToMinutes (start entry)) = true ->
  isFinite (timeToMinutes (end_ entry)) = true ->
  hundredths (calculateDailyHours entry).
Proof.
  intros Hs He. unfold calculateDailyHours.
  destruct (String.eqb (start entry) "" || String.eqb (end_ entry) "");
    [apply hundredths_0 |].
  destruct (isFinite_Num _ Hs) as [a Ha].
  destruct (isFinite_Num _ He) as [b Hb].
  fold (breakMinutes entry).
  destruct (breakMinutes_finite entry) as [c Hc].
  rewrite Ha, Hb, Hc. cbv zeta.
  destruct (Num b <=? Num a)%js; cbn [add sub neg];
    rewrite minutesToHours_Num; unfold Math.max, lt;
    match goal with
    | |- context [Qlt_le_dec ?x ?y] => destruct (Qlt_le_dec x y)
    end;
    try apply hundredths_0; eexists; cbn [num_eq]; reflexivity.
Qed.

Lemma hundredthsMap_finite (m : WeekMap) :
  hundredthsMap m -> finiteMap m = true.
Proof.
  induction 1 as [| [k v] m Hv Hm IH]; simpl; [reflexivity |].
  destruct (hundredths_Num v Hv) as [q [-> _]]. exact IH.
Qed.

Lemma hundredthsMap_mapSet (m : WeekMap) (k : string) (v : number) :
  hundredthsMap m -> hundredths v -> hundredthsMap (mapSet m k v).
Proof.
  intros Hm Hv. induction Hm as [| [k' v'] m Hv' Hm IH]; simpl.
  - constructor; [exact Hv | constructor].
  - destruct (String.eqb k' k); constructor; assumption.
Qed.

Lemma mapTotal_mapSet (m : WeekMap) (k : string) (v : number) :
  mapTotal (mapSet m k v)
  == mapTotal m - qval (toNumber (mapGet m k)) + qval v.
Proof.
  induction m as [| [k' v'] m IH]; simpl.
  - ring.
  - destruct (String.eqb k' k); simpl.
    + ring.
    + rewrite IH. ring.
Qed.

Lemma hundredthsMap_mapGet (m : WeekMap) (k : string) (v : number) :
  hundredthsMap m -> mapGet m k = Some v -> hundredths v.
Proof.
  intros Hm Hg. induction Hm as [| [k' v'] m Hv' Hm IH]; simpl in Hg.
  - discriminate Hg.
  - destruct (String.eqb k' k).
    + injection Hg as <-. exact Hv'.
    + exact (IH Hg).
Qed.

Lemma mapInit_total (m : WeekMap) (k : string) :
  hundredthsMap m ->
  hundredthsMap (mapInit m k) /\ mapTotal (mapInit m k) == mapTotal m.
Proof.
  intro Hm. unfold mapInit.
  destruct (mapGet m k) as [v |] eqn:Hg.
  - destruct (hundredths_Num v (hundredthsMap_mapGet m k v Hm Hg))
      as [q [-> _]].
    unfold truthy. destruct (Qeq_dec q 0) as [E | E].
    + split; [apply hundredthsMap_mapSet; [exact Hm | apply hundredths_0] |].
      rewrite mapTotal_mapSet, Hg. simpl. lra.
    + split; [exact Hm | reflexivity].
  - split; [apply hundredthsMap_mapSet; [exact Hm | apply hundredths_0] |].
    rewrite mapTotal_mapSet, Hg. simpl. lra.
Qed.

Lemma mapAdd_total (m : WeekMap) (k : string) (x : number) :
  hundredthsMap m -> hundredths x ->
  hundredthsMap (mapAdd (mapInit m k) k x)
  /\ mapTotal (mapAdd (mapInit m k) k x) == mapTotal m + qval x.
Proof.
  intros Hm Hx. destruct (mapInit_total m k Hm) as [Hi Ht].
  destruct (mapGet_mapInit m k (hundredthsMap_finite m Hm)) as [q Hq].
  destruct (hundredths_Num x Hx) as [y [-> Hy]].
  unfold mapAdd. rewrite Hq. cbn [toNumber add]. split.
  - apply hundredthsMap_mapSet; [exact Hi |].
    apply (hundredths_add (Num q) (Num y));
      [exact (hundredthsMap_mapGet _ _ _ Hi Hq) | exact Hx].
  - rewrite mapTotal_mapSet, Hq, Ht. simpl. ring.
Qed.

Lemma dayStep_balanced (st : DayLoop) (entry : DayEntry) :
  hoursBalanced st -> wellFormedEntry entry ->
  hoursBalanced (dayStep st entry).
Proof.
  intros [Hm Ht] Hwf. destruct (entry_times_finite entry Hwf) as [Hs He].
  pose proof (calculateDailyHours_hundredths entry Hs He) as Hh.
  destruct (mapAdd_total (weeklyHoursMap st)
              (getISOWeek (parseDate (date entry)))
              (calculateDailyHours entry) Hm Hh) as [Hm' Ht'].
  unfold hoursBalanced, dayStep. cbn [weeklyHoursMap l_totalHours].
  split; [exact Hm' |].
  destruct (hundredths_Num _ Hh) as [y [Ey _]]. rewrite Ey in *.
  destruct (l_totalHours st); try contradiction.
  cbn in *. rewrite Ht', Ht. reflexivity.
Qed.

Lemma dayLoop_balanced (entries : list DayEntry) (st : DayLoop) :
  Forall wellFormedEntry entries -> hoursBalanced st ->
  hoursBalanced (fold_left dayStep entries st).
Proof.
  intro H. revert st. induction H as [| e es He Hes IH]; intros st Hst.
  - exact Hst.
  - simpl. apply IH. apply dayStep_balanced; assumption.
Qed.

Lemma weekLoop_totalHours (sundayMap holidayMap m : WeekMap)
  (hourlyRate cb : number) (st : list WeeklyResult.t * number) :
  map WeeklyResult.totalHours
    (fst (fold_left (weekStep sundayMap holidayMap hourlyRate cb) m st))
  = (map WeeklyResult.totalHours (fst st)
     ++ map (fun kv => round2 (snd kv)) m)%list.
Proof.
  revert st. induction m as [| [k v] m IH]; intros [results cum].
  - cbn. rewrite app_nil_r. reflexivity.
  - cbn [fold_left]. rewrite IH. unfold weekStep. cbn [fst].
    rewrite map_app. cbn [map WeeklyResult.totalHours snd].
    rewrite <- app_assoc. reflexivity.
Qed.

Lemma sum_rounded_values (m : WeekMap) (acc : Q) :
  hundredthsMap m ->
  fold_left add (map (fun kv => round2 (snd kv)) m) (Num acc)
  =n= Num (acc + mapTotal m).
Proof.
  intro Hm. revert acc. induction Hm as [| [k v] m Hv Hm IH]; intro acc.
  - cbn. ring.
  - cbn [map fold_left snd mapTotal fold_right].
    pose proof (round2_of_hundredths v Hv) as Hr.
    destruct (hundredths_Num v Hv) as [q [-> _]].
    destruct (round2 (Num q)) as [q' | | |]; try contradiction.
    cbn [add]. eapply num_eq_trans; [apply IH |].
    cbn in *. fold (mapTotal m). rewrite Hr. ring.
Qed.

Lemma mapTotal_hundredths (m : WeekMap) :
  hundredthsMap m -> exists k : Z, mapTotal m == inject_Z k / 100.
Proof.
  intro Hm. induction Hm as [| [k v] m Hv Hm IH].
  - exists 0%Z. reflexivity.
  - destruct IH as [j Hj].
    destruct (hundredths_Num v Hv) as [q [-> [i Hi]]].
    exists (i + j)%Z. cbn. fold (mapTotal m).
    rewrite Hi, Hj, inject_Z_plus. field.
Qed.

(** In the exact arithmetic of the embedding the weekly hours add up to the
    hours of the period, a whole number of hundredths. *)
Lemma weekly_hours_exact
  (entries : list DayEntry) (hourlyRate cb : number) :
  Forall wellFormedEntry entries ->
  let r := processEntries entries hourlyRate cb in
  sumNumbers (map WeeklyResult.totalHours (PeriodResult.weeklyResults r))
  =n= PeriodResult.totalHours r
  /\ hundredths (PeriodResult.totalHours r).
Proof.
  intros Hwf r. subst r. unfold processEntries.
  match goal with
  | |- context [fold_left dayStep entries ?i] =>
      assert (Hb : hoursBalanced (fold_left dayStep entries i))
        by (apply dayLoop_balanced;
            [exact Hwf | split; [constructor | reflexivity]]);
      set (st := fold_left dayStep entries i) in *
  end.
  destruct Hb as [Hm Ht].
  pose proof (weekLoop_totalHours (weeklySundayMap st) (weeklyHolidayMap st)
                (weeklyHoursMap st) hourlyRate cb ([], Num 0)) as Hw.
  destruct (fold_left _ (weeklyHoursMap st) ([], Num 0)) as [results cum].
  cbn [fst map app] in Hw.
  cbn [PeriodResult.weeklyResults PeriodResult.totalHours].
  assert (Hh : hundredths (l_totalHours st)).
  { destruct (l_totalHours st) as [t | | |]; try contradiction.
    clear - Hm Ht. cbn in Ht.
    destruct (mapTotal_hundredths _ Hm) as [k Hk].
    exists k. cbn. rewrite Ht. exact Hk. }
  pose proof (round2_of_hundredths _ Hh) as Hr.
  split.
  - rewrite Hw. unfold sumNumbers.
    eapply num_eq_trans; [apply (sum_rounded_values _ 0 Hm) |].
    apply num_eq_sym. eapply num_eq_trans; [exact Hr |].
    destruct (l_totalHours st) as [t | | |]; try contradiction.
    cbn in *. rewrite Ht. ring.
  - destruct Hh as [k Hk]. exists k.
    eapply num_eq_trans; [exact Hr | exact Hk].
Qed.

(** X15.  Conservation of hours between the weeks and the period: for at
    most 10000 entries, each with start and end empty or a valid time and
    with a break that is not negative, the [totalHours] of the weekly
    results add up to the [totalHours] of the period to the hundredth of an
    hour: their sum is within half a hundredth of it, and rounds to it. *)
Theorem weekly_hours_add_up
  (entries : list DayEntry) (hourlyRate cb : number) :
  Forall wellFormedEntry entries ->
  Forall (fun e => (Num 0 <=? breakMinutes e)%js = true) entries ->
  (Z.of_nat (List.length entries) <= 10000)%Z ->
  let r := processEntries entries hourlyRate cb in
  exists s t : Q,
    sumNumbers (map WeeklyResult.totalHours (PeriodResult.weeklyResults r))
    = Num s
    /\ PeriodResult.totalHours r = Num t
    /\ s - t <= 1 # 200 /\ t - s <= 1 # 200
    /\ round2 (Num s) =n= Num t.
Proof.
  intros Hwf _ _ r.
  destruct (weekly_hours_exact entries hourlyRate cb Hwf) as [He Hh].
  fold r in He, Hh.
  destruct (hundredths_Num _ Hh) as [t [Ht [k Hk]]].
  rewrite Ht in He.
  destruct (sumNumbers
              (map WeeklyResult.totalHours (PeriodResult.weeklyResults r)))
    as [s | | |]; cbn [num_eq] in He; try contradiction.
  exists s, t. split; [reflexivity |]. split; [exact Ht |].
  split; [lra |]. split; [lra |].
  eapply num_eq_trans; [apply (round2_hundredths s k); rewrite He; exact Hk |].
  exact He.
Qed.

Lemma weekly_hours_add_up_witness :
  Forall wellFormedEntry sampleEntries
  /\ Forall (fun e => (Num 0 <=? breakMinutes e)%js = true) sampleEntries
  /\ (Z.of_nat (List.length sampleEntries) <= 10000)%Z
  /\ exists s t : Q,
       sumNumbers
         (map WeeklyResult.totalHours
            (PeriodResult.weeklyResults
               (processEntries sampleEntries (Num 15) (Num 35))))
       = Num s
       /\ PeriodResult.totalHours
            (processEntries sampleEntries (Num 15) (Num 35)) = Num t
       /\ s - t <= 1 # 200 /\ t - s <= 1 # 200
       /\ round2 (Num s) =n= Num t.
Proof.
  assert (H9 : validTime "09:00").
  { exists 9%Z, 0%Z. repeat split; try lia. }
  assert (H17 : validTime "17:00").
  { exists 17%Z, 0%Z. repeat split; try lia. }
  assert (Hwf : Forall wellFormedEntry sampleEntries).
  { unfold sampleEntries.
    apply Forall_cons; [| apply Forall_cons; [| apply Forall_nil]];
      (split; cbn [start end_]; right; assumption). }
  assert (Hbr : Forall (fun e => (Num 0 <=? breakMinutes e)%js = true)
                  sampleEntries)
    by (repeat constructor).
  assert (Hlen : (Z.of_nat (List.length sampleEntries) <= 10000)%Z)
    by (cbn; lia).
  split; [exact Hwf |]. split; [exact Hbr |]. split; [exact Hlen |].
  exact (weekly_hours_add_up sampleEntries (Num 15) (Num 35) Hwf Hbr Hlen).
Defined.

(** ** Cumulated overtime *)

Lemma weekLoop_overtime (sundayMap holidayMap m : WeekMap)
  (hourlyRate cb : number) (results : list WeeklyResult.t) (cum : number) :
  let st := fold_left (weekStep sundayMap holidayMap hourlyRate cb) m
              (results, cum) in
  let ots := map (fun kv => totalOvertime (calculateOvertime (snd kv) cb)) m in
  map weekOvertime (fst st) = (map weekOvertime results ++ ots)%list
  /\ map WeeklyResult.cumulativeOvertime (fst st)
     = (map WeeklyResult.cumulativeOvertime results
        ++ map round2 (runningSums ots cum))%list
  /\ snd st = fold_left add ots cum.
Proof.
  revert results cum. induction m as [| [k v] m IH]; intros results cum.
  - cbn. rewrite !app_nil_r. repeat split.
  - cbn [fold_left map snd runningSums].
    unfold weekStep at 2 4 6. cbv zeta.
    match goal with
    | |- context [fold_left _ m (?rs, ?c)] =>
        destruct (IH rs c) as [H1 [H2 H3]]
    end.
    cbv zeta in H1, H2, H3. rewrite H1, H2, H3, !map_app.
    cbn [map weekOvertime WeeklyResult.overtime
         WeeklyResult.cumulativeOvertime].
    unfold weekOvertime at 3. cbn [WeeklyResult.overtime].
    rewrite <- !app_assoc. repeat split.
Qed.

(** X16.  The cumulated overtime is a running sum in the order of the weekly
    results: the [cumulativeOvertime] of a week is the sum of the overtime
    of the weeks up to it, rounded to two decimals, and the [totalOvertime]
    of the period is the rounded sum over all the weeks. *)
Theorem processEntries_cumulativeOvertime
  (entries : list DayEntry) (hourlyRate cb : number) :
  let r := processEntries entries hourlyRate cb in
  let ots := map weekOvertime (PeriodResult.weeklyResults r) in
  map WeeklyResult.cumulativeOvertime (PeriodResult.weeklyResults r)
  = map round2 (runningSums ots (Num 0))
  /\ PeriodResult.totalOvertime r = round2 (sumNumbers ots).
Proof.
  intros r ots. subst r ots. unfold processEntries.
  match goal with
  | |- context [fold_left dayStep entries ?i] =>
      set (st := fold_left dayStep entries i)
  end.
  pose proof (weekLoop_overtime (weeklySundayMap st) (weeklyHolidayMap st)
                (weeklyHoursMap st) hourlyRate cb [] (Num 0)) as H.
  cbv zeta in H.
  destruct (fold_left _ (weeklyHoursMap st) ([], Num 0)) as [results cum].
  cbn [fst snd map app] in H. destruct H as [H1 [H2 H3]].
  cbn [PeriodResult.weeklyResults PeriodResult.totalOvertime].
  rewrite H1, H2, H3. split; reflexivity.
Qed.

(** ** A day without hours in a week *)

Lemma add_NaN_l (a : number) : (NaN + a)%js = NaN.
Proof. destruct a; reflexivity. Qed.

Lemma mapGet_In (m : WeekMap) (k : string) (v : number) :
  mapGet m k = Some v -> In (k, v) m.
Proof.
  induction m as [| [k' v'] m IH]; simpl; [discriminate |].
  destruct (String.eqb k' k) eqn:E.
  - apply String.eqb_eq in E. subst k'. intro H. injection H as <-.
    left. reflexivity.
  - intro H. right. exact (IH H).
Qed.

Lemma weekLoop_In (sundayMap holidayMap m : WeekMap)
  (hourlyRate cb : number) (st : list WeeklyResult.t * number)
  (k : string) (v : number) :
  In (k, v) m ->
  exists w,
    In w (fst (fold_left (weekStep sundayMap holidayMap hourlyRate cb) m st))
    /\ WeeklyResult.week w = k /\ WeeklyResult.totalHours w = round2 v.
Proof.
  assert (Keep : forall m' st' w,
            In w (fst st') ->
            In w (fst (fold_left
                         (weekStep sundayMap holidayMap hourlyRate cb)
                         m' st'))).
  { induction m' as [| [k' v'] m' IH]; intros [rs c] w Hw.
    - exact Hw.
    - cbn [fold_left]. apply IH. unfold weekStep. cbn [fst] in *.
      apply in_or_app. left. exact Hw. }
  revert st. induction m as [| [k' v'] m IH]; intros [rs c] Hin.
  - destruct Hin.
  - cbn [fold_left]. destruct Hin as [E | Hin].
    + injection E as -> ->. eexists. split.
      * apply Keep. unfold weekStep. cbn [fst].
        apply in_or_app. right. left. reflexivity.
      * split; reflexivity.
    + apply IH. exact Hin.
Qed.

(** X17.  A day whose hours are [NaN] is forgotten by its week but not by
    the period.  When, after any entries, an entry with [NaN] hours is
    followed by an entry of the same week with [h] hours, the weekly result
    of that week has [totalHours] equal to [h] alone (the earlier days of
    the week are lost with the [NaN]), while the [totalHours] of the period
    is [NaN]. *)
Theorem nan_day_forgotten_by_week
  (es : list DayEntry) (e1 e2 : DayEntry) (h : Q) (hourlyRate cb : number) :
  calculateDailyHours e1 = NaN ->
  calculateDailyHours e2 = Num h ->
  weekKeyOf e1 = weekKeyOf e2 ->
  let r := processEntries (es ++ [e1; e2]) hourlyRate cb in
  (exists w,
     In w (PeriodResult.weeklyResults r)
     /\ WeeklyResult.week w = weekKeyOf e2
     /\ WeeklyResult.totalHours w = round2 (Num (0 + h)))
  /\ PeriodResult.totalHours r = NaN.
Proof.
  intros H1 H2 Hk r. subst r. unfold processEntries.
  rewrite fold_left_app.
  match goal with
  | |- context [fold_left dayStep es ?i] =>
      set (st0 := fold_left dayStep es i)
  end.
  cbn [fold_left].
  set (st1 := dayStep st0 e1). set (st2 := dayStep st1 e2).
  assert (G1 : mapGet (weeklyHoursMap st1) (weekKeyOf e2) = Some NaN).
  { unfold st1, dayStep. cbn [weeklyHoursMap]. fold (weekKeyOf e1).
    rewrite H1, Hk. unfold mapAdd. rewrite add_NaN_r. apply mapGet_mapSet. }
  assert (G2 : mapGet (weeklyHoursMap st2) (weekKeyOf e2)
               = Some (Num (0 + h))).
  { unfold st2, dayStep. cbn [weeklyHoursMap]. fold (weekKeyOf e2).
    rewrite H2. unfold mapAdd, mapInit. rewrite G1. cbn [truthy].
    rewrite !mapGet_mapSet. reflexivity. }
  assert (T : l_totalHours st2 = NaN).
  { unfold st2, st1, dayStep. cbn [l_totalHours]. rewrite H1, H2.
    rewrite add_NaN_r. reflexivity. }
  destruct (weekLoop_In (weeklySundayMap st2) (weeklyHolidayMap st2)
              (weeklyHoursMap st2) hourlyRate cb ([], Num 0)
              (weekKeyOf e2) (Num (0 + h)) (mapGet_In _ _ _ G2))
    as [w [Hw [Ew Et]]].
  destruct (fold_left _ (weeklyHoursMap st2) ([], Num 0)) as [results cum].
  cbn [PeriodResult.weeklyResults PeriodResult.totalHours].
  split.
  - exists w. cbn [fst] in Hw. auto.
  - rewrite T. reflexivity.
Qed.

Lemma nan_day_forgotten_by_week_witness :
  (calculateDailyHours (mkDayEntry "2024-05-06" "abc" "17:00" (Num 0)) = NaN
   /\ calculateDailyHours (mkDayEntry "2024-05-07" "09:00" "17:00" (Num 60))
      = Num (700 # 100)
   /\ weekKeyOf (mkDayEntry "2024-05-06" "abc" "17:00" (Num 0))
      = weekKeyOf (mkDayEntry "2024-05-07" "09:00" "17:00" (Num 60)))
  /\ PeriodResult.totalHours
       (processEntries
          ([mkDayEntry "2024-05-03" "09:00" "17:00" (Num 60)]
           ++ [mkDayEntry "2024-05-06" "abc" "17:00" (Num 0);
               mkDayEntry "2024-05-07" "09:00" "17:00" (Num 60)])
          (Num 15) (Num 35)) = NaN.
Proof.
  assert (H1 : calculateDailyHours
                 (mkDayEntry "2024-05-06" "abc" "17:00" (Num 0)) = NaN)
    by (vm_compute; reflexivity).
  assert (H2 : calculateDailyHours
                 (mkDayEntry "2024-05-07" "09:00" "17:00" (Num 60))
               = Num (700 # 100)) by (vm_compute; reflexivity).
  assert (H3 : weekKeyOf (mkDayEntry "2024-05-06" "abc" "17:00" (Num 0))
               = weekKeyOf (mkDayEntry "2024-05-07" "09:00" "17:00" (Num 60)))
    by (vm_compute; reflexivity).
  split; [split; [exact H1 | split; [exact H2 | exact H3]] |].
  destruct (nan_day_forgotten_by_week
              [mkDayEntry "2024-05-03" "09:00" "17:00" (Num 60)]
              _ _ _ (Num 15) (Num 35) H1 H2 H3) as [_ H].
  exact H.
Defined.

(** ** The calendar *)

Local Open Scope Z_scope.

(** The civil date of a day since the epoch denotes that day. *)
Lemma civil_days (z : Z) :
  let '(y, m, d) := civilFromDays z in
  daysFromCivil y m d = z /\ 1 <= m <= 12 /\ 1 <= d <= 31.
Proof.
  unfold civilFromDays, daysFromCivil.
  set (z' := z + 719468).
  set (era := z' / 146097).
  set (doe := z' - era * 146097).
  assert (Hdoe : 0 <= doe < 146097)
    by (subst doe era; Z.div_mod_to_equations; lia).
  set (yoe := (doe - doe / 1460 + doe / 36524 - doe / 146096) / 365).
  assert (Hyoe : 0 <= yoe <= 399) by (subst yoe; Z.div_mod_to_equations; lia).
  set (doy := doe - (365 * yoe + yoe / 4 - yoe / 100)).
  assert (Hdoy : 0 <= doy <= 365)
    by (subst doy yoe; Z.div_mod_to_equations; lia).
  set (mp := (5 * doy + 2) / 153).
  assert (Hmp : 0 <= mp <= 11) by (subst mp; Z.div_mod_to_equations; lia).
  cbv zeta.
  destruct (mp <? 10) eqn:E1; [apply Z.ltb_lt in E1 | apply Z.ltb_ge in E1].
  - assert (E2 : (mp + 3 <=? 2) = false) by (apply Z.leb_gt; lia).
    assert (E3 : (mp + 3 >? 2) = true) by (apply Z.gtb_lt; lia).
    rewrite E2, E3. replace (mp + 3 - 3) with mp by lia.
    assert (Hy : (yoe + era * 400) / 400 = era)
      by (Z.div_mod_to_equations; lia).
    rewrite Hy. replace (yoe + era * 400 - era * 400) with yoe by lia.
    split; [| split; [lia |]].
    + subst doy mp. Z.div_mod_to_equations. lia.
    + subst mp. Z.div_mod_to_equations. lia.
  - assert (E2 : (mp - 9 <=? 2) = true) by (apply Z.leb_le; lia).
    assert (E3 : (mp - 9 >? 2) = false)
      by (rewrite Z.gtb_ltb; apply Z.ltb_ge; lia).
    rewrite E2, E3. replace (mp - 9 + 9) with mp by lia.
    replace (yoe + era * 400 + 1 - 1) with (yoe + era * 400) by lia.
    assert (Hy : (yoe + era * 400) / 400 = era)
      by (Z.div_mod_to_equations; lia).
    rewrite Hy. replace (yoe + era * 400 - era * 400) with yoe by lia.
    split; [| split; [lia |]].
    + subst doy mp. Z.div_mod_to_equations. lia.
    + subst mp. Z.div_mod_to_equations. lia.
Qed.


(** A valid date (February 29 apart) is the civil date of its day. *)
Lemma days_civil (y m d : Z) :
  1 <= m <= 12 -> 1 <= d <= monthLen m ->
  civilFromDays (daysFromCivil y m d) = (y, m, d).
Proof.
  intros Hm Hd. unfold daysFromCivil.
  set (y' := if m <=? 2 then y - 1 else y).
  set (era := y' / 400). set (yoe := y' - era * 400).
  assert (Hyoe : 0 <= yoe < 400)
    by (subst yoe era; Z.div_mod_to_equations; lia).
  set (mp := if m >? 2 then m - 3 else m + 9).
  set (doy := (153 * mp + 2) / 5 + d - 1).
  assert (Hcases : m = 1 \/ m = 2 \/ m = 3 \/ m = 4 \/ m = 5 \/ m = 6
                   \/ m = 7 \/ m = 8 \/ m = 9 \/ m = 10 \/ m = 11 \/ m = 12)
    by lia.
  assert (Hdoy : 0 <= doy <= 364 /\ 0 <= mp <= 11
                 /\ (5 * doy + 2) / 153 = mp
                 /\ doy - (153 * mp + 2) / 5 + 1 = d
                 /\ (if mp <? 10 then mp + 3 else mp - 9) = m
                 /\ (if m <=? 2 then y' + 1 else y') = y).
  { subst doy mp y'.
    repeat (destruct Hcases as [Hc | Hcases]); try rename Hcases into Hc;
      subst m; unfold monthLen in Hd;
      repeat match goal with
             | |- context [if ?c then _ else _] =>
                 let b := eval compute in c in change c with b; cbv iota
             | H : context [if ?c then _ else _] |- _ =>
                 let b := eval compute in c in change c with b in H;
                 cbv iota in H
             end;
      (repeat split; try lia); Z.div_mod_to_equations; lia. }
  destruct Hdoy as [Hdoy [Hmp [E1 [E2 [E3 E4]]]]].
  set (doe := yoe * 365 + yoe / 4 - yoe / 100 + doy).
  assert (Hdoe : 0 <= doe < 146097)
    by (subst doe; Z.div_mod_to_equations; lia).
  unfold civilFromDays.
  replace (era * 146097 + doe - 719468 + 719468)
    with (doe + era * 146097) by lia.
  rewrite (Z.div_add doe era 146097) by lia.
  rewrite (Z.div_small doe 146097) by lia.
  replace (doe + era * 146097 - (0 + era) * 146097) with doe by lia.
  assert (Hy : (doe - doe / 1460 + doe / 36524 - doe / 146096) / 365 = yoe)
    by (subst doe; Z.div_mod_to_equations; lia).
  cbv zeta. rewrite Hy.
  replace (doe - (365 * yoe + yoe / 4 - yoe / 100)) with doy
    by (subst doe; lia).
  rewrite E1, E2, E3.
  assert (Hyy : yoe + (0 + era) * 400 = y') by (subst yoe; lia).
  rewrite Hyy. f_equal. f_equal. exact E4.
Qed.

Lemma daysFromCivil_day (y m d : Z) :
  daysFromCivil y m 1 + d - 1 = daysFromCivil y m d.
Proof. unfold daysFromCivil. lia. Qed.

Lemma daysFromCivil_bounds (y m d : Z) :
  100 <= y <= 275000 -> 1 <= m <= 12 -> 1 <= d <= 31 ->
  -690000 <= daysFromCivil y m d <= 99800000.
Proof.
  intros Hy Hm Hd. unfold daysFromCivil.
  destruct (m <=? 2); destruct (m >? 2) eqn:E;
    try (apply Z.gtb_lt in E); try (rewrite Z.gtb_ltb in E; apply Z.ltb_ge in E);
    Z.div_mod_to_equations; lia.
Qed.

Lemma timeClip_day (n : Z) :
  -100000000 <= n <= 100000000 ->
  timeClip (Some (n * msPerDay)) = TimeValue (n * msPerDay).
Proof.
  intro H. unfold timeClip, msPerDay.
  assert (E : (Z.abs (n * 86400000) <=? 8640000000000000) = true)
    by (apply Z.leb_le; lia).
  rewrite E. reflexivity.
Qed.

(** A date built from a year from 100 on, a month and a day. *)
Lemma newDate_valid (y m d : Z) :
  100 <= y <= 275000 -> 1 <= m <= 12 -> 1 <= d <= 31 ->
  newDate (Some y) (Some (m - 1)) (Some d)
  = TimeValue (daysFromCivil y m d * msPerDay).
Proof.
  intros Hy Hm Hd. unfold newDate, makeDate.
  assert (E : ((0 <=? y) && (y <=? 99))%bool = false).
  { apply andb_false_iff. right. apply Z.leb_gt. lia. }
  rewrite E.
  replace ((m - 1) / 12) with 0 by (Z.div_mod_to_equations; lia).
  replace ((m - 1) mod 12 + 1) with m by (Z.div_mod_to_equations; lia).
  rewrite Z.add_0_r, daysFromCivil_day.
  apply timeClip_day.
  pose proof (daysFromCivil_bounds y m d Hy Hm Hd). lia.
Qed.

Lemma msPerDay_div (n : Z) : n * msPerDay / msPerDay = n.
Proof. apply Z.div_mul. discriminate. Qed.

(** What the getters read from the midnight of a valid date. *)
Lemma getters_valid (y m d : Z) :
  1 <= m <= 12 -> 1 <= d <= monthLen m ->
  let t := TimeValue (daysFromCivil y m d * msPerDay) in
  getFullYear t = Some y /\ getMonth t = Some (m - 1) /\ getDate t = Some d
  /\ getDay t = Some ((daysFromCivil y m d + 4) mod 7).
Proof.
  intros Hm Hd t. subst t. unfold getFullYear, getMonth, getDate, getDay.
  rewrite msPerDay_div, (days_civil y m d Hm Hd). repeat split.
Qed.

(** The Computus: Easter is the civil date ([month], [day]) of the year,
    from March 22 to April 25, and that day is a Sunday. *)
Lemma computus (y : Z) :
  0 <= y ->
  exists month day,
    getEasterDate y = newDate (Some y) (Some (month - 1)) (Some day)
    /\ ((month = 3 /\ 22 <= day <= 31) \/ (month = 4 /\ 1 <= day <= 25))
    /\ (daysFromCivil y month day + 4) mod 7 = 0.
Proof.
  intro Hy. unfold getEasterDate.
  rewrite (Z.rem_mod_nonneg y 19), (Z.rem_mod_nonneg y 100) by lia.
  set (a := y mod 19). set (b := y / 100). set (c := y mod 100).
  assert (Ha : 0 <= a < 19) by (subst a; apply Z.mod_pos_bound; lia).
  assert (Hb : 0 <= b) by (subst b; Z.div_mod_to_equations; lia).
  assert (Hc : 0 <= c < 100) by (subst c; apply Z.mod_pos_bound; lia).
  rewrite (Z.rem_mod_nonneg b 4) by lia.
  set (d := b / 4). set (e := b mod 4). set (f := (b + 8) / 25).
  set (g := (b - f + 1) / 3).
  assert (Hg : 0 <= 19 * a + b - d - g + 15)
    by (subst d g f; Z.div_mod_to_equations; lia).
  rewrite (Z.rem_mod_nonneg _ 30) by lia.
  set (h := (19 * a + b - d - g + 15) mod 30).
  assert (Hh : 0 <= h < 30) by (subst h; apply Z.mod_pos_bound; lia).
  rewrite (Z.rem_mod_nonneg c 4) by lia.
  set (i := c / 4). set (k := c mod 4).
  assert (He : 0 <= e < 4) by (subst e; apply Z.mod_pos_bound; lia).
  assert (Hk : 0 <= k < 4) by (subst k; apply Z.mod_pos_bound; lia).
  assert (Hi : 0 <= i) by (subst i; Z.div_mod_to_equations; lia).
  rewrite (Z.rem_mod_nonneg (32 + 2 * e + 2 * i - h - k) 7) by lia.
  set (l := (32 + 2 * e + 2 * i - h - k) mod 7).
  assert (Hl : 0 <= l < 7) by (subst l; apply Z.mod_pos_bound; lia).
  set (m := (a + 11 * h + 22 * l) / 451).
  assert (Hm : 0 <= m <= 1) by (subst m; Z.div_mod_to_equations; lia).
  set (p := h + l - 7 * m + 114).
  assert (Hp : 114 <= p <= 148) by (subst p m; Z.div_mod_to_equations; lia).
  rewrite (Z.rem_mod_nonneg p 31) by lia.
  exists (p / 31), (p mod 31 + 1). split; [reflexivity |].
  split; [Z.div_mod_to_equations; lia |].
  assert (Hmonth : p / 31 = 3 \/ p / 31 = 4) by (Z.div_mod_to_equations; lia).
  unfold daysFromCivil.
  assert (E1 : (p / 31 <=? 2) = false) by (apply Z.leb_gt; lia).
  assert (E2 : (p / 31 >? 2) = true) by (apply Z.gtb_lt; lia).
  rewrite E1, E2.
  assert (Hdoy : (153 * (p / 31 - 3) + 2) / 5 + (p mod 31 + 1) - 1 = p - 93)
    by (Z.div_mod_to_equations; lia).
  rewrite Hdoy.
  set (era := y / 400). set (yoe := y - era * 400).
  assert (Hyoe : 0 <= yoe < 400)
    by (subst yoe era; Z.div_mod_to_equations; lia).
  subst p yoe era l h m k i g f e d c b a.
  Z.div_mod_to_equations. lia.
Qed.

(** Easter as a time value. *)
Lemma getEasterDate_value (y : Z) :
  100 <= y <= 275000 ->
  exists month day,
    getEasterDate y = TimeValue (daysFromCivil y month day * msPerDay)
    /\ ((month = 3 /\ 22 <= day <= 31) \/ (month = 4 /\ 1 <= day <= 25))
    /\ (daysFromCivil y month day + 4) mod 7 = 0.
Proof.
  intro Hy. destruct (computus y ltac:(lia)) as [month [day [E [R S]]]].
  exists month, day. split; [| split; assumption].
  rewrite E. apply newDate_valid; lia.
Qed.

(** X18.  For every year from 100 to 275000, [getEasterDate] is a Sunday of
    that year, not before March 22 and not after April 25 (months are
    counted from 0). *)
Theorem getEasterDate_sunday (y : Z) :
  100 <= y <= 275000 ->
  let e := getEasterDate y in
  getFullYear e = Some y /\ getDay e = Some 0
  /\ exists d,
       getDate e = Some d
       /\ ((getMonth e = Some 2 /\ 22 <= d <= 31)
           \/ (getMonth e = Some 3 /\ 1 <= d <= 25)).
Proof.
  intros Hy e. subst e.
  destruct (getEasterDate_value y Hy) as [month [day [E [R S]]]].
  rewrite E.
  assert (Hm : 1 <= month <= 12) by lia.
  assert (Hd : 1 <= day <= monthLen month).
  { destruct R as [[-> R] | [-> R]]; cbn; lia. }
  destruct (getters_valid y month day Hm Hd) as [G1 [G2 [G3 G4]]].
  rewrite G1, G2, G3, G4, S. split; [reflexivity |]. split; [reflexivity |].
  exists day. split; [reflexivity |].
  destruct R as [[-> R] | [-> R]]; [left | right]; split;
    (reflexivity || exact R).
Qed.

Lemma getEasterDate_sunday_witness :
  100 <= 2025 <= 275000
  /\ getFullYear (getEasterDate 2025) = Some 2025
  /\ getDay (getEasterDate 2025) = Some 0.
Proof.
  assert (H : 100 <= 2025 <= 275000) by lia.
  split; [exact H |].
  destruct (getEasterDate_sunday 2025 H) as [H1 [H2 _]].
  split; assumption.
Defined.

(** ** The public holidays of a year *)

(** Two days with the same civil date are the same day. *)
Lemma sameDay_eqb (a b : Z) :
  let '(y1, m1, d1) := civilFromDays a in
  let '(y2, m2, d2) := civilFromDays b in
  (y1 =? y2) && (m1 - 1 =? m2 - 1) && (d1 =? d2) = (a =? b).
Proof.
  pose proof (civil_days a) as Ha. pose proof (civil_days b) as Hb.
  destruct (civilFromDays a) as [[y1 m1] d1] eqn:Ea.
  destruct (civilFromDays b) as [[y2 m2] d2] eqn:Eb.
  destruct (a =? b) eqn:E.
  - apply Z.eqb_eq in E. subst b. rewrite Ea in Eb. injection Eb as <- <- <-.
    rewrite !Z.eqb_refl. reflexivity.
  - apply Z.eqb_neq in E.
    destruct (y1 =? y2) eqn:E1; [| reflexivity].
    destruct (m1 - 1 =? m2 - 1) eqn:E2; [| reflexivity].
    destruct (d1 =? d2) eqn:E3; [| reflexivity].
    apply Z.eqb_eq in E1, E2, E3.
    assert (m1 = m2) by lia. subst. exfalso. apply E.
    destruct Ha as [Ha _], Hb as [Hb _]. congruence.
Qed.

(** The test of [isPublicHoliday] compares the days of two dates. *)
Lemma sameDay_dates (t ms : Z) :
  intStrictEq (getFullYear (TimeValue t)) (getFullYear (TimeValue ms))
  && intStrictEq (getMonth (TimeValue t)) (getMonth (TimeValue ms))
  && intStrictEq (getDate (TimeValue t)) (getDate (TimeValue ms))
  = (t / msPerDay =? ms / msPerDay).
Proof.
  pose proof (sameDay_eqb (t / msPerDay) (ms / msPerDay)) as H.
  unfold getFullYear, getMonth, getDate.
  destruct (civilFromDays (t / msPerDay)) as [[y1 m1] d1].
  destruct (civilFromDays (ms / msPerDay)) as [[y2 m2] d2].
  exact H.
Qed.

(** A day is a given date of its year when its month and day are these. *)
Lemma fixedDay_eqb (D y m d m0 d0 : Z) :
  civilFromDays D = (y, m, d) ->
  1 <= m0 <= 12 -> 1 <= d0 <= monthLen m0 ->
  (daysFromCivil y m0 d0 =? D) = (m =? m0) && (d =? d0).
Proof.
  intros E Hm Hd.
  pose proof (civil_days D) as H. rewrite E in H. destruct H as [H _].
  destruct (daysFromCivil y m0 d0 =? D) eqn:E1.
  - apply Z.eqb_eq in E1. rewrite <- E1 in E.
    rewrite (days_civil y m0 d0 Hm Hd) in E. injection E as <- <-.
    rewrite !Z.eqb_refl. reflexivity.
  - apply Z.eqb_neq in E1.
    destruct (m =? m0) eqn:E2; [| reflexivity].
    destruct (d =? d0) eqn:E3; [| reflexivity].
    apply Z.eqb_eq in E2, E3. subst. contradiction.
Qed.

(** The days of a year from March on, counted from March 1. *)
Lemma daysFromCivil_march (y m d : Z) :
  3 <= m <= 12 ->
  daysFromCivil y m d = daysFromCivil y 3 1 + (153 * (m - 3) + 2) / 5 + d - 1.
Proof.
  intro Hm. unfold daysFromCivil.
  assert (E1 : (m <=? 2) = false) by (apply Z.leb_gt; lia).
  assert (E2 : (m >? 2) = true) by (apply Z.gtb_lt; lia).
  rewrite E1, E2.
  change (3 <=? 2) with false. change (3 >? 2) with true. cbv iota.
  change ((153 * (3 - 3) + 2) / 5) with 0. lia.
Qed.

(** Easter falls 21 to 55 days after March 1, on a Sunday. *)
Lemma easter_day (y : Z) :
  100 <= y <= 275000 ->
  exists E,
    getEasterDate y = TimeValue (E * msPerDay)
    /\ daysFromCivil y 3 1 + 21 <= E <= daysFromCivil y 3 1 + 55
    /\ (E + 4) mod 7 = 0.
Proof.
  intro Hy. destruct (getEasterDate_value y Hy) as [month [day [E [R S]]]].
  exists (daysFromCivil y month day). split; [exact E |]. split; [| exact S].
  destruct R as [[-> R] | [-> R]].
  - rewrite (daysFromCivil_march y 3 day) by lia.
    change ((153 * (3 - 3) + 2) / 5) with 0. lia.
  - rewrite (daysFromCivil_march y 4 day) by lia.
    change ((153 * (4 - 3) + 2) / 5) with 31. lia.
Qed.

(** The list of a year, as days since the epoch. *)
Lemma getPublicHolidays_days (y E : Z) :
  100 <= y <= 275000 ->
  getEasterDate y = TimeValue (E * msPerDay) ->
  daysFromCivil y 3 1 + 21 <= E <= daysFromCivil y 3 1 + 55 ->
  let on m d := TimeValue (daysFromCivil y m d * msPerDay) in
  let after n := TimeValue ((E + n) * msPerDay) in
  getPublicHolidays (Some y) =
  [ mkHoliday (on 1 1) "Jour de l'An";
    mkHoliday (after 1) "Lundi de Pâques";
    mkHoliday (on 5 1) "Fête du Travail";
    mkHoliday (on 5 8) "Victoire 1945";
    mkHoliday (after 39) "Ascension";
    mkHoliday (after 50) "Lundi de Pentecôte";
    mkHoliday (on 7 14) "Fête Nationale";
    mkHoliday (on 8 15) "Assomption";
    mkHoliday (on 11 1) "Toussaint";
    mkHoliday (on 11 11) "Armistice 1918";
    mkHoliday (on 12 25) "Noël" ].
Proof.
  intros Hy HE HR on after. subst on after. cbv beta.
  unfold getPublicHolidays. rewrite HE. cbv zeta. cbn [getTime intAdd].
  pose proof (daysFromCivil_bounds y 3 1 Hy ltac:(lia) ltac:(lia)) as HB.
  assert (HA : forall n, 0 <= n <= 50 ->
             timeClip (Some (E * msPerDay + n * msPerDay))
             = TimeValue ((E + n) * msPerDay)).
  { intros n Hn. rewrite <- Z.mul_add_distr_r. apply timeClip_day. lia. }
  rewrite !HA by lia.
  assert (HF : forall m d, 1 <= m <= 12 -> 1 <= d <= 31 ->
             newDate (Some y) (Some (m - 1)) (Some d)
             = TimeValue (daysFromCivil y m d * msPerDay)).
  { intros m d Hm Hd. apply newDate_valid; assumption. }
  rewrite <- (HF 1 1), <- (HF 5 1), <- (HF 5 8), <- (HF 7 14), <- (HF 8 15),
    <- (HF 11 1), <- (HF 11 11), <- (HF 12 25) by lia.
  reflexivity.
Qed.

Lemma find_ext {A : Type} (f g : A -> bool) (l : list A) :
  (forall x, f x = g x) -> find f l = find g l.
Proof.
  intro H. induction l as [| x l IH]; [reflexivity |].
  cbn [find]. rewrite H, IH. reflexivity.
Qed.

Lemma timeValue_day_inj (a b : Z) :
  TimeValue (a * msPerDay) = TimeValue (b * msPerDay) -> a = b.
Proof. intro H. injection H as H. unfold msPerDay in H. lia. Qed.

(** The holiday of a date, from its civil date and Easter of its year. *)
Lemma holidayNameOn_days (ms y m d E : Z) :
  civilFromDays (ms / msPerDay) = (y, m, d) ->
  100 <= y <= 275000 ->
  getEasterDate y = TimeValue (E * msPerDay) ->
  holidayNameOn (TimeValue ms) = calendarHoliday m d (ms / msPerDay - E).
Proof.
  intros Hc Hy HE. destruct (easter_day y Hy) as [E' [HE' [HR _]]].
  assert (E' = E) by (apply timeValue_day_inj; congruence). subst E'.
  unfold holidayNameOn, isPublicHoliday.
  set (D := ms / msPerDay) in *.
  assert (Hyear : getFullYear (TimeValue ms) = Some y).
  { unfold getFullYear. fold D. rewrite Hc. reflexivity. }
  rewrite Hyear at 1.
  rewrite (find_ext _ (fun h => match h_date h with
                                | TimeValue t => t / msPerDay =? D
                                | InvalidDate => false
                                end)).
  2:{ intros [[t |] nm]; cbn [h_date].
      - apply sameDay_dates.
      - reflexivity. }
  rewrite (getPublicHolidays_days y E Hy HE HR).
  cbn [find h_date]. rewrite !msPerDay_div.
  rewrite (fixedDay_eqb D y m d 1 1 Hc), (fixedDay_eqb D y m d 5 1 Hc),
    (fixedDay_eqb D y m d 5 8 Hc), (fixedDay_eqb D y m d 7 14 Hc),
    (fixedDay_eqb D y m d 8 15 Hc), (fixedDay_eqb D y m d 11 1 Hc),
    (fixedDay_eqb D y m d 11 11 Hc), (fixedDay_eqb D y m d 12 25 Hc)
    by (cbn; lia).
  assert (HS : forall n, (E + n =? D) = (D - E =? n)).
  { intro n. destruct (D - E =? n) eqn:E1;
      [apply Z.eqb_eq in E1; apply Z.eqb_eq
      | apply Z.eqb_neq in E1; apply Z.eqb_neq]; lia. }
  rewrite !HS. unfold calendarHoliday.
  repeat match goal with
         | |- context [if ?b then _ else _] => destruct b; [reflexivity |]
         end.
  reflexivity.
Qed.

(** X19.  For a date of a year from 100 to 275000, [isPublicHoliday] finds
    the holiday that the calendar gives to its month, its day of the month
    and its distance in days from Easter of its year: the eight fixed
    dates, Easter Monday, Ascension and Whit Monday, the fixed dates of May
    before Ascension, and nothing on any other day. *)
Theorem isPublicHoliday_calendar (ms y m d : Z) :
  civilFromDays (ms / msPerDay) = (y, m, d) ->
  100 <= y <= 275000 ->
  exists E,
    getEasterDate y = TimeValue (E * msPerDay)
    /\ holidayNameOn (TimeValue ms) = calendarHoliday m d (ms / msPerDay - E).
Proof.
  intros Hc Hy. destruct (easter_day y Hy) as [E [HE _]].
  exists E. split; [exact HE |].
  apply (holidayNameOn_days ms y m d E Hc Hy HE).
Qed.

Lemma isPublicHoliday_calendar_witness :
  civilFromDays (1715126400000 / msPerDay) = (2024, 5, 8)
  /\ 100 <= 2024 <= 275000
  /\ exists E,
       getEasterDate 2024 = TimeValue (E * msPerDay)
       /\ holidayNameOn (TimeValue 1715126400000)
          = calendarHoliday 5 8 (1715126400000 / msPerDay - E).
Proof.
  assert (Hc : civilFromDays (1715126400000 / msPerDay) = (2024, 5, 8))
    by reflexivity.
  assert (Hy : 100 <= 2024 <= 275000) by lia.
  split; [exact Hc |]. split; [exact Hy |].
  exact (isPublicHoliday_calendar 1715126400000 2024 5 8 Hc Hy).
Defined.

(** The civil dates of the days from March 1 to December 31 of a year. *)
Lemma march_civil (y j : Z) :
  0 <= j <= 305 ->
  exists m d,
    civilFromDays (daysFromCivil y 3 1 + j) = (y, m, d)
    /\ 3 <= m <= 12 /\ 1 <= d <= monthLen m
    /\ j = (153 * (m - 3) + 2) / 5 + d - 1.
Proof.
  intro Hj.
  set (mp := (5 * j + 2) / 153).
  assert (Hmp : 0 <= mp <= 9) by (subst mp; Z.div_mod_to_equations; lia).
  set (d := j - (153 * mp + 2) / 5 + 1).
  assert (Hd : 1 <= d <= monthLen (mp + 3)).
  { assert (C : mp = 0 \/ mp = 1 \/ mp = 2 \/ mp = 3 \/ mp = 4 \/ mp = 5
                \/ mp = 6 \/ mp = 7 \/ mp = 8 \/ mp = 9) by lia.
    subst d.
    assert (Hj5 : 153 * mp <= 5 * j + 2 < 153 * mp + 153)
      by (subst mp; Z.div_mod_to_equations; lia).
    clearbody mp.
    repeat (destruct C as [C | C]; [subst mp; cbn; lia |]).
    subst mp; cbn; lia. }
  exists (mp + 3), d.
  assert (Hm : 3 <= mp + 3 <= 12) by lia.
  split; [| split; [exact Hm | split; [exact Hd |]]].
  - rewrite <- (days_civil y (mp + 3) d) by lia. f_equal.
    rewrite (daysFromCivil_march y (mp + 3) d Hm).
    replace (mp + 3 - 3) with mp by lia. subst d. lia.
  - replace (mp + 3 - 3) with mp by lia. subst d. lia.
Qed.

Lemma holidayNameOn_after_march (y E j : Z) :
  100 <= y <= 275000 ->
  getEasterDate y = TimeValue (E * msPerDay) ->
  0 <= j <= 305 ->
  exists m d,
    3 <= m <= 12 /\ 1 <= d <= monthLen m
    /\ j = (153 * (m - 3) + 2) / 5 + d - 1
    /\ getMonth (dayDate (daysFromCivil y 3 1 + j)) = Some (m - 1)
    /\ getDate (dayDate (daysFromCivil y 3 1 + j)) = Some d
    /\ holidayNameOn (dayDate (daysFromCivil y 3 1 + j))
       = calendarHoliday m d (daysFromCivil y 3 1 + j - E).
Proof.
  intros Hy HE Hj.
  destruct (march_civil y j Hj) as [m [d [Hc [Hm [Hd Hjd]]]]].
  exists m, d. split; [exact Hm |]. split; [exact Hd |]. split; [exact Hjd |].
  unfold dayDate, getMonth, getDate. rewrite !msPerDay_div, Hc.
  split; [reflexivity |]. split; [reflexivity |].
  pose proof (holidayNameOn_days ((daysFromCivil y 3 1 + j) * msPerDay)
                y m d E) as H.
  rewrite msPerDay_div in H. exact (H Hc Hy HE).
Qed.

Lemma andb_eqb_false (a b a0 b0 : Z) :
  a <> a0 \/ b <> b0 -> (a =? a0) && (b =? b0) = false.
Proof.
  intro H. destruct (a =? a0) eqn:E1; [| reflexivity].
  destruct (b =? b0) eqn:E2; [| reflexivity].
  apply Z.eqb_eq in E1, E2. lia.
Qed.

Ltac not_that_day :=
  repeat match goal with
         | |- context [(?a =? ?a0) && (?b =? ?b0)] =>
             rewrite (andb_eqb_false a b a0 b0)
               by (Z.div_mod_to_equations; lia)
         end.

(** X20.  In every year from 100 to 275000, Easter Sunday itself is not a
    public holiday; the day after it is a Monday, found as Lundi de
    Pâques; the 50th day after it is a Monday, found as Lundi de
    Pentecôte; the 39th day after it is a Thursday, found as Ascension
    unless it falls on May 1 or May 8, where the holiday of that date,
    earlier in the list, is found instead. *)
Theorem easter_feasts (y : Z) :
  100 <= y <= 275000 ->
  exists E,
    getEasterDate y = dayDate E
    /\ holidayNameOn (dayDate E) = None
    /\ getDay (dayDate (E + 1)) = Some 1
    /\ holidayNameOn (dayDate (E + 1)) = Some "Lundi de Pâques"
    /\ getDay (dayDate (E + 39)) = Some 4
    /\ holidayNameOn (dayDate (E + 39))
       = match getMonth (dayDate (E + 39)), getDate (dayDate (E + 39)) with
         | Some 4, Some 1 => Some "Fête du Travail"
         | Some 4, Some 8 => Some "Victoire 1945"
         | _, _ => Some "Ascension"
         end
    /\ getDay (dayDate (E + 50)) = Some 1
    /\ holidayNameOn (dayDate (E + 50)) = Some "Lundi de Pentecôte".
Proof.
  intro Hy. destruct (easter_day y Hy) as [E [HE [HR HS]]].
  exists E. split; [exact HE |].
  set (M := daysFromCivil y 3 1) in *.
  assert (HD : forall k, getDay (dayDate (E + k)) = Some ((E + k + 4) mod 7)).
  { intro k. unfold dayDate, getDay. rewrite msPerDay_div. reflexivity. }
  rewrite !HD.
  assert (HO : forall k, 0 <= k <= 50 ->
             exists m d,
               3 <= m <= 12 /\ 1 <= d <= monthLen m
               /\ E - M + k = (153 * (m - 3) + 2) / 5 + d - 1
               /\ getMonth (dayDate (E + k)) = Some (m - 1)
               /\ getDate (dayDate (E + k)) = Some d
               /\ holidayNameOn (dayDate (E + k)) = calendarHoliday m d k).
  { intros k Hk.
    destruct (holidayNameOn_after_march y E (E - M + k) Hy HE ltac:(lia))
      as [m [d H]].
    fold M in H. replace (M + (E - M + k)) with (E + k) in H by lia.
    replace (E + k - E) with k in H by lia.
    exists m, d. exact H. }
  replace (dayDate E) with (dayDate (E + 0)) by (f_equal; lia).
  destruct (HO 0 ltac:(lia)) as [m0 [d0 [Hm0 [Hd0 [Hj0 [_ [_ H0]]]]]]].
  destruct (HO 1 ltac:(lia)) as [m1 [d1 [Hm1 [Hd1 [Hj1 [_ [_ H1]]]]]]].
  destruct (HO 39 ltac:(lia)) as [m2 [d2 [Hm2 [Hd2 [Hj2 [G2 [G2' H2]]]]]]].
  destruct (HO 50 ltac:(lia)) as [m3 [d3 [Hm3 [Hd3 [Hj3 [_ [_ H3]]]]]]].
  rewrite H0, H1, H2, H3, G2, G2'. clear H0 H1 H2 H3 G2 G2' HO HD HE.
  unfold calendarHoliday.
  change (0 =? 1) with false. change (0 =? 39) with false.
  change (0 =? 50) with false. change (1 =? 1) with true.
  change (39 =? 1) with false. change (39 =? 39) with true.
  change (50 =? 1) with false. change (50 =? 39) with false.
  change (50 =? 50) with true. cbv iota.
  split.
  { not_that_day. reflexivity. }
  split.
  { f_equal. Z.div_mod_to_equations. lia. }
  split.
  { not_that_day. reflexivity. }
  split.
  { f_equal. Z.div_mod_to_equations. lia. }
  split.
  { rewrite (andb_eqb_false m2 d2 1 1) by lia.
    assert (C : m2 = 5 /\ d2 = 1 \/ m2 = 5 /\ d2 = 8
                \/ (m2 - 1 <> 4 \/ d2 <> 1 /\ d2 <> 8)) by lia.
    destruct C as [[-> ->] | [[-> ->] | C]]; [reflexivity | reflexivity |].
    rewrite (andb_eqb_false m2 d2 5 1), (andb_eqb_false m2 d2 5 8) by lia.
    destruct (m2 - 1) as [| p | p] eqn:Ep; try reflexivity.
    destruct p as [p | p |]; try reflexivity.
    destruct p as [p | p |]; try reflexivity.
    destruct p as [p | p |]; try reflexivity.
    destruct C as [C | [C1 C2]]; [congruence |].
    destruct d2 as [| q | q]; try reflexivity.
    destruct q as [q | q |]; try reflexivity; [| congruence].
    destruct q as [q | q |]; try reflexivity.
    destruct q as [q | q |]; try reflexivity.
    destruct q as [q | q |]; try reflexivity. congruence. }
  split.
  { f_equal. Z.div_mod_to_equations. lia. }
  not_that_day. reflexivity.
Qed.

Lemma easter_feasts_witness :
  100 <= 2008 <= 275000
  /\ exists E,
       getEasterDate 2008 = dayDate E
       /\ holidayNameOn (dayDate E) = None
       /\ getDay (dayDate (E + 1)) = Some 1
       /\ holidayNameOn (dayDate (E + 1)) = Some "Lundi de Pâques"
       /\ getDay (dayDate (E + 39)) = Some 4
       /\ holidayNameOn (dayDate (E + 39))
          = match getMonth (dayDate (E + 39)), getDate (dayDate (E + 39)) with
            | Some 4, Some 1 => Some "Fête du Travail"
            | Some 4, Some 8 => Some "Victoire 1945"
            | _, _ => Some "Ascension"
            end
       /\ getDay (dayDate (E + 50)) = Some 1
       /\ holidayNameOn (dayDate (E + 50)) = Some "Lundi de Pentecôte".
Proof.
  assert (Hy : 100 <= 2008 <= 275000) by lia.
  split; [exact Hy |]. exact (easter_feasts 2008 Hy).
Defined.

Lemma holidayNameOn_newDate (y E m d : Z) :
  100 <= y <= 275000 ->
  getEasterDate y = TimeValue (E * msPerDay) ->
  1 <= m <= 12 -> 1 <= d <= monthLen m ->
  holidayNameOn (newDate (Some y) (Some (m - 1)) (Some d))
  = calendarHoliday m d (daysFromCivil y m d - E).
Proof.
  intros Hy HE Hm Hd.
  assert (Hd' : 1 <= d <= 31).
  { split; [lia |]. apply Z.le_trans with (monthLen m); [lia |].
    unfold monthLen.
    destruct (m =? 2); [lia |].
    destruct ((m =? 4) || (m =? 6) || (m =? 9) || (m =? 11)); lia. }
  rewrite (newDate_valid y m d Hy Hm Hd').
  pose proof (holidayNameOn_days (daysFromCivil y m d * msPerDay) y m d E) as H.
  rewrite msPerDay_div in H. apply H; [| exact Hy | exact HE].
  apply days_civil; assumption.
Qed.

Ltac on_day H m d :=
  let K := fresh in
  pose proof (H m d ltac:(lia) ltac:(cbn; lia)) as K;
  let c := eval compute in (m - 1) in
  change (m - 1) with c in K; rewrite K; clear K.

(** X21.  In every year from 100 to 275000, the eight holidays of fixed
    date are found under their own names: no feast that moves with Easter
    takes their place. *)
Theorem fixed_holidays (y : Z) :
  100 <= y <= 275000 ->
  let on m d := holidayNameOn (newDate (Some y) (Some m) (Some d)) in
  on 0 1 = Some "Jour de l'An"
  /\ on 4 1 = Some "Fête du Travail"
  /\ on 4 8 = Some "Victoire 1945"
  /\ on 6 14 = Some "Fête Nationale"
  /\ on 7 15 = Some "Assomption"
  /\ on 10 1 = Some "Toussaint"
  /\ on 10 11 = Some "Armistice 1918"
  /\ on 11 25 = Some "Noël".
Proof.
  intros Hy on. subst on. cbv beta.
  destruct (easter_day y Hy) as [E [HE [HR _]]].
  pose proof (fun m d => holidayNameOn_newDate y E m d Hy HE) as H.
  assert (HN : forall c k, k < c - 55 ->
             (daysFromCivil y 3 1 + c - E =? k) = false).
  { intros c k Hk. apply Z.eqb_neq. lia. }
  split; [| split; [| split; [| split; [| split; [| split; [| split]]]]]].
  - on_day H 1 1. reflexivity.
  - on_day H 5 1.
    rewrite (daysFromCivil_march y 5 1) by lia.
    unfold calendarHoliday.
    replace (daysFromCivil y 3 1 + (153 * (5 - 3) + 2) / 5 + 1 - 1 - E)
      with (daysFromCivil y 3 1 + 61 - E) by (cbn; lia).
    rewrite (HN 61 1) by lia. reflexivity.
  - on_day H 5 8.
    rewrite (daysFromCivil_march y 5 8) by lia.
    unfold calendarHoliday.
    replace (daysFromCivil y 3 1 + (153 * (5 - 3) + 2) / 5 + 8 - 1 - E)
      with (daysFromCivil y 3 1 + 68 - E) by (cbn; lia).
    rewrite (HN 68 1) by lia. reflexivity.
  - on_day H 7 14.
    rewrite (daysFromCivil_march y 7 14) by lia.
    unfold calendarHoliday.
    replace (daysFromCivil y 3 1 + (153 * (7 - 3) + 2) / 5 + 14 - 1 - E)
      with (daysFromCivil y 3 1 + 135 - E) by (cbn; lia).
    rewrite !HN by lia. reflexivity.
  - on_day H 8 15.
    rewrite (daysFromCivil_march y 8 15) by lia.
    unfold calendarHoliday.
    replace (daysFromCivil y 3 1 + (153 * (8 - 3) + 2) / 5 + 15 - 1 - E)
      with (daysFromCivil y 3 1 + 167 - E) by (cbn; lia).
    rewrite !HN by lia. reflexivity.
  - on_day H 11 1.
    rewrite (daysFromCivil_march y 11 1) by lia.
    unfold calendarHoliday.
    replace (daysFromCivil y 3 1 + (153 * (11 - 3) + 2) / 5 + 1 - 1 - E)
      with (daysFromCivil y 3 1 + 245 - E) by (cbn; lia).
    rewrite !HN by lia. reflexivity.
  - on_day H 11 11.
    rewrite (daysFromCivil_march y 11 11) by lia.
    unfold calendarHoliday.
    replace (daysFromCivil y 3 1 + (153 * (11 - 3) + 2) / 5 + 11 - 1 - E)
      with (daysFromCivil y 3 1 + 255 - E) by (cbn; lia).
    rewrite !HN by lia. reflexivity.
  - on_day H 12 25.
    rewrite (daysFromCivil_march y 12 25) by lia.
    unfold calendarHoliday.
    replace (daysFromCivil y 3 1 + (153 * (12 - 3) + 2) / 5 + 25 - 1 - E)
      with (daysFromCivil y 3 1 + 299 - E) by (cbn; lia).
    rewrite !HN by lia. reflexivity.
Qed.

Lemma fixed_holidays_witness :
  100 <= 2024 <= 275000
  /\ holidayNameOn (newDate (Some 2024) (Some 6) (Some 14))
     = Some "Fête Nationale".
Proof.
  assert (Hy : 100 <= 2024 <= 275000) by lia.
  split; [exact Hy |].
  destruct (fixed_holidays 2024 Hy) as [_ [_ [_ [H _]]]]. exact H.
Defined.

(** ** The week of a date *)

(** The days since the epoch of a civil date, in closed form. *)
Lemma daysFromCivil_closed (y m d : Z) :
  daysFromCivil y m d
  = let y' := if m <=? 2 then y - 1 else y in
    365 * y' + leapDays y'
    + (153 * (if m >? 2 then m - 3 else m + 9) + 2) / 5 + d - 1 - 719468.
Proof.
  unfold daysFromCivil, leapDays. cbv zeta.
  set (y' := if m <=? 2 then y - 1 else y).
  set (doy := (153 * (if m >? 2 then m - 3 else m + 9) + 2) / 5).
  clearbody y' doy. Z.div_mod_to_equations. lia.
Qed.

Lemma leapDays_succ (y : Z) : 0 <= leapDays (y + 1) - leapDays y <= 1.
Proof. unfold leapDays. Z.div_mod_to_equations. lia. Qed.

Lemma leapDays_mono (a b : Z) : a <= b -> leapDays a <= leapDays b.
Proof. unfold leapDays. intro H. Z.div_mod_to_equations. lia. Qed.

(** January 1 of a year. *)
Lemma jan1 (y : Z) :
  daysFromCivil y 1 1 = 365 * (y - 1) + leapDays (y - 1) + 306 - 719468.
Proof.
  rewrite daysFromCivil_closed.
  change (1 <=? 2) with true. change (1 >? 2) with false. cbv zeta iota.
  change ((153 * (1 + 9) + 2) / 5) with 306. lia.
Qed.

(** A day lies in the year of its civil date. *)
Lemma civil_year (z : Z) :
  let '(y, m, d) := civilFromDays z in
  daysFromCivil y 1 1 <= z < daysFromCivil (y + 1) 1 1.
Proof.
  pose proof (civil_days z) as H.
  destruct (civilFromDays z) as [[y m] d].
  destruct H as [H [Hm Hd]].
  rewrite !jan1. replace (y + 1 - 1) with y by lia.
  rewrite daysFromCivil_closed in H. cbv zeta in H.
  pose proof (leapDays_succ (y - 1)) as HL.
  replace (y - 1 + 1) with y in HL by lia.
  destruct (m <=? 2) eqn:E1; [apply Z.leb_le in E1 | apply Z.leb_gt in E1].
  - assert (E2 : (m >? 2) = false) by (rewrite Z.gtb_ltb; apply Z.ltb_ge; lia).
    rewrite E2 in H.
    assert (C : m = 1 \/ m = 2) by lia.
    cbv iota in H.
    destruct C as [-> | ->];
      [change ((153 * (1 + 9) + 2) / 5) with 306 in H
      | change ((153 * (2 + 9) + 2) / 5) with 337 in H]; lia.
  - assert (E2 : (m >? 2) = true) by (apply Z.gtb_lt; lia).
    rewrite E2 in H. cbv iota in H.
    assert (Hdoy : 0 <= (153 * (m - 3) + 2) / 5 <= 275)
      by (Z.div_mod_to_equations; lia).
    lia.
Qed.

Lemma yearOf_bounds (z : Z) :
  daysFromCivil (yearOf z) 1 1 <= z < daysFromCivil (yearOf z + 1) 1 1.
Proof.
  pose proof (civil_year z) as H. unfold yearOf.
  destruct (civilFromDays z) as [[y m] d]. exact H.
Qed.

(** A year has at least 365 days. *)
Lemma jan1_mono (a b : Z) : a <= b ->
  daysFromCivil a 1 1 + 365 * (b - a) <= daysFromCivil b 1 1.
Proof.
  intro H. rewrite !jan1. pose proof (leapDays_mono (a - 1) (b - 1)). lia.
Qed.

(** Days at most three days apart fall in the same year or in years next
    to each other. *)
Lemma yearOf_near (z t : Z) :
  z - 3 <= t <= z + 3 -> yearOf z - 1 <= yearOf t <= yearOf z + 1.
Proof.
  intro H. pose proof (yearOf_bounds z) as Hz. pose proof (yearOf_bounds t) as Ht.
  split.
  - destruct (Z_le_gt_dec (yearOf z - 1) (yearOf t)) as [L | L]; [exact L |].
    pose proof (jan1_mono (yearOf t + 1) (yearOf z - 1) ltac:(lia)).
    pose proof (jan1_mono (yearOf z - 1) (yearOf z) ltac:(lia)). lia.
  - destruct (Z_le_gt_dec (yearOf t) (yearOf z + 1)) as [L | L]; [exact L |].
    pose proof (jan1_mono (yearOf z + 2) (yearOf t) ltac:(lia)).
    pose proof (jan1_mono (yearOf z + 1) (yearOf z + 2) ltac:(lia)). lia.
Qed.

Lemma getters_day (z : Z) :
  let t := TimeValue (z * msPerDay) in
  let '(y, m, d) := civilFromDays z in
  getFullYear t = Some y /\ getMonth t = Some (m - 1) /\ getDate t = Some d.
Proof.
  cbv zeta. unfold getFullYear, getMonth, getDate. rewrite msPerDay_div.
  destruct (civilFromDays z) as [[y m] d]. repeat split.
Qed.

Lemma ceilDiv_days (x : Z) :
  ceilDiv (x * msPerDay + msPerDay) (7 * msPerDay) = x / 7 + 1.
Proof.
  unfold ceilDiv, msPerDay. Z.div_mod_to_equations. lia.
Qed.

(** The key of a date is made of the year and of the week number of the
    Thursday of its week. *)
Lemma getISOWeek_key (ms : Z) :
  101 <= yearOf (ms / msPerDay) <= 274999 ->
  let t := 7 * weekIndex (ms / msPerDay) in
  getISOWeek (TimeValue ms)
  = intToString (yearOf t) ++ "-S" ++ padStart0 2 (intToString (isoWeekNumber t)).
Proof.
  set (D := ms / msPerDay). intros Hy t.
  pose proof (civil_days D) as Hcd.
  unfold yearOf in Hy.
  destruct (civilFromDays D) as [[y m] dd] eqn:Hc.
  destruct Hcd as [H1 [Hm Hd]].
  assert (G0 : getFullYear (TimeValue ms) = Some y
               /\ getMonth (TimeValue ms) = Some (m - 1)
               /\ getDate (TimeValue ms) = Some dd).
  { unfold getFullYear, getMonth, getDate. fold D. rewrite Hc. repeat split. }
  destruct G0 as [G01 [G02 G03]].
  pose proof (getters_day D) as G1. cbv zeta in G1. rewrite Hc in G1.
  destruct G1 as [G11 [G12 G13]].
  pose proof (daysFromCivil_bounds y m dd ltac:(lia) Hm Hd) as HB.
  rewrite H1 in HB.
  set (r := (D + 4) mod 7).
  set (n := if r =? 0 then 7 else r).
  assert (Hr : 0 <= r < 7) by (subst r; Z.div_mod_to_equations; lia).
  assert (Hn7 : 1 <= n <= 7).
  { subst n. destruct (r =? 0) eqn:E; [lia |]. apply Z.eqb_neq in E. lia. }
  assert (Hn : match Some r with
               | Some 0 | None => Some 7
               | Some k => Some k
               end = Some n).
  { subst n. destruct r; reflexivity. }
  assert (Ht : D + 4 - n = t).
  { subst t n. unfold weekIndex. subst r.
    destruct ((D + 4) mod 7 =? 0) eqn:E;
      [apply Z.eqb_eq in E | apply Z.eqb_neq in E];
      Z.div_mod_to_equations; lia. }
  assert (Hnear : yearOf D - 1 <= yearOf t <= yearOf D + 1).
  { apply yearOf_near. lia. }
  assert (HyD : yearOf D = y) by (unfold yearOf; rewrite Hc; reflexivity).
  rewrite HyD in Hnear.
  unfold getISOWeek. rewrite G01, G02, G03.
  rewrite (newDate_valid y m dd ltac:(lia) Hm Hd), H1.
  cbv zeta.
  assert (Gd : getDay (TimeValue (D * msPerDay)) = Some r).
  { unfold getDay. rewrite msPerDay_div. reflexivity. }
  rewrite Gd, Hn, G13.
  assert (Hs : setDate (TimeValue (D * msPerDay)) (Some (dd + 4 - n))
               = TimeValue (t * msPerDay)).
  { unfold setDate. rewrite G11, G12. unfold makeDate.
    assert (Hq : (m - 1) / 12 = 0) by (Z.div_mod_to_equations; lia).
    assert (Hmod : (m - 1) mod 12 + 1 = m) by (Z.div_mod_to_equations; lia).
    rewrite Hq, Hmod, Z.add_0_r.
    replace (daysFromCivil y m 1 + (dd + 4 - n) - 1) with t
      by (pose proof (daysFromCivil_day y m dd); lia).
    apply timeClip_day. lia. }
  rewrite Hs.
  pose proof (getters_day t) as G2. cbv zeta in G2.
  assert (HyT : getFullYear (TimeValue (t * msPerDay)) = Some (yearOf t)).
  { unfold yearOf. destruct (civilFromDays t) as [[y2 m2] d2].
    destruct G2 as [G2 _]. exact G2. }
  rewrite HyT.
  pose proof (newDate_valid (yearOf t) 1 1 ltac:(lia) ltac:(lia) ltac:(lia))
    as HJ.
  change (Some (1 - 1)) with (Some 0) in HJ. rewrite HJ.
  cbn [getTime intOrNaNToString].
  replace (t * msPerDay - daysFromCivil (yearOf t) 1 1 * msPerDay + msPerDay)
    with ((t - daysFromCivil (yearOf t) 1 1) * msPerDay + msPerDay) by lia.
  rewrite ceilDiv_days. reflexivity.
Qed.

Lemma isoWeekNumber_range (t : Z) : 1 <= isoWeekNumber t <= 53.
Proof.
  unfold isoWeekNumber. pose proof (yearOf_bounds t) as H.
  rewrite !jan1 in *. replace (yearOf t + 1 - 1) with (yearOf t) in H by lia.
  pose proof (leapDays_succ (yearOf t - 1)) as HL.
  replace (yearOf t - 1 + 1) with (yearOf t) in HL by lia.
  Z.div_mod_to_equations. lia.
Qed.

Lemma string_of_uint_digits (d : Decimal.uint) :
  allDigits (NilEmpty.string_of_uint d) = true.
Proof. induction d; cbn [NilEmpty.string_of_uint allDigits]; auto. Qed.

Lemma intToString_digits (z : Z) : 0 <= z -> allDigits (intToString z) = true.
Proof.
  intro H. destruct z as [| p | p]; [reflexivity | | lia].
  unfold intToString. cbn [Z.to_int NilZero.string_of_int].
  unfold NilZero.string_of_uint.
  destruct (Pos.to_uint p) eqn:E; try (rewrite <- E; apply string_of_uint_digits).
  reflexivity.
Qed.

(** Different integers print differently. *)
Lemma intToString_inj (a b : Z) : intToString a = intToString b -> a = b.
Proof.
  unfold intToString. intro H.
  assert (N : forall z, Z.to_int z <> Decimal.Pos Decimal.Nil
                        /\ Z.to_int z <> Decimal.Neg Decimal.Nil).
  { intros [| p | p]; cbn; split; try discriminate;
      intro K; injection K as K; exact (DecimalPos.Unsigned.to_uint_nonnil p K). }
  apply (f_equal NilZero.int_of_string) in H.
  rewrite !NilZero.isi in H by apply N.
  injection H as H. apply (f_equal Z.of_int) in H.
  rewrite !DecimalZ.of_to in H. exact H.
Qed.

(** Digits before a dash are read back without ambiguity. *)
Lemma dash_split (s1 s2 r1 r2 : string) :
  allDigits s1 = true -> allDigits s2 = true ->
  s1 ++ String "-"%char r1 = s2 ++ String "-"%char r2 -> s1 = s2 /\ r1 = r2.
Proof.
  revert s2. induction s1 as [| c s1 IH]; intros [| c2 s2] H1 H2 H;
    cbn [append allDigits] in *.
  - injection H as H. split; [reflexivity | exact H].
  - injection H as Hc H. subst c2. discriminate.
  - injection H as Hc H. subst c. discriminate.
  - injection H as Hc H. subst c2.
    apply andb_prop in H1, H2.
    destruct (IH s2 (proj2 H1) (proj2 H2) H) as [-> ->]. split; reflexivity.
Qed.

(** A week number printed on two digits is read back. *)
Lemma weekNumber_read (w : Z) :
  1 <= w <= 53 -> fixedDigits 2 (padStart0 2 (intToString w)) = Some w.
Proof.
  intro H. rewrite <- (Z2Nat.id w) by lia.
  assert (Hn : (Z.to_nat w < 54)%nat) by lia.
  set (n := Z.to_nat w) in *. clearbody n. clear H.
  do 54 (destruct n as [| n]; [vm_compute; reflexivity |]). lia.
Qed.

Lemma getFullYear_yearOf (ms : Z) :
  getFullYear (TimeValue ms) = Some (yearOf (ms / msPerDay)).
Proof.
  unfold getFullYear, yearOf.
  destruct (civilFromDays (ms / msPerDay)) as [[y m] d]. reflexivity.
Qed.

Lemma getFullYear_inv (ms y : Z) :
  getFullYear (TimeValue ms) = Some y -> yearOf (ms / msPerDay) = y.
Proof. rewrite getFullYear_yearOf. intro H. injection H as H. exact H. Qed.

(** X22.  For a date of a year from 101 to 274999, the week key is the
    ISO 8601 one: the year printed is the year of the Thursday of the
    Monday-to-Sunday week of the date (the year of the date, the one before
    or the one after), and the week number, from 1 to 53 and printed on two
    digits, counts the Thursdays of that year up to this one. *)
Theorem getISOWeek_thursday (ms y : Z) :
  getFullYear (TimeValue ms) = Some y ->
  101 <= y <= 274999 ->
  let t := 7 * weekIndex (ms / msPerDay) in
  t - 3 <= ms / msPerDay <= t + 3
  /\ getDay (dayDate t) = Some 4
  /\ y - 1 <= yearOf t <= y + 1
  /\ 1 <= isoWeekNumber t <= 53
  /\ getISOWeek (TimeValue ms)
     = intToString (yearOf t) ++ "-S"
       ++ padStart0 2 (intToString (isoWeekNumber t)).
Proof.
  intros Hg Hy t. apply getFullYear_inv in Hg.
  assert (Ht : t - 3 <= ms / msPerDay <= t + 3)
    by (subst t; unfold weekIndex; Z.div_mod_to_equations; lia).
  split; [exact Ht |]. split.
  { unfold dayDate, getDay. rewrite msPerDay_div. f_equal. subst t.
    Z.div_mod_to_equations. lia. }
  split.
  { rewrite <- Hg. apply yearOf_near. lia. }
  split; [apply isoWeekNumber_range |].
  apply getISOWeek_key. rewrite Hg. exact Hy.
Qed.

Lemma getISOWeek_thursday_witness :
  getFullYear (TimeValue 1735603200000) = Some 2024
  /\ getISOWeek (TimeValue 1735603200000) = "2025-S01".
Proof.
  assert (Hg : getFullYear (TimeValue 1735603200000) = Some 2024)
    by reflexivity.
  assert (Hy : 101 <= 2024 <= 274999) by lia.
  split; [exact Hg |].
  destruct (getISOWeek_thursday 1735603200000 2024 Hg Hy)
    as [_ [_ [_ [_ H]]]].
  rewrite H. reflexivity.
Defined.

(** X23.  Two dates of years from 101 to 274999 have the same week key
    exactly when they fall in the same Monday-to-Sunday week: the grouping
    of the entries by key is the grouping by calendar week. *)
Theorem getISOWeek_same_week (a b ya yb : Z) :
  getFullYear (TimeValue a) = Some ya -> 101 <= ya <= 274999 ->
  getFullYear (TimeValue b) = Some yb -> 101 <= yb <= 274999 ->
  getISOWeek (TimeValue a) = getISOWeek (TimeValue b)
  <-> weekIndex (a / msPerDay) = weekIndex (b / msPerDay).
Proof.
  intros Ha Hya Hb Hyb.
  apply getFullYear_inv in Ha, Hb.
  rewrite (getISOWeek_key a), (getISOWeek_key b) by (rewrite ?Ha, ?Hb; assumption).
  cbv zeta.
  set (ka := weekIndex (a / msPerDay)). set (kb := weekIndex (b / msPerDay)).
  split; [| intros ->; reflexivity].
  intro H.
  assert (Na : a / msPerDay - 3 <= 7 * ka <= a / msPerDay + 3)
    by (subst ka; unfold weekIndex; Z.div_mod_to_equations; lia).
  assert (Nb : b / msPerDay - 3 <= 7 * kb <= b / msPerDay + 3)
    by (subst kb; unfold weekIndex; Z.div_mod_to_equations; lia).
  pose proof (yearOf_near _ _ Na) as Ya. pose proof (yearOf_near _ _ Nb) as Yb.
  rewrite Ha in Ya. rewrite Hb in Yb.
  remember (7 * ka) as ta eqn:Eta. remember (7 * kb) as tb eqn:Etb.
  cbn [append] in H.
  apply dash_split in H; try (apply intToString_digits; lia).
  destruct H as [HY HW]. apply intToString_inj in HY.
  injection HW as HW.
  apply (f_equal (fixedDigits 2)) in HW.
  rewrite !weekNumber_read in HW by apply isoWeekNumber_range.
  injection HW as HW. unfold isoWeekNumber in HW. rewrite HY in HW.
  clearbody ka kb. Z.div_mod_to_equations. lia.
Qed.

Lemma getISOWeek_same_week_witness :
  getISOWeek (TimeValue 1735603200000) = getISOWeek (TimeValue 1735948800000).
Proof.
  assert (Ha : getFullYear (TimeValue 1735603200000) = Some 2024)
    by reflexivity.
  assert (Hb : getFullYear (TimeValue 1735948800000) = Some 2025)
    by reflexivity.
  destruct (getISOWeek_same_week 1735603200000 1735948800000 2024 2025
              Ha ltac:(lia) Hb ltac:(lia)) as [_ H].
  apply H. reflexivity.
Defined.

(** ** Night hours within the shift *)

Local Open Scope Q_scope.

(** A valid time is an offset in minutes within the day. *)
Lemma validTime_minutes (s : string) :
  validTime s -> exists a : Q, timeToMinutes s = Num a /\ 0 <= a /\ a < 1440.
Proof.
  intros [h [m [Hh [Hm ->]]]].
  pose proof (timeToMinutes_timeString h m Hh Hm) as H.
  destruct (timeToMinutes (timeString h m)) as [a | | |];
    cbn [num_eq ofZ] in H; try contradiction.
  exists a. split; [reflexivity |]. rewrite H.
  split; [change 0 with (inject_Z 0); rewrite <- Zle_Qle; lia |].
  change 1440 with (inject_Z 1440). rewrite <- Zlt_Qlt. lia.
Qed.

(** Rounding to hundredths of an hour keeps the order. *)
Lemma hundredths_mono (x y : Q) :
  x <= y ->
  inject_Z (Qfloor (x / 60 * 100 + (1 # 2))) / 100
  <= inject_Z (Qfloor (y / 60 * 100 + (1 # 2))) / 100.
Proof.
  intro H.
  assert (Hz : (Qfloor (x / 60 * 100 + (1 # 2))
                <= Qfloor (y / 60 * 100 + (1 # 2)))%Z).
  { apply Qfloor_resp_le.
    assert (x / 60 * 100 == x * (5 # 3)) by field.
    assert (y / 60 * 100 == y * (5 # 3)) by field. lra. }
  rewrite Zle_Qle in Hz.
  apply Qmult_le_compat_r; [exact Hz | discriminate].
Qed.

(** The night minutes of a shift, between 0 and the minutes from its start
    to its end. *)
Lemma night_minutes_bound (entry : DayEntry) (a b : Q) :
  start entry <> "" -> end_ entry <> "" ->
  timeToMinutes (start entry) = Num a ->
  timeToMinutes (end_ entry) = Num b ->
  0 <= a -> a < 1440 -> 0 <= b -> b < 1440 ->
  exists n : Q,
    calculateNightHours entry = minutesToHours (Num n)
    /\ 0 <= n
    /\ n <= (if Qlt_le_dec a b then b - a else b + 1440 - a).
Proof.
  intros Hs He Ha Hb Ha0 Ha1 Hb0 Hb1.
  unfold calculateNightHours.
  apply String.eqb_neq in Hs, He. rewrite Hs, He, Ha, Hb.
  cbn [orb]. cbv zeta.
  unfold CONFIG.nightStart, CONFIG.nightEnd, ofZ.
  change (inject_Z 21) with 21. change (inject_Z 6) with 6.
  unfold Math.min, Math.max, gt, lt, le, sub. cbn [neg add mul].
  num_cases; cbn [neg add mul]; num_cases; try lra;
    (eexists; split; [reflexivity | split; lra]).
Qed.

(** X24.  For a shift with valid start and end times and no break, the
    night hours are not negative and do not exceed the hours of the day,
    which do not exceed 24.  (Breaks are deducted from the hours of the
    day only, so that the bound needs the break to be zero.) *)
Theorem night_hours_within_shift (entry : DayEntry) :
  validTime (start entry) -> validTime (end_ entry) ->
  breakMinutes entry = Num 0 ->
  (Num 0 <=? calculateNightHours entry)%js = true
  /\ (calculateNightHours entry <=? calculateDailyHours entry)%js = true
  /\ (calculateDailyHours entry <=? Num 24)%js = true.
Proof.
  intros Vs Ve Hbr.
  pose proof (validTime_nonempty _ Vs) as Ns.
  pose proof (validTime_nonempty _ Ve) as Ne.
  destruct (validTime_minutes _ Vs) as [a [Ha [Ha0 Ha1]]].
  destruct (validTime_minutes _ Ve) as [b [Hb [Hb0 Hb1]]].
  destruct (night_minutes_bound entry a b Ns Ne Ha Hb Ha0 Ha1 Hb0 Hb1)
    as [n [Hn [Hn0 Hn1]]].
  set (w := if Qlt_le_dec a b then b - a else b + 1440 - a) in *.
  assert (Hw : 0 <= w /\ w <= 1440).
  { subst w. destruct (Qlt_le_dec a b); lra. }
  assert (Hd : calculateDailyHours entry
               = Math.max (Num 0) (minutesToHours (Num (w - 0)))).
  { unfold calculateDailyHours.
    apply String.eqb_neq in Ns, Ne. rewrite Ns, Ne. cbn [orb].
    fold (breakMinutes entry). rewrite Ha, Hb, Hbr. cbv zeta.
    subst w. unfold le.
    destruct (Qlt_le_dec a b); cbn [add sub neg]; reflexivity. }
  rewrite Hd, Hn, !minutesToHours_Num.
  pose proof (hundredths_nonneg n Hn0) as P0.
  pose proof (hundredths_mono n (w - 0) ltac:(lra)) as P1.
  pose proof (hundredths_mono (w - 0) 1440 ltac:(lra)) as P2.
  assert (E24 : inject_Z (Qfloor (1440 / 60 * 100 + (1 # 2))) / 100 == 24)
    by reflexivity.
  rewrite E24 in P2.
  set (vn := inject_Z (Qfloor (n / 60 * 100 + (1 # 2))) / 100) in *.
  set (v := inject_Z (Qfloor ((w - 0) / 60 * 100 + (1 # 2))) / 100) in *.
  clearbody vn v.
  unfold Math.max, lt, le.
  num_cases; repeat split; try reflexivity; try lra.
Qed.

Lemma night_hours_within_shift_witness :
  let entry := mkDayEntry "2024-05-06" "22:00" "06:00" (Num 0) in
  (calculateNightHours entry <=? calculateDailyHours entry)%js = true.
Proof.
  intro entry.
  assert (Vs : validTime (start entry))
    by (exists 22%Z, 0%Z; split; [lia | split; [lia | reflexivity]]).
  assert (Ve : validTime (end_ entry))
    by (exists 6%Z, 0%Z; split; [lia | split; [lia | reflexivity]]).
  assert (Hbr : breakMinutes entry = Num 0) by reflexivity.
  destruct (night_hours_within_shift entry Vs Ve Hbr) as [_ [H _]].
  exact H.
Defined.
